(** * BankSecure fraud-detection engine: a shallow embedding of [app_test.py]

    The development follows [AdvancedFraudDetectionEngine] of
    [src/app_test.py] and the decision logic of its Authentication Portal
    tab, with the database operations [add_user] and [get_user], the
    priority of a fraud alert and the clearing of the archive.

    Modelling conventions.
    - Python [int] is [Z], and a value bound to an SQLite INTEGER must fit
      64 bits.  The coordinates and the distance are binary64 floats
      (Rocq's primitive [float]), with IEEE 754 arithmetic, comparisons and
      square root; the values of [sin], [cos], [atan2] and [pow] are those
      of the platform's C library, a parameter [lib].  The other Python
      floats (biometric speeds, trust scores, random draws, confidences)
      only enter sums and comparisons with constants and are read as
      exact real numbers ([R]).
    - The sqlite connection, the wall clock and numpy's global random
      generator form the [world] that every engine method threads; a
      method is a state-and-exception computation [M A].
    - A [try: ... except: ...] block is [try_except]; a failing database
      is a connection whose [cursor()] raises.
    - [user] and [login] are Python dicts: a key may be absent, and
      [d['k']] then raises [KeyError].
    - Streamlit calls ([st.error], [st.success], ...) only render and are
      left out. *)

From Stdlib Require Import Floats.
From Stdlib Require Import Reals Lra Lia ZArith List String Ascii Bool.
Import ListNotations.

Open Scope string_scope.
Open Scope list_scope.
Open Scope Z_scope.
Open Scope R_scope.

(** ** Exceptions, results and the engine monad *)

Inductive exn : Type :=
| KeyError (key : string)
| TypeError
| ValueError
| OverflowError
| DatabaseError.

Inductive result (A : Type) : Type :=
| Ok (a : A)
| Raise (e : exn).
Arguments Ok {A} a.
Arguments Raise {A} e.

(** ** Float comparisons as booleans *)

Definition Rgtb (x y : R) : bool := if Rgt_dec x y then true else false.
Definition Rltb (x y : R) : bool := if Rlt_dec x y then true else false.
Definition Reqb (x y : R) : bool := if Req_dec_T x y then true else false.

(** ** The C library and the module [math]

    CPython's [math] functions and [float.__pow__] call the platform's C
    library.  IEEE 754 fixes the four operations, the comparisons and
    [sqrt], which are Rocq's primitive ones; it does not fix [sin], [cos],
    [atan2] and [pow], whose values are the library's own.  Of these the
    development takes as known only what the C standard (Annex F) fixes at
    zero: [sin(+0)] is [+0] and [cos(+0)] is 1. *)

Record libm : Type := mk_libm {
  c_sin : float -> float;
  c_cos : float -> float;
  c_atan2 : float -> float -> float;
  c_pow : float -> float -> float;
  c_sin_zero : c_sin 0 = 0%float;
  c_cos_zero : c_cos 0 = 1%float
}.

(** [x ** 2] on a float: [float_pow] with the exponent 2.0.  It settles
    nan, the infinities, zero and 1.0 itself, calls [pow] on the absolute
    value otherwise, and raises [OverflowError] when [pow] overflows. *)
Definition float_pow_2 (lib : libm) (x : float) : result float :=
  if is_nan x then Ok x
  else if is_infinity x then Ok (abs x)
  else if (x =? 0)%float then Ok 0%float
  else if (abs x =? 1)%float then Ok 1%float
  else let ix := c_pow lib (abs x) 2 in
       if is_infinity ix then Raise OverflowError else Ok ix.

Module math.

(** [math.pi], the double nearest to pi. *)
Definition pi : float := 0x1.921fb54442d18p+1%float.

(** [math.radians]: [x * (pi / 180.0)] *)
Definition radians (x : float) : float := (x * (pi / 180))%float.

(** [math.sin], [math.cos]: [ValueError] (math domain error) for an
    infinite argument. *)
Definition sin (lib : libm) (x : float) : result float :=
  if is_infinity x then Raise ValueError else Ok (c_sin lib x).

Definition cos (lib : libm) (x : float) : result float :=
  if is_infinity x then Raise ValueError else Ok (c_cos lib x).

(** [math.sqrt]: [ValueError] (math domain error) below zero. *)
Definition sqrt (x : float) : result float :=
  if (x <? 0)%float then Raise ValueError else Ok (PrimFloat.sqrt x).

(** C's [copysign]: the magnitude of [x] with the sign of [y]. *)
Definition copysign (x y : float) : float :=
  if get_sign y then (- abs x)%float else abs x.

(** [math.atan2 y x]: nan, the infinities and [y = 0] are settled by
    CPython itself ([m_atan2]), the other arguments by the library. *)
Definition atan2 (lib : libm) (y x : float) : float :=
  if is_nan x || is_nan y then nan
  else if is_infinity y then
    if is_infinity x then
      if get_sign x then copysign (0.75 * pi) y else copysign (0.25 * pi) y
    else copysign (0.5 * pi) y
  else if is_infinity x || (y =? 0)%float then
    if get_sign x then copysign pi y else copysign 0 y
  else c_atan2 lib y x.

End math.

(** ** Alerts

    An alert is a Python string.  Most are literals; three are f-strings
    with one formatted number.  The number is kept as a value: its
    rendering consists of digits, a sign or [inf]/[nan], so a search for
    an upper-case word is decided by the literal parts. *)

Inductive fmt_arg : Type :=
| FmtKm (distance : float) (* {distance:.0f} *)
| FmtInt (n : Z)           (* {swap_freq} *)
| FmtHour (hour : Z).      (* {hour:02d} *)

Inductive alert : Type :=
| Text (s : string)
| FText (pre : string) (arg : fmt_arg) (post : string).

(** [needle in hay] on Python strings. *)
Fixpoint str_in (needle hay : string) : bool :=
  String.prefix needle hay ||
  match hay with
  | EmptyString => false
  | String _ rest => str_in needle rest
  end.

Definition alert_contains (word : string) (a : alert) : bool :=
  match a with
  | Text s => str_in word s
  | FText pre _ post => str_in word pre || str_in word post
  end.

(** ** Python dicts for the profile and the attempt *)

(** A coordinate, in degrees: a finite float, as [st.number_input]
    returns it and a [REAL NOT NULL] column stores it. *)
Record coord : Type := mk_coord {
  degrees : float;
  degrees_finite : is_finite degrees = true
}.

Record pydict : Type := mk_pydict {
  user_id : option string;
  device_id : option string;
  sim_id : option string;
  lat : option coord;
  lon : option coord;
  keystroke_speed : option R;
  mouse_speed : option R
}.

(** A complete record: a [users] row, or the [login_data] dict built by
    the portal. *)
Record profile : Type := mk_profile {
  p_user_id : string;
  p_device_id : string;
  p_sim_id : string;
  p_lat : coord;
  p_lon : coord;
  p_keystroke_speed : R;
  p_mouse_speed : R
}.

Definition dict_of (p : profile) : pydict :=
  {| user_id := Some (p_user_id p);
     device_id := Some (p_device_id p);
     sim_id := Some (p_sim_id p);
     lat := Some (p_lat p);
     lon := Some (p_lon p);
     keystroke_speed := Some (p_keystroke_speed p);
     mouse_speed := Some (p_mouse_speed p) |}.

(** ** The world: database, clock and random generator *)

(** Row of [device_intelligence]: the columns the engine reads or writes,
    with values as the engine writes them (never NULL). *)
Record device_row : Type := mk_device_row {
  di_device_id : string;
  first_seen : string;
  last_seen : string;
  trust_score : R;
  is_emulator : bool;
  is_rooted : bool;
  suspicious_activity_count : Z
}.

(** Row of [sim_intelligence], likewise. *)
Record sim_row : Type := mk_sim_row {
  si_sim_id : string;
  first_registered : string;
  last_used : string;
  swap_frequency : Z;
  clone_detection_score : R;
  dual_sim_detected : bool
}.

(** Row of [fraud_patterns]; the three columns are nullable. *)
Record pattern_row : Type := mk_pattern_row {
  fp_device_id : option string;
  fp_sim_id : option string;
  confidence_score : option R
}.

(** Row of [attempts]; [at_timestamp] is the instant, in seconds, that
    sqlite's [datetime(timestamp)] denotes. *)
Record attempt_row : Type := mk_attempt_row {
  at_user_id : string;
  at_status : string;
  at_timestamp : Z
}.

Record world : Type := mk_world {
  db_up : bool;                          (* false: conn.cursor() raises *)
  users : list profile;
  device_intelligence : list device_row;
  sim_intelligence : list sim_row;
  fraud_patterns : list pattern_row;
  attempts : list attempt_row;
  clock_iso : string;                    (* datetime.now().isoformat() *)
  clock_hour : Z;                        (* datetime.now().hour *)
  sql_now : Z;                           (* sqlite's 'now', in seconds *)
  rng : nat -> R;                        (* the generator's future draws *)
  rng_pos : nat                          (* how many have been consumed *)
}.

Definition M (A : Type) : Type := world -> result A * world.

Definition ret {A : Type} (a : A) : M A := fun w => (Ok a, w).

Definition raise {A : Type} (e : exn) : M A := fun w => (Raise e, w).

Definition bind {A B : Type} (m : M A) (f : A -> M B) : M B :=
  fun w => match m w with
           | (Ok a, w') => f a w'
           | (Raise e, w') => (Raise e, w')
           end.

(** [try: body except: handler] with a bare or [Exception] clause. *)
Definition try_except {A : Type} (body handler : M A) : M A :=
  fun w => match body w with
           | (Ok a, w') => (Ok a, w')
           | (Raise _, w') => handler w'
           end.

Definition lift {A : Type} (r : result A) : M A := fun w => (r, w).

Declare Scope engine_scope.
Delimit Scope engine_scope with engine.
Notation "x <- m ;; k" := (bind m (fun x => k))
  (at level 61, m at next level, right associativity) : engine_scope.
Notation "m ;;; k" := (bind m (fun _ => k))
  (at level 61, right associativity) : engine_scope.
Notation "' pat <- m ;; k" := (bind m (fun x => match x with pat => k end))
  (at level 61, pat pattern, m at next level, right associativity) : engine_scope.
Open Scope engine_scope.

(** [d[key]] *)
Definition getitem {A : Type} (key : string) (field : option A) : M A :=
  match field with
  | Some v => ret v
  | None => raise (KeyError key)
  end.

(** [d.get(key, default)] *)
Definition get_default {A : Type} (field : option A) (default : A) : A :=
  match field with
  | Some v => v
  | None => default
  end.

(** [self.conn.cursor()] *)
Definition conn_cursor : M unit :=
  fun w => if db_up w then (Ok tt, w) else (Raise DatabaseError, w).

(** [np.random.random()]: the next draw of the generator. *)
Definition np_random_random : M R :=
  fun w => (Ok (rng w (rng_pos w)),
            mk_world (db_up w) (users w) (device_intelligence w)
                     (sim_intelligence w) (fraud_patterns w) (attempts w)
                     (clock_iso w) (clock_hour w) (sql_now w)
                     (rng w) (S (rng_pos w))).

(** [np.random.uniform(low, high)] *)
Definition np_random_uniform (low high : R) : M R :=
  u <- np_random_random ;; ret (low + (high - low) * u).

Definition datetime_now_isoformat : M string := fun w => (Ok (clock_iso w), w).
Definition datetime_now_hour : M Z := fun w => (Ok (clock_hour w), w).

(** ** SQL statements of the engine

    Each query is a function of the tables ([q_...]); the statement that
    runs it leaves the world unchanged. *)

(** [SELECT * FROM device_intelligence WHERE device_id=?], [fetchone()] *)
Definition q_device (device : string) (w : world) : option device_row :=
  find (fun r => String.eqb (di_device_id r) device) (device_intelligence w).

Definition select_device (device : string) : M (option device_row) :=
  fun w => (Ok (q_device device w), w).

(** [INSERT OR REPLACE INTO device_intelligence ...] and [commit()] *)
Definition insert_or_replace_device (row : device_row) : M unit :=
  fun w => (Ok tt,
            mk_world (db_up w) (users w)
                     (filter (fun r => negb (String.eqb (di_device_id r)
                                                        (di_device_id row)))
                             (device_intelligence w) ++ [row])
                     (sim_intelligence w) (fraud_patterns w) (attempts w)
                     (clock_iso w) (clock_hour w) (sql_now w)
                     (rng w) (rng_pos w)).

(** [SELECT si.* FROM sim_intelligence si JOIN users u
     ON si.sim_id = u.sim_id WHERE u.user_id = ?], [fetchone()] *)
Definition q_sim_of_user (user : string) (w : world) : option sim_row :=
  find (fun si =>
          existsb (fun u => String.eqb (p_user_id u) user &&
                            String.eqb (si_sim_id si) (p_sim_id u))
                  (users w))
       (sim_intelligence w).

Definition select_sim_of_user (user : string) : M (option sim_row) :=
  fun w => (Ok (q_sim_of_user user w), w).

(** [SELECT swap_frequency FROM sim_intelligence WHERE sim_id=?],
    [fetchone()] *)
Definition q_swap_frequency (sim : string) (w : world) : option Z :=
  option_map swap_frequency
             (find (fun r => String.eqb (si_sim_id r) sim) (sim_intelligence w)).

Definition select_swap_frequency (sim : string) : M (option Z) :=
  fun w => (Ok (q_swap_frequency sim w), w).

(** A Python [int] bound to a parameter of a statement must fit SQLite's
    64-bit INTEGER. *)
Definition sqlite_integer (n : Z) : bool :=
  (- 2 ^ 63 <=? n)%Z && (n <=? 2 ^ 63 - 1)%Z.

(** [INSERT OR REPLACE INTO sim_intelligence ...] and [commit()].  Binding
    a swap frequency that does not fit raises [OverflowError] and writes
    nothing. *)
Definition insert_or_replace_sim (row : sim_row) : M unit :=
  fun w => if sqlite_integer (swap_frequency row)
           then (Ok tt,
                 mk_world (db_up w) (users w) (device_intelligence w)
                          (filter (fun r => negb (String.eqb (si_sim_id r)
                                                             (si_sim_id row)))
                                  (sim_intelligence w) ++ [row])
                          (fraud_patterns w) (attempts w)
                          (clock_iso w) (clock_hour w) (sql_now w)
                          (rng w) (rng_pos w))
           else (Raise OverflowError, w).

Definition opt_string_eqb (column : option string) (value : string) : bool :=
  match column with
  | Some s => String.eqb s value
  | None => false
  end.

(** SQL [MAX] over a column: NULLs are skipped, no value gives NULL. *)
Fixpoint sql_max (values : list (option R)) : option R :=
  match values with
  | [] => None
  | None :: rest => sql_max rest
  | Some v :: rest =>
      match sql_max rest with
      | None => Some v
      | Some m => Some (Rmax v m)
      end
  end.

(** [SELECT MAX(confidence_score) FROM fraud_patterns
     WHERE device_id=? OR sim_id=?] *)
Definition q_max_confidence (device sim : string) (w : world) : option R :=
  sql_max (map confidence_score
               (filter (fun r => opt_string_eqb (fp_device_id r) device
                                 || opt_string_eqb (fp_sim_id r) sim)
                       (fraud_patterns w))).

(** Its [fetchone()]: an aggregate always yields one row, a 1-tuple. *)
Definition select_max_confidence (device sim : string) : M (list (option R)) :=
  fun w => (Ok [q_max_confidence device sim w], w).

(** [SELECT * FROM attempts WHERE user_id=? AND
     status IN ('BLOCKED', 'CHALLENGE') AND
     datetime(timestamp) > datetime('now', '-{} minutes')], [fetchall()] *)
Definition q_recent_attempts (user : string) (minutes : Z) (w : world)
  : list attempt_row :=
  filter (fun a => String.eqb (at_user_id a) user
                   && (String.eqb (at_status a) "BLOCKED"
                       || String.eqb (at_status a) "CHALLENGE")
                   && (sql_now w - minutes * 60 <? at_timestamp a)%Z)
         (attempts w).

Definition select_recent_attempts (user : string) (minutes : Z)
  : M (list attempt_row) :=
  fun w => (Ok (q_recent_attempts user minutes w), w).

(** [float(result)] where [result] is the fetched row, a tuple: [float()]
    takes a string or a number and raises [TypeError] on anything else. *)
Definition float_of_tuple (x : list (option R)) : M R := raise TypeError.

(** ** [AdvancedFraudDetectionEngine] *)

(** [self.risk_weights] *)
Module risk_weights.
Definition device_change_unknown : Z := 80.
Definition device_change_suspicious : Z := 60.
Definition device_change_known : Z := 35.
Definition sim_swap_multiple : Z := 90.
Definition sim_swap_first : Z := 65.
Definition sim_clone_detected : Z := 95.
Definition dual_sim_detected : Z := 70.
Definition impossible_travel : Z := 85.
Definition suspicious_velocity : Z := 55.
Definition behavioral_bot : Z := 90.
Definition behavioral_severe : Z := 70.
Definition behavioral_moderate : Z := 40.
Definition behavioral_minor : Z := 20.
Definition timing_suspicious : Z := 45.
Definition location_high_risk : Z := 60.
Definition emulator_detected : Z := 95.
Definition rooted_device : Z := 65.
Definition vpn_proxy : Z := 40.
Definition rapid_attempts : Z := 50.
Definition failed_pattern : Z := 55.
Definition phishing_indicators : Z := 75.
End risk_weights.

(** *** Helper methods *)

(** Sequencing of calls that can raise, outside the engine monad. *)
Definition and_then {A B : Type} (r : result A) (k : A -> result B)
  : result B :=
  match r with
  | Ok a => k a
  | Raise e => Raise e
  end.

Definition _calculate_distance (lib : libm) (lat1 lon1 lat2 lon2 : float)
  : result float :=
  let R := 6371%float in
  let dlat := math.radians (lat2 - lat1) in
  let dlon := math.radians (lon2 - lon1) in
  and_then (math.sin lib (dlat / 2)) (fun sin_dlat =>
  and_then (float_pow_2 lib sin_dlat) (fun sin_dlat_2 =>
  and_then (math.cos lib (math.radians lat1)) (fun cos_lat1 =>
  and_then (math.cos lib (math.radians lat2)) (fun cos_lat2 =>
  and_then (math.sin lib (dlon / 2)) (fun sin_dlon =>
  and_then (float_pow_2 lib sin_dlon) (fun sin_dlon_2 =>
  let a := (sin_dlat_2 + cos_lat1 * cos_lat2 * sin_dlon_2)%float in
  and_then (math.sqrt a) (fun sqrt_a =>
  and_then (math.sqrt (1 - a)) (fun sqrt_1a =>
  let c := (2 * math.atan2 lib sqrt_a sqrt_1a)%float in
  Ok (R * c)%float)))))))).

Definition _detect_sim_cloning (user login : pydict) : M R :=
  ls <- getitem "sim_id" (sim_id login) ;;
  us <- getitem "sim_id" (sim_id user) ;;
  if negb (String.eqb ls us) then np_random_uniform 0.1 0.9 else ret 0.

Definition _detect_dual_sim (sim : string) : M bool :=
  u <- np_random_random ;; ret (Rltb u 0.15).

Definition _detect_bot_behavior (login : pydict) : M bool :=
  let keystroke := get_default (keystroke_speed login) 0 in
  let mouse := get_default (mouse_speed login) 0 in
  ret (Reqb keystroke 100 && Reqb mouse 150).

Definition _assess_location_risk (lat lon : coord) : M R :=
  np_random_uniform 0 1.

Definition _check_fraud_patterns (login : pydict) : M (option R) :=
  try_except
    (conn_cursor ;;;
     ld <- getitem "device_id" (device_id login) ;;
     ls <- getitem "sim_id" (sim_id login) ;;
     result <- select_max_confidence ld ls ;;
     match result with
     | Some _ :: _ => v <- float_of_tuple result ;; ret (Some v)
     | _ => v <- np_random_uniform 0.1 0.4 ;; ret (Some v)
     end)
    (ret (Some 0)).

Definition _get_device_intelligence (device : string) : M (option device_row) :=
  try_except
    (conn_cursor ;;;
     result <- select_device device ;;
     ret result)
    (ret None).

Definition _update_device_intelligence (device user : string) : M unit :=
  try_except
    (conn_cursor ;;;
     now <- datetime_now_isoformat ;;
     let is_emulator := String.prefix "emulator_" device in
     is_rooted <- (if String.prefix "bot_" device then ret true
                   else u <- np_random_random ;; ret (Rltb u 0.05)) ;;
     trust_score <- (if is_emulator || is_rooted then ret 25
                     else np_random_uniform 70 95) ;;
     insert_or_replace_device
       (mk_device_row device now now trust_score is_emulator is_rooted 0))
    (ret tt).

Definition _get_sim_intelligence (user : string) : M (option sim_row) :=
  try_except
    (conn_cursor ;;;
     result <- select_sim_of_user user ;;
     ret result)
    (ret None).

Definition _update_sim_intelligence (sim user : string) : M unit :=
  try_except
    (conn_cursor ;;;
     now <- datetime_now_isoformat ;;
     result <- select_swap_frequency sim ;;
     let swap_freq := match result with
                      | Some f => (f + 1)%Z
                      | None => 1%Z
                      end in
     clone_score <- (if (1 <? swap_freq)%Z then np_random_uniform 0.1 0.8
                     else ret 0.1) ;;
     u <- np_random_random ;;
     let dual_sim := Rltb u 0.12 in
     insert_or_replace_sim
       (mk_sim_row sim now now swap_freq clone_score dual_sim))
    (ret tt).

Definition _get_recent_attempts (user : string) (minutes : Z)
  : M (list attempt_row) :=
  try_except
    (conn_cursor ;;;
     rows <- select_recent_attempts user minutes ;;
     ret rows)
    (ret []).

(** *** The seven analysis layers *)

Definition _analyze_device_intelligence (user login : pydict)
  : M (Z * list alert) :=
  ld <- getitem "device_id" (device_id login) ;;
  ud <- getitem "device_id" (device_id user) ;;
  if negb (String.eqb ld ud) then
    device_intel <- _get_device_intelligence ld ;;
    let '(risk, alerts) :=
      match device_intel with
      | Some di =>
          if is_emulator di then
            (risk_weights.emulator_detected,
             [Text "CRITICAL: Mobile emulator detected"])
          else if is_rooted di then
            (risk_weights.rooted_device,
             [Text "WARNING: Rooted/jailbroken device detected"])
          else if (3 <? suspicious_activity_count di)%Z then
            (risk_weights.device_change_suspicious,
             [Text "WARNING: Device with suspicious history"])
          else if Rltb (trust_score di) 30 then
            (risk_weights.device_change_suspicious,
             [Text "WARNING: Untrusted device"])
          else
            (risk_weights.device_change_known,
             [Text "INFO: Known device change"])
      | None =>
          (risk_weights.device_change_unknown,
           [Text "CRITICAL: Unknown device detected"])
      end in
    uu <- getitem "user_id" (user_id user) ;;
    _update_device_intelligence ld uu ;;;
    ret (risk, alerts)
  else ret (0%Z, []).

Definition _analyze_sim_intelligence (user login : pydict)
  : M (Z * list alert) :=
  ls <- getitem "sim_id" (sim_id login) ;;
  us <- getitem "sim_id" (sim_id user) ;;
  if negb (String.eqb ls us) then
    uu <- getitem "user_id" (user_id user) ;;
    sim_intel <- _get_sim_intelligence uu ;;
    clone_score <- _detect_sim_cloning user login ;;
    let '(risk1, alerts1) :=
      if Rgtb clone_score 0.8 then
        (risk_weights.sim_clone_detected,
         [Text "CRITICAL: SIM cloning detected"])
      else (0%Z, []) in
    dual <- _detect_dual_sim ls ;;
    let '(risk2, alerts2) :=
      if dual then
        ((risk1 + risk_weights.dual_sim_detected)%Z,
         alerts1 ++ [Text "WARNING: Dual SIM usage detected"])
      else (risk1, alerts1) in
    let '(risk3, alerts3) :=
      match sim_intel with
      | Some si =>
          let swap_freq := swap_frequency si in
          if (2 <? swap_freq)%Z then
            ((risk2 + risk_weights.sim_swap_multiple)%Z,
             alerts2 ++ [FText "CRITICAL: Multiple SIM swaps ("
                               (FmtInt swap_freq) " times)"])
          else if (0 <? swap_freq)%Z then
            ((risk2 + risk_weights.sim_swap_first)%Z,
             alerts2 ++ [Text "WARNING: Previous SIM swap detected"])
          else (risk2, alerts2)
      | None =>
          ((risk2 + risk_weights.sim_swap_first)%Z,
           alerts2 ++ [Text "WARNING: SIM card changed"])
      end in
    _update_sim_intelligence ls uu ;;;
    ret (risk3, alerts3)
  else ret (0%Z, []).

Definition _analyze_geospatial_intelligence (lib : libm) (user login : pydict)
  : M (Z * list alert) :=
  ulat <- getitem "lat" (lat user) ;;
  ulon <- getitem "lon" (lon user) ;;
  llat <- getitem "lat" (lat login) ;;
  llon <- getitem "lon" (lon login) ;;
  distance <- lift (_calculate_distance lib (degrees ulat) (degrees ulon)
                                        (degrees llat) (degrees llon)) ;;
  let '(risk1, alerts1) :=
    if (10000 <? distance)%float then
      (risk_weights.impossible_travel,
       [FText "CRITICAL: Impossible travel " (FmtKm distance) "km"])
    else if (5000 <? distance)%float then
      (risk_weights.impossible_travel,
       [FText "CRITICAL: Impossible travel " (FmtKm distance) "km"])
    else if (2000 <? distance)%float then
      (risk_weights.suspicious_velocity,
       [FText "WARNING: High-speed travel " (FmtKm distance) "km"])
    else if (500 <? distance)%float then
      (30%Z, [FText "INFO: New location " (FmtKm distance) "km away"])
    else (0%Z, []) in
  location_risk <- _assess_location_risk llat llon ;;
  if Rgtb location_risk 0.7 then
    ret ((risk1 + risk_weights.location_high_risk)%Z,
         alerts1 ++ [Text "WARNING: High-risk geographic area"])
  else ret (risk1, alerts1).

Definition _analyze_behavioral_biometrics (user login : pydict)
  : M (Z * list alert) :=
  bot <- _detect_bot_behavior login ;;
  if bot then
    ret (risk_weights.behavioral_bot,
         [Text "CRITICAL: Automated/bot behavior detected"])
  else
    uk <- getitem "keystroke_speed" (keystroke_speed user) ;;
    lk <- getitem "keystroke_speed" (keystroke_speed login) ;;
    let keystroke_diff := Rabs (uk - lk) in
    um <- getitem "mouse_speed" (mouse_speed user) ;;
    lm <- getitem "mouse_speed" (mouse_speed login) ;;
    let mouse_diff := Rabs (um - lm) in
    let total_diff := keystroke_diff + mouse_diff in
    if Rgtb total_diff 150 then
      ret (risk_weights.behavioral_severe,
           [Text "CRITICAL: Severe behavioral anomaly"])
    else if Rgtb total_diff 100 then
      ret (risk_weights.behavioral_moderate,
           [Text "WARNING: Moderate behavioral change"])
    else if Rgtb total_diff 50 then
      ret (risk_weights.behavioral_minor,
           [Text "INFO: Minor behavioral variation"])
    else ret (0%Z, []).

Definition _analyze_temporal_patterns (user login : pydict)
  : M (Z * list alert) :=
  hour <- datetime_now_hour ;;
  let '(risk1, alerts1) :=
    if (hour <? 5)%Z || (23 <? hour)%Z then
      (risk_weights.timing_suspicious,
       [FText "WARNING: Unusual login time (" (FmtHour hour) ":xx)"])
    else (0%Z, []) in
  uu <- getitem "user_id" (user_id user) ;;
  recent_attempts <- _get_recent_attempts uu 10 ;;
  if (5 <? Z.of_nat (List.length recent_attempts))%Z then
    ret ((risk1 + risk_weights.rapid_attempts)%Z,
         alerts1 ++ [Text "WARNING: Multiple rapid attempts"])
  else ret (risk1, alerts1).

Definition _analyze_network_intelligence (user login : pydict)
  : M (Z * list alert) :=
  u <- np_random_random ;;
  if Rltb u 0.12 then
    ret (risk_weights.vpn_proxy, [Text "WARNING: VPN/Proxy usage detected"])
  else ret (0%Z, []).

Definition _analyze_fraud_patterns (user login : pydict)
  : M (Z * list alert) :=
  fraud_confidence <- _check_fraud_patterns login ;;
  match fraud_confidence with
  | Some c =>
      if Rgtb c 0.8 then
        ret (risk_weights.phishing_indicators,
             [Text "CRITICAL: Matches known fraud pattern"])
      else if Rgtb c 0.6 then
        ret (50%Z, [Text "WARNING: Similar to fraud pattern"])
      else ret (0%Z, [])
  | None => ret (0%Z, [])
  end.

(** [sum(1 for alert in alerts if word in alert)] *)
Definition count_alerts (word : string) (alerts : list alert) : Z :=
  fold_right (fun a n => if alert_contains word a then (1 + n)%Z else n)
             0%Z alerts.

(** [risk_breakdown]: a Python dict from layer name to its risk, in
    insertion order. *)
Definition breakdown : Type := list (string * Z).

(** [d[key] = value] *)
Fixpoint setitem (d : breakdown) (key : string) (value : Z) : breakdown :=
  match d with
  | [] => [(key, value)]
  | (k, v) :: rest =>
      if String.eqb k key then (k, value) :: rest
      else (k, v) :: setitem rest key value
  end.

Definition _calculate_ml_confidence (risk_breakdown : breakdown)
                                    (alerts : list alert) : R :=
  let critical_count := count_alerts "CRITICAL" alerts in
  let warning_count := count_alerts "WARNING" alerts in
  if (2 <=? critical_count)%Z then 0.95
  else if (1 <=? critical_count)%Z then 0.88
  else if (2 <=? warning_count)%Z then 0.82
  else 0.92.

Definition comprehensive_risk_analysis (lib : libm) (user login : pydict)
  : M (Z * list alert * breakdown * R) :=
  let total_risk := 0%Z in
  let alerts := [] in
  let risk_breakdown := [] in
  '(device_risk, device_alerts) <- _analyze_device_intelligence user login ;;
  let total_risk := (total_risk + device_risk)%Z in
  let alerts := alerts ++ device_alerts in
  let risk_breakdown := setitem risk_breakdown "device_analysis" device_risk in
  '(sim_risk, sim_alerts) <- _analyze_sim_intelligence user login ;;
  let total_risk := (total_risk + sim_risk)%Z in
  let alerts := alerts ++ sim_alerts in
  let risk_breakdown := setitem risk_breakdown "sim_analysis" sim_risk in
  '(geo_risk, geo_alerts) <- _analyze_geospatial_intelligence lib user login ;;
  let total_risk := (total_risk + geo_risk)%Z in
  let alerts := alerts ++ geo_alerts in
  let risk_breakdown := setitem risk_breakdown "geospatial_analysis" geo_risk in
  '(behavior_risk, behavior_alerts) <- _analyze_behavioral_biometrics user login ;;
  let total_risk := (total_risk + behavior_risk)%Z in
  let alerts := alerts ++ behavior_alerts in
  let risk_breakdown := setitem risk_breakdown "behavioral_analysis" behavior_risk in
  '(temporal_risk, temporal_alerts) <- _analyze_temporal_patterns user login ;;
  let total_risk := (total_risk + temporal_risk)%Z in
  let alerts := alerts ++ temporal_alerts in
  let risk_breakdown := setitem risk_breakdown "temporal_analysis" temporal_risk in
  '(network_risk, network_alerts) <- _analyze_network_intelligence user login ;;
  let total_risk := (total_risk + network_risk)%Z in
  let alerts := alerts ++ network_alerts in
  let risk_breakdown := setitem risk_breakdown "network_analysis" network_risk in
  '(pattern_risk, pattern_alerts) <- _analyze_fraud_patterns user login ;;
  let total_risk := (total_risk + pattern_risk)%Z in
  let alerts := alerts ++ pattern_alerts in
  let risk_breakdown := setitem risk_breakdown "pattern_analysis" pattern_risk in
  let ml_confidence := _calculate_ml_confidence risk_breakdown alerts in
  ret (Z.min total_risk 100, alerts, risk_breakdown, ml_confidence).

(** ** Decision logic of the Authentication Portal tab *)

Definition decision_status (risk_score : Z) (alerts : list alert) : string :=
  let critical_alerts := count_alerts "CRITICAL" alerts in
  if (80 <=? risk_score)%Z || (2 <=? critical_alerts)%Z then "BLOCKED"
  else if (50 <=? risk_score)%Z || (1 <=? critical_alerts)%Z then "CHALLENGE"
  else "APPROVED".

Record decision : Type := mk_decision {
  status : string;
  risk_score : Z;
  alerts : list alert;
  risk_breakdown : breakdown;
  ml_confidence : R
}.

(** The analysis followed by the decision logic, as the portal runs them
    for a registered user. *)
Definition authenticate (lib : libm) (user login : pydict) : M decision :=
  '(risk_score, alerts, risk_breakdown, ml_confidence)
     <- comprehensive_risk_analysis lib user login ;;
  let status := decision_status risk_score alerts in
  ret (mk_decision status risk_score alerts risk_breakdown ml_confidence).

(** ** Specification-side definitions *)

(** [x > k] on Python floats: false when [x] is nan. *)
Definition exceeds (x k : float) : Prop := (k <? x)%float = true.








(** What the distance function does on the coordinates of a profile and
    an attempt; [None] when one of them is missing. *)
Definition distance_of (lib : libm) (user login : pydict)
  : option (result float) :=
  match lat user, lon user, lat login, lon login with
  | Some ulat, Some ulon, Some llat, Some llon =>
      Some (_calculate_distance lib (degrees ulat) (degrees ulon)
                                (degrees llat) (degrees llon))
  | _, _, _, _ => None
  end.

(** The score delta of the rule that emits a given alert: every rule of
    the engine adds its weight and appends its message together. *)
Definition rule_table : list (string * Z) :=
  [("CRITICAL: Mobile emulator detected", risk_weights.emulator_detected);
   ("WARNING: Rooted/jailbroken device detected", risk_weights.rooted_device);
   ("WARNING: Device with suspicious history",
    risk_weights.device_change_suspicious);
   ("WARNING: Untrusted device", risk_weights.device_change_suspicious);
   ("INFO: Known device change", risk_weights.device_change_known);
   ("CRITICAL: Unknown device detected", risk_weights.device_change_unknown);
   ("CRITICAL: SIM cloning detected", risk_weights.sim_clone_detected);
   ("WARNING: Dual SIM usage detected", risk_weights.dual_sim_detected);
   ("CRITICAL: Multiple SIM swaps (", risk_weights.sim_swap_multiple);
   ("WARNING: Previous SIM swap detected", risk_weights.sim_swap_first);
   ("WARNING: SIM card changed", risk_weights.sim_swap_first);
   ("CRITICAL: Impossible travel ", risk_weights.impossible_travel);
   ("WARNING: High-speed travel ", risk_weights.suspicious_velocity);
   ("INFO: New location ", 30%Z);
   ("WARNING: High-risk geographic area", risk_weights.location_high_risk);
   ("CRITICAL: Automated/bot behavior detected", risk_weights.behavioral_bot);
   ("CRITICAL: Severe behavioral anomaly", risk_weights.behavioral_severe);
   ("WARNING: Moderate behavioral change", risk_weights.behavioral_moderate);
   ("INFO: Minor behavioral variation", risk_weights.behavioral_minor);
   ("WARNING: Unusual login time (", risk_weights.timing_suspicious);
   ("WARNING: Multiple rapid attempts", risk_weights.rapid_attempts);
   ("WARNING: VPN/Proxy usage detected", risk_weights.vpn_proxy);
   ("CRITICAL: Matches known fraud pattern", risk_weights.phishing_indicators);
   ("WARNING: Similar to fraud pattern", 50%Z)].

Definition alert_literal (a : alert) : string :=
  match a with
  | Text s => s
  | FText pre _ _ => pre
  end.

Definition rule_delta (a : alert) : Z :=
  match find (fun entry => String.eqb (fst entry) (alert_literal a)) rule_table with
  | Some entry => snd entry
  | None => 0%Z
  end.

Definition sum_deltas (al : list alert) : Z :=
  fold_right (fun a n => (rule_delta a + n)%Z) 0%Z al.

Definition sum_values (b : breakdown) : Z :=
  fold_right (fun entry n => (snd entry + n)%Z) 0%Z b.

(** A layer result all of whose score is explained by its alerts, at
    most [k] of them. *)
Definition explained (k : nat) (ra : Z * list alert) : Prop :=
  fst ra = sum_deltas (snd ra)
  /\ Forall (fun a => (0 < rule_delta a)%Z) (snd ra)
  /\ (List.length (snd ra) <= k)%nat.

(** What the location-risk rule adds after the distance rule. *)
Definition high_risk_area (location_risk : R) : Z * list alert :=
  if Rgtb location_risk 0.7
  then (risk_weights.location_high_risk,
        [Text "WARNING: High-risk geographic area"])
  else (0%Z, []).

(** What the clone rule and the dual-SIM rule add before the swap rule. *)
Definition clone_rule (clone_score : R) : Z * list alert :=
  if Rgtb clone_score 0.8
  then (risk_weights.sim_clone_detected,
        [Text "CRITICAL: SIM cloning detected"])
  else (0%Z, []).

Definition dual_sim_rule (u : R) : Z * list alert :=
  if Rltb u 0.15
  then (risk_weights.dual_sim_detected,
        [Text "WARNING: Dual SIM usage detected"])
  else (0%Z, []).


(** The value that the [i]-th next call of the generator returns. *)
Definition draw (w : world) (i : nat) : R := rng w (rng_pos w + i)%nat.


(** The breakdown dict with its seven entries. *)
Definition breakdown_of (device sim geo behavior temporal network pattern : Z)
  : breakdown :=
  [("device_analysis", device); ("sim_analysis", sim);
   ("geospatial_analysis", geo); ("behavioral_analysis", behavior);
   ("temporal_analysis", temporal); ("network_analysis", network);
   ("pattern_analysis", pattern)].

(** Two worlds with the same database and clock. *)
Definition same_store (w1 w2 : world) : Prop :=
  db_up w1 = db_up w2
  /\ users w1 = users w2
  /\ device_intelligence w1 = device_intelligence w2
  /\ sim_intelligence w1 = sim_intelligence w2
  /\ fraud_patterns w1 = fraud_patterns w2
  /\ attempts w1 = attempts w2
  /\ clock_iso w1 = clock_iso w2
  /\ clock_hour w1 = clock_hour w2
  /\ sql_now w1 = sql_now w2.

(** ... whose generators will also return the same next [n] draws. *)
Definition agree (n : nat) (w1 w2 : world) : Prop :=
  same_store w1 w2
  /\ forall i : nat, (i < n)%nat ->
       rng w1 (rng_pos w1 + i)%nat = rng w2 (rng_pos w2 + i)%nat.

(** A computation that reads at most [k] draws and nothing else that
    [agree] leaves open. *)
Definition deterministic {A : Type} (k : nat) (m : M A) : Prop :=
  forall (n : nat) (w1 w2 : world),
    agree (k + n) w1 w2 ->
    fst (m w1) = fst (m w2) /\ agree n (snd (m w1)) (snd (m w2)).

(** Every field the analysis reads with [d['k']] is present: the bot check
    reads the attempt's biometrics with [.get], and a bot attempt returns
    from the behavioural layer before any other biometric is read. *)
Definition is_bot (login : pydict) : Prop :=
  keystroke_speed login = Some 100 /\ mouse_speed login = Some 150.

Definition fields_present (user login : pydict) : Prop :=
  device_id login <> None /\ device_id user <> None
  /\ sim_id login <> None /\ sim_id user <> None
  /\ user_id user <> None
  /\ lat user <> None /\ lon user <> None
  /\ lat login <> None /\ lon login <> None
  /\ (is_bot login
      \/ (keystroke_speed user <> None /\ keystroke_speed login <> None
          /\ mouse_speed user <> None /\ mouse_speed login <> None)).

(** ** Scenarios *)

(** Coordinates, in degrees. *)
Definition at_0 : coord := mk_coord 0 eq_refl.
Definition at_1 : coord := mk_coord 1 eq_refl.
Definition at_10 : coord := mk_coord 10 eq_refl.
Definition at_30 : coord := mk_coord 30 eq_refl.
Definition at_60 : coord := mk_coord 60 eq_refl.
Definition at_82 : coord := mk_coord 82 eq_refl.
Definition at_82_south : coord := mk_coord (-82) eq_refl.
Definition at_180 : coord := mk_coord 180 eq_refl.

Definition alice : profile :=
  mk_profile "alice" "D1" "S1" at_0 at_0 170 200.

(** Empty intelligence tables, noon, every draw 0.5. *)
Definition w0 : world :=
  mk_world true [alice] [] [] [] [] "2025-01-01T12:00:00" 12 0
           (fun _ => 1 / 2) 0.

(** As [w0], the first draw 0.9 and every later one 0.05. *)
Definition w0_low : world :=
  mk_world true [alice] [] [] [] [] "2025-01-01T12:00:00" 12 0
           (fun n => match n with O => 9 / 10 | S _ => 1 / 20 end) 0.

(** As [w0] for the first nine draws. *)
Definition w0_tail : world :=
  mk_world true [alice] [] [] [] [] "2025-01-01T12:00:00" 12 0
           (fun n => if (n <? 9)%nat then 1 / 2 else 1 / 20) 0.

(** As [w0], the database connection broken. *)
Definition w_down : world :=
  mk_world false [alice] [] [] [] [] "2025-01-01T12:00:00" 12 0
           (fun _ => 1 / 2) 0.

(** As [w0], with a stored record of the SIM S2 whose swap frequency is the
    largest integer of SQLite, 2^63 - 1. *)
Definition w_sim_max : world :=
  mk_world true [alice] []
           [mk_sim_row "S2" "2024-12-01T09:00:00" "2024-12-01T09:00:00"
                       9223372036854775807 0.1 false]
           [] [] "2025-01-01T12:00:00" 12 0 (fun _ => 1 / 2) 0.

(** As [w0], with a stored record of alice's SIM that has no swap. *)
Definition w_sim0 : world :=
  mk_world true [alice] []
           [mk_sim_row "S1" "2024-12-01T09:00:00" "2024-12-01T09:00:00" 0 0.1 false]
           [] [] "2025-01-01T12:00:00" 12 0 (fun _ => 1 / 2) 0.

(** As [w0], with a known fraud pattern on device D1, confidence 0.9. *)
Definition w_pattern : world :=
  mk_world true [alice] [] []
           [mk_pattern_row (Some "D1") None (Some 0.9)]
           [] "2025-01-01T12:00:00" 12 0 (fun _ => 1 / 2) 0.

(** As [w0], with device D9 recorded as an emulator that is also rooted. *)
Definition w_emulator : world :=
  mk_world true [alice]
           [mk_device_row "D9" "2024-12-01T09:00:00" "2024-12-01T09:00:00"
                          25 true true 0]
           [] [] [] "2025-01-01T12:00:00" 12 0 (fun _ => 1 / 2) 0.

(** Attempts of alice: 30, 10, 1 and 60 degrees of longitude away. *)
Definition login_30deg : profile := mk_profile "alice" "D1" "S1" at_0 at_30 170 200.
Definition login_10deg : profile := mk_profile "alice" "D1" "S1" at_0 at_10 170 200.
Definition login_1deg : profile := mk_profile "alice" "D1" "S1" at_0 at_1 170 200.
Definition login_60deg : profile := mk_profile "alice" "D1" "S1" at_0 at_60 170 200.

(** Attempts of alice from another device, with another SIM. *)
Definition login_new_device : profile :=
  mk_profile "alice" "D2" "S1" at_0 at_0 170 200.
Definition login_emulator : profile :=
  mk_profile "alice" "D9" "S1" at_0 at_0 170 200.
Definition login_new_sim : profile :=
  mk_profile "alice" "D1" "S2" at_0 at_0 170 200.

(** An attempt against alice's profile under another user id. *)
Definition login_mallory : profile :=
  mk_profile "mallory" "D1" "S1" at_0 at_0 170 200.

(** An attempt from a new device that lacks its latitude. *)
Definition login_no_lat : pydict :=
  mk_pydict (Some "alice") (Some "D2") (Some "S1") None (Some at_0)
            (Some 170) (Some 200).

(** A user enrolled at 82 S, 0 E, and an attempt with the enrolled device
    and SIM from 82 N, 180 E, close to the antipode. *)
Definition nemo : profile :=
  mk_profile "nemo" "D1" "S1" at_82_south at_0 170 200.
Definition login_antipode : profile :=
  mk_profile "nemo" "D1" "S1" at_82 at_180 170 200.

(** As [w0], with nemo enrolled. *)
Definition w_nemo : world :=
  mk_world true [nemo] [] [] [] [] "2025-01-01T12:00:00" 12 0
           (fun _ => 1 / 2) 0.

(** The distances of the scenarios: 3335.847799336762, 1111.9492664455872,
    111.19492664455873 and 6671.695598673524 km. *)
Definition km_30deg : float := 0x1.a0fb212c131edp+11%float.
Definition km_10deg : float := 0x1.15fcc0c80cbf3p+10%float.
Definition km_1deg : float := 0x1.bcc79ad9adfecp+6%float.
Definition km_60deg : float := 0x1.a0fb212c131edp+12%float.

(** The C library at the arguments that the scenarios reach: the values
    that glibc 2.36 returns on x86-64, which CPython hands on unchanged.
    [sin] is tabulated on the absolute value with the sign restored, [cos]
    on the absolute value; nan stands for an argument outside the
    tables. *)
Definition glibc_sin (x : float) : float :=
  let v :=
    if (abs x =? 0x1.1df46a2529d39p-7)%float then 0x1.1df37c4954c21p-7%float
    else if (abs x =? 0x1.657184ae74487p-4)%float then 0x1.64fd6b8c28102p-4%float
    else if (abs x =? 0x1.0c152382d7365p-2)%float then 0x1.0907dc1930690p-2%float
    else if (abs x =? 0x1.0c152382d7365p-1)%float then 0x1.fffffffffffffp-2%float
    else if (abs x =? 0x1.6e6127ff9d971p+0)%float then 0x1.fb046a930947ap-1%float
    else if (abs x =? 0x1.921fb54442d18p+0)%float then 1%float
    else nan in
  if (x =? 0)%float then x
  else if (x <? 0)%float then (- v)%float
  else v.

Definition glibc_cos (x : float) : float :=
  if (x =? 0)%float then 1%float
  else if (abs x =? 0x1.6e6127ff9d971p+0)%float then 0x1.1d06c968d9e1ap-3%float
  else nan.

Definition glibc_atan2 (y x : float) : float :=
  if (y =? 0x1.1df37c4954c21p-7)%float && (x =? 0x1.fffb02599c9cdp-1)%float
  then 0x1.1df46a2529d39p-7%float
  else if (y =? 0x1.64fd6b8c28102p-4)%float && (x =? 0x1.fe0d3b41815a2p-1)%float
  then 0x1.657184ae74487p-4%float
  else if (y =? 0x1.0907dc1930690p-2)%float && (x =? 0x1.ee8dd4748bf15p-1)%float
  then 0x1.0c152382d7365p-2%float
  else if (y =? 0x1.fffffffffffffp-2)%float && (x =? 0x1.bb67ae8584caap-1)%float
  then 0x1.0c152382d7365p-1%float
  else nan.

Definition glibc_pow (x y : float) : float :=
  if (y =? 2)%float then
    if (x =? 0x1.1df37c4954c21p-7)%float then 0x1.3f680a5076462p-14%float
    else if (x =? 0x1.64fd6b8c28102p-4)%float then 0x1.f1d1cdfb8fa28p-8%float
    else if (x =? 0x1.0907dc1930690p-2)%float then 0x1.126145e9ecd55p-4%float
    else if (x =? 0x1.fffffffffffffp-2)%float then 0x1.ffffffffffffep-3%float
    else if (x =? 0x1.fb046a930947ap-1)%float then 0x1.f6153f1af3dc1p-1%float
    else nan
  else nan.

Definition glibc : libm :=
  mk_libm glibc_sin glibc_cos glibc_atan2 glibc_pow eq_refl eq_refl.

(** ** The portal around the engine *)

(** [SELECT * FROM users WHERE user_id=?], [fetchone()] *)
Definition q_user (user : string) (w : world) : option profile :=
  find (fun u => String.eqb (p_user_id u) user) (users w).

Definition select_user (user : string) : M (option profile) :=
  fun w => (Ok (q_user user w), w).

(** [INSERT INTO users ...] and [commit()].  [user_id] is the primary key
    of [users]: a second row under a stored id raises
    [sqlite3.IntegrityError], a [sqlite3.DatabaseError], and stores
    nothing. *)
Definition insert_user (row : profile) : M unit :=
  fun w => match q_user (p_user_id row) w with
           | Some _ => (Raise DatabaseError, w)
           | None =>
               (Ok tt,
                mk_world (db_up w) (users w ++ [row]) (device_intelligence w)
                         (sim_intelligence w) (fraud_patterns w) (attempts w)
                         (clock_iso w) (clock_hour w) (sql_now w)
                         (rng w) (rng_pos w))
           end.

(** [add_user(conn, user_data)].  The seven columns that the engine reads
    are taken with [user_data['k']]; the other columns are taken with
    [.get] and a default, which cannot fail, and are not part of the
    modelled row.  [st.error] only renders. *)
Definition add_user (user_data : pydict) : M bool :=
  try_except
    (conn_cursor ;;;
     uid <- getitem "user_id" (user_id user_data) ;;
     dev <- getitem "device_id" (device_id user_data) ;;
     sim <- getitem "sim_id" (sim_id user_data) ;;
     la <- getitem "lat" (lat user_data) ;;
     lo <- getitem "lon" (lon user_data) ;;
     ks <- getitem "keystroke_speed" (keystroke_speed user_data) ;;
     ms <- getitem "mouse_speed" (mouse_speed user_data) ;;
     insert_user (mk_profile uid dev sim la lo ks ms) ;;;
     ret true)
    (ret false).

(** [get_user(conn, user_id)]: the row as a dict, or [None]. *)
Definition get_user (uid : string) : M (option pydict) :=
  try_except
    (conn_cursor ;;;
     result <- select_user uid ;;
     match result with
     | Some row => ret (Some (dict_of row))
     | None => ret None
     end)
    (ret None).

(** [priority] of [NotificationSystem.send_fraud_alert]. *)
Definition priority (risk_score : Z) : string :=
  if (70 <=? risk_score)%Z then "CRITICAL"
  else if (50 <=? risk_score)%Z then "HIGH"
  else "MEDIUM".

(** [alert_type] of the portal's alert display. *)
Definition alert_type (a : alert) : string :=
  if alert_contains "CRITICAL" a then "CRITICAL"
  else if alert_contains "WARNING" a then "WARNING"
  else "INFO".



(** ** Further specification-side definitions *)

(** The messages of the engine: the literal alerts, and the f-string
    alerts by their text before and after the formatted number. *)
Definition literal_alerts : list string :=
  ["CRITICAL: Mobile emulator detected";
   "WARNING: Rooted/jailbroken device detected";
   "WARNING: Device with suspicious history";
   "WARNING: Untrusted device";
   "INFO: Known device change";
   "CRITICAL: Unknown device detected";
   "CRITICAL: SIM cloning detected";
   "WARNING: Dual SIM usage detected";
   "WARNING: Previous SIM swap detected";
   "WARNING: SIM card changed";
   "WARNING: High-risk geographic area";
   "CRITICAL: Automated/bot behavior detected";
   "CRITICAL: Severe behavioral anomaly";
   "WARNING: Moderate behavioral change";
   "INFO: Minor behavioral variation";
   "WARNING: Multiple rapid attempts";
   "WARNING: VPN/Proxy usage detected";
   "CRITICAL: Matches known fraud pattern";
   "WARNING: Similar to fraud pattern"].

Definition fstring_alerts : list (string * string) :=
  [("CRITICAL: Multiple SIM swaps (", " times)");
   ("CRITICAL: Impossible travel ", "km");
   ("WARNING: High-speed travel ", "km");
   ("INFO: New location ", "km away");
   ("WARNING: Unusual login time (", ":xx)")].

Definition in_vocabulary (a : alert) : Prop :=
  match a with
  | Text s => In s literal_alerts
  | FText pre _ post => In (pre, post) fstring_alerts
  end.

(** numpy's [random()] returns a float of the half-open interval
    [0.0, 1.0). *)
Definition unit_draws (w : world) : Prop :=
  forall i : nat, 0 <= rng w i < 1.

(** A [device_intelligence] row as [_update_device_intelligence] writes
    it. *)
Definition engine_device_row (r : device_row) : Prop :=
  suspicious_activity_count r = 0%Z
  /\ is_emulator r = String.prefix "emulator_" (di_device_id r)
  /\ (is_emulator r || is_rooted r = true -> trust_score r = 25)
  /\ (is_emulator r || is_rooted r = false -> 70 <= trust_score r < 95).

(** What the device layer reports for a changed device that has the
    stored row [di]. *)
Definition known_device_rule (di : device_row) : Z * list alert :=
  if is_emulator di then
    (95%Z, [Text "CRITICAL: Mobile emulator detected"])
  else if is_rooted di then
    (65%Z, [Text "WARNING: Rooted/jailbroken device detected"])
  else (35%Z, [Text "INFO: Known device change"]).

(** The swap frequency that [_update_sim_intelligence] computes for the
    SIM [sim]: one more than the stored one, 1 without a record. *)
Definition counted_swaps (sim : string) (w : world) : Z :=
  match q_swap_frequency sim w with
  | Some f => (f + 1)%Z
  | None => 1%Z
  end.

(** The user id [uid] is enrolled with the SIM [sim] wherever it is
    stored. *)
Definition enrolled_sim (uid sim : string) (w : world) : Prop :=
  forall u : profile,
    In u (users w) -> p_user_id u = uid -> p_sim_id u = sim.

(** No two stored users share a user id: [user_id] is the primary key of
    [users]. *)
Definition unique_user_ids (w : world) : Prop :=
  NoDup (map p_user_id (users w)).

(** A computation all of whose runs, returning or raising, take a world
    to one related to it by [Inv]. *)
Definition keeps (Inv : world -> world -> Prop) {A : Type} (m : M A) : Prop :=
  forall w : world, Inv w (snd (m w)).

(** What no method of the engine writes: the connection, the tables
    [users], [fraud_patterns] and [attempts], the clock readings and the
    generator's stream, of which draws are only consumed. *)
Definition same_frame (w w' : world) : Prop :=
  db_up w' = db_up w
  /\ users w' = users w
  /\ fraud_patterns w' = fraud_patterns w
  /\ attempts w' = attempts w
  /\ clock_iso w' = clock_iso w
  /\ clock_hour w' = clock_hour w
  /\ sql_now w' = sql_now w
  /\ rng w' = rng w
  /\ (rng_pos w <= rng_pos w')%nat.

Definition same_device_table (w w' : world) : Prop :=
  device_intelligence w' = device_intelligence w.

Definition same_sim_table (w w' : world) : Prop :=
  sim_intelligence w' = sim_intelligence w.

(** The row that [_update_device_intelligence] writes for [device] in the
    world [w]: the flags from the id's prefix and the next draw, the trust
    score from the draw after it. *)
Definition written_device_row (device : string) (w : world) : device_row :=
  let is_emulator := String.prefix "emulator_" device in
  let is_rooted := String.prefix "bot_" device || Rltb (draw w 0) 0.05 in
  let trust_score := if is_emulator || is_rooted then 25
                     else 70 + (95 - 70) * draw w 1 in
  mk_device_row device (clock_iso w) (clock_iso w) trust_score
                is_emulator is_rooted 0.


(** ** Further scenarios *)

(** An attempt of alice with the biometrics of the bot check. *)
Definition login_bot : profile := mk_profile "alice" "D1" "S1" at_0 at_0 100 150.

(** As [w0], at two in the morning and at eleven in the evening. *)
Definition w_2am : world :=
  mk_world true [alice] [] [] [] [] "2025-01-01T02:00:00" 2 0
           (fun _ => 1 / 2) 0.

Definition w_11pm : world :=
  mk_world true [alice] [] [] [] [] "2025-01-01T23:00:00" 23 0
           (fun _ => 1 / 2) 0.

(** * Properties *)

(** ** Deciding float and string comparisons *)

Lemma Rgtb_true (x y : R) : x > y -> Rgtb x y = true.
Proof. intros H. unfold Rgtb. destruct (Rgt_dec x y); [reflexivity|contradiction]. Qed.

Lemma Rgtb_false (x y : R) : ~ x > y -> Rgtb x y = false.
Proof. intros H. unfold Rgtb. destruct (Rgt_dec x y); [contradiction|reflexivity]. Qed.

Lemma Rltb_true (x y : R) : x < y -> Rltb x y = true.
Proof. intros H. unfold Rltb. destruct (Rlt_dec x y); [reflexivity|contradiction]. Qed.

Lemma Rltb_false (x y : R) : ~ x < y -> Rltb x y = false.
Proof. intros H. unfold Rltb. destruct (Rlt_dec x y); [contradiction|reflexivity]. Qed.

Lemma Reqb_true (x y : R) : x = y -> Reqb x y = true.
Proof. intros H. unfold Reqb. destruct (Req_dec_T x y); [reflexivity|contradiction]. Qed.

Lemma Reqb_false (x y : R) : x <> y -> Reqb x y = false.
Proof. intros H. unfold Reqb. destruct (Req_dec_T x y); [contradiction|reflexivity]. Qed.

Lemma Rgtb_spec (x y : R) : reflect (x > y) (Rgtb x y).
Proof. unfold Rgtb. destruct (Rgt_dec x y); constructor; assumption. Qed.

Lemma Rltb_spec (x y : R) : reflect (x < y) (Rltb x y).
Proof. unfold Rltb. destruct (Rlt_dec x y); constructor; assumption. Qed.


Lemma negb_eqb_true (a b : string) : negb (String.eqb a b) = true <-> a <> b.
Proof.
  rewrite negb_true_iff. split.
  - intros H ->. rewrite String.eqb_refl in H. discriminate.
  - intros H. now apply String.eqb_neq.
Qed.

Lemma negb_eqb_false (a b : string) : negb (String.eqb a b) = false <-> a = b.
Proof. rewrite negb_false_iff. apply String.eqb_eq. Qed.

Ltac reflect_conds :=
  repeat match goal with
         | H : negb (String.eqb _ _) = true |- _ => apply negb_eqb_true in H
         | H : negb (String.eqb _ _) = false |- _ => apply negb_eqb_false in H
         | H : Rgtb ?x ?y = true |- _ =>
             destruct (Rgtb_spec x y); [clear H|discriminate H]
         | H : Rgtb ?x ?y = false |- _ =>
             destruct (Rgtb_spec x y); [discriminate H|clear H]
         | H : Rltb ?x ?y = true |- _ =>
             destruct (Rltb_spec x y); [clear H|discriminate H]
         | H : Rltb ?x ?y = false |- _ =>
             destruct (Rltb_spec x y); [discriminate H|clear H]
         | H : (_ <? _)%Z = true |- _ => apply Z.ltb_lt in H
         | H : (_ <? _)%Z = false |- _ => apply Z.ltb_ge in H
         end.

(** ** The haversine distance *)

(** Only [ValueError] and [OverflowError] escape the distance function. *)
Lemma _calculate_distance_raises (lib : libm) (lat1 lon1 lat2 lon2 : float)
      (e : exn) :
  _calculate_distance lib lat1 lon1 lat2 lon2 = Raise e ->
  e = ValueError \/ e = OverflowError.
Proof.
  unfold _calculate_distance, and_then, math.sin, math.cos, math.sqrt,
    float_pow_2.
  repeat match goal with
         | |- context [if ?b then _ else _] => destruct b
         end;
    intros H; inversion H; auto.
Qed.

(** Between a point and itself at 0 N, 0 E the distance is 0. *)
Lemma distance_at_origin (lib : libm) :
  _calculate_distance lib 0 0 0 0 = Ok 0%float.
Proof.
  unfold _calculate_distance, and_then, math.sin, math.cos, math.radians,
    float_pow_2.
  cbn. rewrite (c_sin_zero lib). cbn. rewrite (c_cos_zero lib). cbn.
  reflexivity.
Qed.

(** The order of floats is transitive. *)
Lemma SFltb_trans (x y z : spec_float) :
  SFltb x y = true -> SFltb y z = true -> SFltb x z = true.
Proof.
  unfold SFltb, SFcompare.
  destruct x as [sx|sx| |sx mx ex], y as [sy|sy| |sy my ey],
           z as [sz|sz| |sz mz ez];
    try discriminate;
    repeat match goal with s : bool |- _ => destruct s end;
    try discriminate; try reflexivity.
  all: destruct (Z.compare_spec ex ey), (Z.compare_spec ey ez),
         (Z.compare_spec ex ez); try lia; try discriminate; try reflexivity.
  all: fold (Pos.compare mx my); fold (Pos.compare my mz);
    fold (Pos.compare mx mz);
    destruct (Pos.compare_spec mx my), (Pos.compare_spec my mz),
      (Pos.compare_spec mx mz); try lia; try discriminate; try reflexivity.
Qed.

Lemma ltb_trans (x y z : float) :
  (x <? y)%float = true -> (y <? z)%float = true -> (x <? z)%float = true.
Proof. rewrite !ltb_spec. apply SFltb_trans. Qed.

Lemma exceeds_less (x k k' : float) :
  (k' <? k)%float = true -> exceeds x k -> exceeds x k'.
Proof. unfold exceeds. intros H1 H2. eapply ltb_trans; eauto. Qed.

Lemma not_exceeds_more (x k k' : float) :
  (k <? k')%float = true -> ~ exceeds x k -> (k' <? x)%float = false.
Proof.
  intros H1 H2. destruct (k' <? x)%float eqn:E; [|reflexivity].
  exfalso. apply H2. eapply exceeds_less; eauto.
Qed.

Lemma not_exceeds (x k : float) : ~ exceeds x k -> (k <? x)%float = false.
Proof. unfold exceeds. now destruct (k <? x)%float. Qed.

(** ** Binary64 arithmetic *)






(** *** Negation *)





Lemma SFmul_comm (x y : spec_float) :
  SFmul prec emax x y = SFmul prec emax y x.
Proof.
  destruct x as [sx|sx| |sx mx ex], y as [sy|sy| |sy my ey]; cbn;
    try reflexivity; try (now destruct sx, sy).
  now rewrite xorb_comm, Pos.mul_comm, Z.add_comm.
Qed.


Lemma opp_involutive (x : float) : (- - x)%float = x.
Proof.
  apply Prim2SF_inj. rewrite !opp_spec.
  destruct (Prim2SF x) as [s|s| |s m e]; cbn; now rewrite ?negb_involutive.
Qed.







Lemma mul_comm (x y : float) : (x * y)%float = (y * x)%float.
Proof. apply Prim2SF_inj. rewrite !mul_spec. apply SFmul_comm. Qed.


(** *** Rounding keeps the sign, and small products are finite *)
















(** *** The distance function on floats *)






















(** ** Symbolic execution of engine code *)

(** Unfold the monad operations and the SQL statements; queries, helper
    methods and comparisons stay folded. *)
Ltac monad_red :=
  lazy beta iota zeta delta
      [bind ret raise lift try_except getitem conn_cursor
       np_random_random np_random_uniform datetime_now_isoformat
       datetime_now_hour select_device insert_or_replace_device
       select_sim_of_user select_swap_frequency insert_or_replace_sim
       select_max_confidence select_recent_attempts float_of_tuple dict_of];
  cbn [user_id device_id sim_id lat lon keystroke_speed mouse_speed
       db_up users device_intelligence sim_intelligence fraud_patterns
       attempts clock_iso clock_hour sql_now rng rng_pos fst snd].

Ltac monad_red_in H :=
  lazy beta iota zeta delta
      [bind ret raise lift try_except getitem conn_cursor
       np_random_random np_random_uniform datetime_now_isoformat
       datetime_now_hour select_device insert_or_replace_device
       select_sim_of_user select_swap_frequency insert_or_replace_sim
       select_max_confidence select_recent_attempts float_of_tuple dict_of]
    in H;
  cbn [user_id device_id sim_id lat lon keystroke_speed mouse_speed
       db_up users device_intelligence sim_intelligence fraud_patterns
       attempts clock_iso clock_hour sql_now rng rng_pos fst snd] in H.

(** ** The helper methods never raise *)

Lemma _get_device_intelligence_run (device : string) (w : world) :
  _get_device_intelligence device w
  = (Ok (if db_up w then q_device device w else None), w).
Proof.
  unfold _get_device_intelligence. monad_red. destruct (db_up w); reflexivity.
Qed.

Lemma _update_device_intelligence_ok (device user : string) (w : world) :
  fst (_update_device_intelligence device user w) = Ok tt.
Proof.
  unfold _update_device_intelligence. monad_red.
  destruct (db_up w); [|reflexivity].
  destruct (String.prefix "bot_" device); monad_red;
    destruct (String.prefix "emulator_" device); monad_red;
    try reflexivity;
    destruct (Rltb _ _); reflexivity.
Qed.

Lemma _get_sim_intelligence_run (user : string) (w : world) :
  _get_sim_intelligence user w
  = (Ok (if db_up w then q_sim_of_user user w else None), w).
Proof.
  unfold _get_sim_intelligence. monad_red. destruct (db_up w); reflexivity.
Qed.

Lemma _update_sim_intelligence_ok (sim user : string) (w : world) :
  fst (_update_sim_intelligence sim user w) = Ok tt.
Proof.
  unfold _update_sim_intelligence. monad_red.
  destruct (db_up w); [|reflexivity].
  destruct (q_swap_frequency sim w) as [f|]; destruct (Z.ltb _ _);
    cbn [swap_frequency]; destruct (sqlite_integer _); reflexivity.
Qed.

Lemma _get_recent_attempts_run (user : string) (minutes : Z) (w : world) :
  _get_recent_attempts user minutes w
  = (Ok (if db_up w then q_recent_attempts user minutes w else []), w).
Proof.
  unfold _get_recent_attempts. monad_red. destruct (db_up w); reflexivity.
Qed.

(** The pattern lookup returns a number whatever happens: 0.0 when the
    database fails or a key is missing, 0.0 again when a matching record
    exists ([float] of the row raises [TypeError], which the handler
    swallows), and a draw from [0.1, 0.4) when there is none. *)
Lemma _check_fraud_patterns_run (login : pydict) (w : world) :
  (db_up w = true
   /\ (exists ld ls, device_id login = Some ld /\ sim_id login = Some ls
                     /\ q_max_confidence ld ls w = None)
   /\ _check_fraud_patterns login w
      = (Ok (Some (0.1 + (0.4 - 0.1) * rng w (rng_pos w))),
         snd (np_random_random w)))
  \/ (~ (db_up w = true
         /\ exists ld ls, device_id login = Some ld /\ sim_id login = Some ls
                          /\ q_max_confidence ld ls w = None)
      /\ _check_fraud_patterns login w = (Ok (Some 0), w)).
Proof.
  unfold _check_fraud_patterns. monad_red.
  destruct (db_up w) eqn:Hup.
  2:{ right. split; [intros [H _]; discriminate|reflexivity]. }
  destruct (device_id login) as [ld|] eqn:Hd.
  2:{ right. split; [|reflexivity]. intros [_ (ld & ls & H & _)]. discriminate. }
  destruct (sim_id login) as [ls|] eqn:Hs.
  2:{ right. split; [|reflexivity]. intros [_ (ld' & ls & _ & H & _)]. discriminate. }
  monad_red.
  destruct (q_max_confidence ld ls w) as [c|] eqn:Hq.
  - right. split; [|reflexivity].
    intros [_ (ld' & ls' & H1 & H2 & H3)].
    inversion H1; inversion H2; subst. rewrite Hq in H3. discriminate.
  - left. split; [reflexivity|]. split; [|rewrite Hup; reflexivity].
    exists ld, ls. auto.
Qed.

(** Stepping through a run, in a hypothesis and in the goal: reduce, use
    what is known of the helper methods, split on the next condition. *)

Ltac split_cond H :=
  match type of H with
  | context [if ?b then _ else _] => destruct b eqn:?
  | context [match ?x with Some _ => _ | None => _ end] => destruct x eqn:?
  | context [match ?x with Ok _ => _ | Raise _ => _ end] => destruct x eqn:?
  end.

Ltac helper_step H :=
  match type of H with
  | context [_get_device_intelligence ?d ?w] =>
      rewrite (_get_device_intelligence_run d w) in H
  | context [_get_sim_intelligence ?u ?w] =>
      rewrite (_get_sim_intelligence_run u w) in H
  | context [_get_recent_attempts ?u ?m ?w] =>
      rewrite (_get_recent_attempts_run u m w) in H
  | context [_update_device_intelligence ?d ?u ?w] =>
      let E := fresh "E" in
      pose proof (_update_device_intelligence_ok d u w) as E;
      destruct (_update_device_intelligence d u w);
      cbn [fst] in E; subst
  | context [_update_sim_intelligence ?d ?u ?w] =>
      let E := fresh "E" in
      pose proof (_update_sim_intelligence_ok d u w) as E;
      destruct (_update_sim_intelligence d u w);
      cbn [fst] in E; subst
  end.

Ltac exec_in H :=
  repeat (monad_red_in H; try discriminate H;
          first [helper_step H | split_cond H]).

Ltac exec_goal :=
  repeat (monad_red;
          try match goal with
          | |- context [_get_device_intelligence ?d ?w] =>
              rewrite (_get_device_intelligence_run d w)
          | |- context [_get_sim_intelligence ?u ?w] =>
              rewrite (_get_sim_intelligence_run u w)
          | |- context [_get_recent_attempts ?u ?m ?w] =>
              rewrite (_get_recent_attempts_run u m w)
          | |- context [_update_device_intelligence ?d ?u ?w] =>
              let E := fresh "E" in
              pose proof (_update_device_intelligence_ok d u w) as E;
              destruct (_update_device_intelligence d u w);
              cbn [fst] in E; subst
          | |- context [_update_sim_intelligence ?d ?u ?w] =>
              let E := fresh "E" in
              pose proof (_update_sim_intelligence_ok d u w) as E;
              destruct (_update_sim_intelligence d u w);
              cbn [fst] in E; subst
          end).

(** ** Running the engine on a concrete world

    On closed inputs every comparison is decided: on reals by [lra], on
    floats, integers and strings by computation. *)

Ltac rdecide tac :=
  match goal with
  | |- context [Rgtb ?a ?b] =>
      first [rewrite (Rgtb_true a b) by tac | rewrite (Rgtb_false a b) by tac]
  | |- context [Rltb ?a ?b] =>
      first [rewrite (Rltb_true a b) by tac | rewrite (Rltb_false a b) by tac]
  | |- context [Reqb ?a ?b] =>
      first [rewrite (Reqb_true a b) by tac | rewrite (Reqb_false a b) by tac]
  end.

Ltac zdecide :=
  match goal with
  | |- context [Z.ltb ?a ?b] =>
      let v := eval vm_compute in (Z.ltb a b) in
      lazymatch v with
      | true => change (Z.ltb a b) with true
      | false => change (Z.ltb a b) with false
      end
  | |- context [Z.leb ?a ?b] =>
      let v := eval vm_compute in (Z.leb a b) in
      lazymatch v with
      | true => change (Z.leb a b) with true
      | false => change (Z.leb a b) with false
      end
  end.

Ltac sdecide :=
  match goal with
  | |- context [String.prefix ?a ?b] =>
      let v := eval vm_compute in (String.prefix a b) in
      lazymatch v with
      | true => change (String.prefix a b) with true
      | false => change (String.prefix a b) with false
      end
  end.

Ltac fdecide :=
  match goal with
  | |- context [PrimFloat.ltb ?a ?b] =>
      let v := eval vm_compute in (PrimFloat.ltb a b) in
      lazymatch v with
      | true => change (PrimFloat.ltb a b) with true
      | false => change (PrimFloat.ltb a b) with false
      end
  end.

Ltac ddecide :=
  match goal with
  | |- context [_calculate_distance glibc ?a ?b ?c ?d] =>
      let v := eval vm_compute in (_calculate_distance glibc a b c d) in
      change (_calculate_distance glibc a b c d) with v
  end.

Ltac engine_red :=
  lazy beta iota zeta delta
      [authenticate comprehensive_risk_analysis decision_status
       _calculate_ml_confidence
       _analyze_device_intelligence _analyze_sim_intelligence
       _analyze_geospatial_intelligence _analyze_behavioral_biometrics
       _analyze_temporal_patterns _analyze_network_intelligence
       _analyze_fraud_patterns _check_fraud_patterns _get_recent_attempts
       _get_device_intelligence _update_device_intelligence
       _get_sim_intelligence _update_sim_intelligence
       _detect_sim_cloning _detect_dual_sim
       _assess_location_risk _detect_bot_behavior
       bind ret raise lift try_except getitem get_default conn_cursor
       np_random_random np_random_uniform datetime_now_isoformat
       datetime_now_hour select_device insert_or_replace_device
       select_sim_of_user select_swap_frequency insert_or_replace_sim
       q_device q_sim_of_user q_swap_frequency q_max_confidence
       q_recent_attempts
       opt_string_eqb sql_max select_max_confidence select_recent_attempts
       float_of_tuple dict_of sqlite_integer
       user_id device_id sim_id lat lon keystroke_speed mouse_speed degrees
       at_0 at_1 at_10 at_30 at_60 at_82 at_82_south at_180
       p_user_id p_device_id p_sim_id p_lat p_lon p_keystroke_speed p_mouse_speed
       di_device_id first_seen last_seen trust_score is_emulator is_rooted
       suspicious_activity_count
       si_sim_id first_registered last_used swap_frequency
       clone_detection_score dual_sim_detected
       fp_device_id fp_sim_id confidence_score
       at_user_id at_status at_timestamp
       db_up users device_intelligence sim_intelligence fraud_patterns
       attempts clock_iso clock_hour sql_now rng rng_pos
       String.eqb Ascii.eqb Bool.eqb negb orb andb
       find filter existsb map app option_map List.length fst snd
       count_alerts fold_right alert_contains str_in setitem
       alice w0 w0_low w0_tail w_down w_sim0 w_sim_max w_pattern w_emulator
       login_30deg login_10deg login_1deg login_60deg login_new_device
       login_emulator login_new_sim login_mallory login_no_lat
       nemo login_antipode w_nemo
       high_risk_area clone_rule dual_sim_rule draw Nat.add].

Ltac rsolve :=
  unfold Rabs in *;
  repeat match goal with
         | |- context [Rcase_abs ?x] => destruct (Rcase_abs x)
         end;
  lra.

Ltac run_engine :=
  repeat (engine_red;
          try match goal with
              | |- context [_calculate_distance ?lib 0 0 0 0] =>
                  rewrite (distance_at_origin lib)
              end;
          try ddecide; try fdecide; try rdecide ltac:(rsolve); try zdecide;
          try sdecide).

Section Engine.

(** The C library of the platform: every statement of this section holds
    for each. *)
Variable lib : libm.

(** Nothing differs from the enrolled profile: score 0, approved. *)
Lemma scenario_unchanged :
  fst (authenticate lib (dict_of alice) (dict_of alice) w0)
  = Ok (mk_decision "APPROVED" 0 [] (breakdown_of 0 0 0 0 0 0 0) 0.92).
Proof. run_engine. reflexivity. Qed.

(** The same attempt on the same store with other draws: blocked. *)
Lemma scenario_unchanged_other_draws :
  fst (authenticate lib (dict_of alice) (dict_of alice) w0_low)
  = Ok (mk_decision "BLOCKED" 100
          [Text "WARNING: High-risk geographic area";
           Text "WARNING: VPN/Proxy usage detected"]
          (breakdown_of 0 0 60 0 0 40 0) 0.82).
Proof. run_engine. reflexivity. Qed.

(** A new device on empty intelligence tables. *)
Lemma scenario_new_device :
  fst (authenticate lib (dict_of alice) (dict_of login_new_device) w0)
  = Ok (mk_decision "BLOCKED" 80 [Text "CRITICAL: Unknown device detected"]
          (breakdown_of 80 0 0 0 0 0 0) 0.88).
Proof. run_engine. reflexivity. Qed.



(** The SIM layer for a changed SIM: a stored record without swaps, and no
    record. *)
Lemma scenario_sim_zero_swaps :
  fst (_analyze_sim_intelligence (dict_of alice) (dict_of login_new_sim) w_sim0)
  = Ok (0%Z, []).
Proof. run_engine. reflexivity. Qed.

Lemma scenario_sim_unknown :
  fst (_analyze_sim_intelligence (dict_of alice) (dict_of login_new_sim) w0)
  = Ok (65%Z, [Text "WARNING: SIM card changed"]).
Proof. run_engine. reflexivity. Qed.



(** The device layer for a device recorded as emulator and rooted. *)
Lemma scenario_emulator_and_rooted :
  fst (_analyze_device_intelligence (dict_of alice) (dict_of login_emulator)
                                    w_emulator)
  = Ok (95%Z, [Text "CRITICAL: Mobile emulator detected"]).
Proof. run_engine. reflexivity. Qed.

(** ** The decision policy *)

Lemma count_alerts_filter (word : string) (l : list alert) :
  count_alerts word l
  = Z.of_nat (List.length (filter (alert_contains word) l)).
Proof.
  unfold count_alerts.
  induction l as [|a l IH]; [reflexivity|].
  cbn [fold_right filter].
  destruct (alert_contains word a); cbn [List.length]; rewrite IH; lia.
Qed.

(** C1: every decision takes status BLOCKED when the score is at least 80
    or at least two alerts are CRITICAL, otherwise CHALLENGE when the score
    is at least 50 or at least one alert is CRITICAL, otherwise APPROVED;
    and the decision returned for an attempt carries exactly that status of
    its own score and alerts. *)
Theorem decision_policy :
  (forall (score : Z) (al : list alert),
     let c := Z.of_nat (List.length (filter (alert_contains "CRITICAL") al)) in
     ((80 <= score \/ 2 <= c)%Z -> decision_status score al = "BLOCKED")
     /\ (~ (80 <= score \/ 2 <= c)%Z -> (50 <= score \/ 1 <= c)%Z ->
         decision_status score al = "CHALLENGE")
     /\ (~ (80 <= score \/ 2 <= c)%Z -> ~ (50 <= score \/ 1 <= c)%Z ->
         decision_status score al = "APPROVED"))
  /\ (forall (user login : pydict) (w w' : world) (d : decision),
        authenticate lib user login w = (Ok d, w') ->
        status d = decision_status (risk_score d) (alerts d)).
Proof.
  split.
  - intros score al c. unfold decision_status.
    rewrite count_alerts_filter. fold c. clearbody c.
    destruct (Z.leb_spec 80 score), (Z.leb_spec 2 c),
             (Z.leb_spec 50 score), (Z.leb_spec 1 c); simpl;
      repeat split; intros; try reflexivity; exfalso; lia.
  - intros user login w w' d H. unfold authenticate, bind in H.
    destruct (comprehensive_risk_analysis lib user login w) as [[[[[s a] b] c]|e] w1];
      inversion H; reflexivity.
Qed.

(** ** Every point of score is explained by an alert

    Each rule adds its weight and appends its alert together, so a layer's
    risk is the sum of the deltas of its alerts. *)

Ltac explained_leaf H :=
  inversion H; subst; clear H;
  unfold explained; cbn [fst snd];
  split; [reflexivity | split; [repeat constructor | cbn [List.length app]; lia]].

Lemma device_layer_explained (user login : pydict) (w w' : world) ra :
  _analyze_device_intelligence user login w = (Ok ra, w') -> explained 1 ra.
Proof.
  intros H. unfold _analyze_device_intelligence in H.
  exec_in H; explained_leaf H.
Qed.

Lemma sim_layer_explained (user login : pydict) (w w' : world) ra :
  _analyze_sim_intelligence user login w = (Ok ra, w') -> explained 3 ra.
Proof.
  intros H. unfold _analyze_sim_intelligence, _detect_sim_cloning,
              _detect_dual_sim in H.
  exec_in H; explained_leaf H.
Qed.

Lemma geo_layer_explained (user login : pydict) (w w' : world) ra :
  _analyze_geospatial_intelligence lib user login w = (Ok ra, w') -> explained 2 ra.
Proof.
  intros H. unfold _analyze_geospatial_intelligence, _assess_location_risk in H.
  exec_in H; explained_leaf H.
Qed.

Lemma behavior_layer_explained (user login : pydict) (w w' : world) ra :
  _analyze_behavioral_biometrics user login w = (Ok ra, w') -> explained 1 ra.
Proof.
  intros H. unfold _analyze_behavioral_biometrics, _detect_bot_behavior in H.
  exec_in H; explained_leaf H.
Qed.

Lemma temporal_layer_explained (user login : pydict) (w w' : world) ra :
  _analyze_temporal_patterns user login w = (Ok ra, w') -> explained 2 ra.
Proof.
  intros H. unfold _analyze_temporal_patterns in H.
  exec_in H; explained_leaf H.
Qed.

Lemma network_layer_explained (user login : pydict) (w w' : world) ra :
  _analyze_network_intelligence user login w = (Ok ra, w') -> explained 1 ra.
Proof.
  intros H. unfold _analyze_network_intelligence in H.
  exec_in H; explained_leaf H.
Qed.

Lemma pattern_layer_explained (user login : pydict) (w w' : world) ra :
  _analyze_fraud_patterns user login w = (Ok ra, w') -> explained 1 ra.
Proof.
  intros H. unfold _analyze_fraud_patterns in H.
  unfold bind in H.
  destruct (_check_fraud_patterns_run login w) as [(_ & _ & E)|(_ & E)];
    rewrite E in H; exec_in H; explained_leaf H.
Qed.

Lemma sum_deltas_app (l1 l2 : list alert) :
  sum_deltas (l1 ++ l2) = (sum_deltas l1 + sum_deltas l2)%Z.
Proof.
  unfold sum_deltas. induction l1 as [|a l1 IH]; cbn [app fold_right]; lia.
Qed.

Lemma sum_deltas_nonneg (l : list alert) :
  Forall (fun a => (0 < rule_delta a)%Z) l -> (0 <= sum_deltas l)%Z.
Proof.
  unfold sum_deltas. induction 1; cbn [fold_right]; lia.
Qed.

Lemma sum_deltas_zero (l : list alert) :
  Forall (fun a => (0 < rule_delta a)%Z) l -> sum_deltas l = 0%Z -> l = [].
Proof.
  intros H. destruct H as [|a l Ha Hl]; [reflexivity|].
  intros Hs. apply sum_deltas_nonneg in Hl.
  unfold sum_deltas in *. cbn [fold_right] in Hs. lia.
Qed.

Lemma explained_zero (k : nat) (ra : Z * list alert) :
  explained k ra -> fst ra = 0%Z -> ra = (0%Z, []).
Proof.
  destruct ra as [r a]. intros (Hs & Hp & _) Hz. cbn [fst snd] in *.
  rewrite Hs in Hz. apply (sum_deltas_zero _ Hp) in Hz. now subst.
Qed.

(** ** The analysis as a sequence of seven layer runs *)

Lemma analysis_inv (user login : pydict) (w w' : world) res :
  comprehensive_risk_analysis lib user login w = (Ok res, w') ->
  exists ra1 w1 ra2 w2 ra3 w3 ra4 w4 ra5 w5 ra6 w6 ra7,
    _analyze_device_intelligence user login w = (Ok ra1, w1)
    /\ _analyze_sim_intelligence user login w1 = (Ok ra2, w2)
    /\ _analyze_geospatial_intelligence lib user login w2 = (Ok ra3, w3)
    /\ _analyze_behavioral_biometrics user login w3 = (Ok ra4, w4)
    /\ _analyze_temporal_patterns user login w4 = (Ok ra5, w5)
    /\ _analyze_network_intelligence user login w5 = (Ok ra6, w6)
    /\ _analyze_fraud_patterns user login w6 = (Ok ra7, w')
    /\ let total := (fst ra1 + fst ra2 + fst ra3 + fst ra4 + fst ra5
                     + fst ra6 + fst ra7)%Z in
       let al := snd ra1 ++ snd ra2 ++ snd ra3 ++ snd ra4 ++ snd ra5
                 ++ snd ra6 ++ snd ra7 in
       let bd := [("device_analysis", fst ra1); ("sim_analysis", fst ra2);
                  ("geospatial_analysis", fst ra3);
                  ("behavioral_analysis", fst ra4);
                  ("temporal_analysis", fst ra5);
                  ("network_analysis", fst ra6);
                  ("pattern_analysis", fst ra7)] in
       res = (Z.min total 100, al, bd, _calculate_ml_confidence bd al).
Proof.
  intros H. unfold comprehensive_risk_analysis, bind in H.
  destruct (_analyze_device_intelligence user login w) as [[[r1 a1]|e] w1] eqn:E1;
    [|discriminate].
  destruct (_analyze_sim_intelligence user login w1) as [[[r2 a2]|e] w2] eqn:E2;
    [|discriminate].
  destruct (_analyze_geospatial_intelligence lib user login w2) as [[[r3 a3]|e] w3] eqn:E3;
    [|discriminate].
  destruct (_analyze_behavioral_biometrics user login w3) as [[[r4 a4]|e] w4] eqn:E4;
    [|discriminate].
  destruct (_analyze_temporal_patterns user login w4) as [[[r5 a5]|e] w5] eqn:E5;
    [|discriminate].
  destruct (_analyze_network_intelligence user login w5) as [[[r6 a6]|e] w6] eqn:E6;
    [|discriminate].
  destruct (_analyze_fraud_patterns user login w6) as [[[r7 a7]|e] w7] eqn:E7;
    [|discriminate].
  unfold ret in H. inversion H; subst; clear H.
  exists (r1, a1), w1, (r2, a2), w2, (r3, a3), w3, (r4, a4), w4,
         (r5, a5), w5, (r6, a6), w6, (r7, a7).
  repeat (split; [first [assumption|reflexivity]|]).
  cbn [fst snd setitem String.eqb Ascii.eqb Bool.eqb app].
  rewrite <- !app_assoc.
  replace (0 + r1 + r2 + r3 + r4 + r5 + r6 + r7)%Z
    with (r1 + r2 + r3 + r4 + r5 + r6 + r7)%Z by ring.
  reflexivity.
Qed.

Lemma authenticate_inv (user login : pydict) (w w' : world) (d : decision) :
  authenticate lib user login w = (Ok d, w') ->
  exists score al bd conf,
    comprehensive_risk_analysis lib user login w = (Ok (score, al, bd, conf), w')
    /\ d = mk_decision (decision_status score al) score al bd conf.
Proof.
  unfold authenticate, bind. intros H.
  destruct (comprehensive_risk_analysis lib user login w)
    as [[[[[score al] bd] conf]|e] w1]; [|discriminate].
  inversion H. eauto 6.
Qed.

(** ** Which runs raise *)

Ltac need_field f :=
  let v := fresh "v" in
  match goal with
  | H : f <> None |- _ => destruct f as [v|]; [clear H|contradiction]
  end.

Ltac ok_or_absurd E :=
  match goal with
  | |- exists ra w', ?run = (Ok ra, w') =>
      destruct run as [[ra|e] w'] eqn:E; [eauto|exfalso]
  end.

Lemma device_layer_ok (user login : pydict) (w : world) :
  device_id login <> None -> device_id user <> None -> user_id user <> None ->
  exists ra w', _analyze_device_intelligence user login w = (Ok ra, w').
Proof.
  intros H1 H2 H3. ok_or_absurd E. unfold _analyze_device_intelligence in E.
  need_field (device_id login). need_field (device_id user).
  need_field (user_id user). exec_in E.
Qed.

Lemma sim_layer_ok (user login : pydict) (w : world) :
  sim_id login <> None -> sim_id user <> None -> user_id user <> None ->
  exists ra w', _analyze_sim_intelligence user login w = (Ok ra, w').
Proof.
  intros H1 H2 H3. ok_or_absurd E.
  unfold _analyze_sim_intelligence, _detect_sim_cloning, _detect_dual_sim in E.
  need_field (sim_id login). need_field (sim_id user).
  need_field (user_id user). exec_in E.
Qed.

(** The geospatial layer returns when the four coordinates are present and
    the distance is defined; it passes on the error of the distance. *)
Lemma geo_layer_ok (user login : pydict) (w : world) (d : float) :
  distance_of lib user login = Some (Ok d) ->
  exists ra w', _analyze_geospatial_intelligence lib user login w = (Ok ra, w').
Proof.
  intros H. ok_or_absurd E. unfold distance_of in H.
  unfold _analyze_geospatial_intelligence, _assess_location_risk in E.
  destruct (lat user), (lon user), (lat login), (lon login); try discriminate.
  inversion H as [H']. monad_red_in E. rewrite H' in E. exec_in E.
Qed.

Lemma geo_layer_undefined (user login : pydict) (w : world) (e : exn) :
  distance_of lib user login = Some (Raise e) ->
  _analyze_geospatial_intelligence lib user login w = (Raise e, w).
Proof.
  intros H. unfold distance_of in H.
  unfold _analyze_geospatial_intelligence.
  destruct (lat user), (lon user), (lat login), (lon login); try discriminate.
  inversion H as [H']. monad_red. rewrite H'. reflexivity.
Qed.

Lemma behavior_layer_ok (user login : pydict) (w : world) :
  is_bot login
  \/ (keystroke_speed user <> None /\ keystroke_speed login <> None
      /\ mouse_speed user <> None /\ mouse_speed login <> None) ->
  exists ra w', _analyze_behavioral_biometrics user login w = (Ok ra, w').
Proof.
  intros H. ok_or_absurd E.
  unfold _analyze_behavioral_biometrics, _detect_bot_behavior in E.
  destruct H as [[Hk Hm]|(H1 & H2 & H3 & H4)].
  - rewrite Hk, Hm in E. monad_red_in E.
    rewrite !Reqb_true in E by reflexivity. discriminate.
  - need_field (keystroke_speed user). need_field (keystroke_speed login).
    need_field (mouse_speed user). need_field (mouse_speed login). exec_in E.
Qed.

Lemma temporal_layer_ok (user login : pydict) (w : world) :
  user_id user <> None ->
  exists ra w', _analyze_temporal_patterns user login w = (Ok ra, w').
Proof.
  intros H1. ok_or_absurd E. unfold _analyze_temporal_patterns in E.
  need_field (user_id user). exec_in E.
Qed.

Lemma network_layer_ok (user login : pydict) (w : world) :
  exists ra w', _analyze_network_intelligence user login w = (Ok ra, w').
Proof.
  ok_or_absurd E. unfold _analyze_network_intelligence in E. exec_in E.
Qed.

Lemma pattern_layer_ok (user login : pydict) (w : world) :
  exists ra w', _analyze_fraud_patterns user login w = (Ok ra, w').
Proof.
  ok_or_absurd E. unfold _analyze_fraud_patterns, bind in E.
  destruct (_check_fraud_patterns_run login w) as [(_ & _ & E')|(_ & E')];
    rewrite E' in E; exec_in E.
Qed.

(** A layer that returns has read its fields. *)






Lemma distance_of_present (user login : pydict) (r : result float) :
  distance_of lib user login = Some r ->
  lat user <> None /\ lon user <> None /\ lat login <> None /\ lon login <> None.
Proof.
  unfold distance_of.
  destruct (lat user), (lon user), (lat login), (lon login);
    intros H; try discriminate; repeat split; discriminate.
Qed.

Lemma distance_of_raises (user login : pydict) (e : exn) :
  distance_of lib user login = Some (Raise e) ->
  e = ValueError \/ e = OverflowError.
Proof.
  unfold distance_of.
  destruct (lat user), (lon user), (lat login), (lon login);
    intros H; try discriminate.
  inversion H as [H']. eapply _calculate_distance_raises; eauto.
Qed.




(** Only [KeyError] escapes a layer, and from the geospatial layer also the
    error of the distance. *)









Lemma analysis_ok (user login : pydict) (w : world) (d : float) :
  fields_present user login ->
  distance_of lib user login = Some (Ok d) ->
  exists res w', comprehensive_risk_analysis lib user login w = (Ok res, w').
Proof.
  intros (Hd1 & Hd2 & Hs1 & Hs2 & Hu & Hl1 & Hl2 & Hl3 & Hl4 & Hb) Hdist.
  unfold comprehensive_risk_analysis, bind.
  destruct (device_layer_ok user login w Hd1 Hd2 Hu) as ([r1 a1] & w1 & ->).
  destruct (sim_layer_ok user login w1 Hs1 Hs2 Hu) as ([r2 a2] & w2 & ->).
  destruct (geo_layer_ok user login w2 d Hdist) as ([r3 a3] & w3 & ->).
  destruct (behavior_layer_ok user login w3 Hb) as ([r4 a4] & w4 & ->).
  destruct (temporal_layer_ok user login w4 Hu) as ([r5 a5] & w5 & ->).
  destruct (network_layer_ok user login w5) as ([r6 a6] & w6 & ->).
  destruct (pattern_layer_ok user login w6) as ([r7 a7] & w7 & ->).
  unfold ret. eauto.
Qed.



(** A complete input whose distance is undefined: the analysis raises the
    error of the distance, after the device and SIM layers have run. *)
Lemma analysis_undefined (user login : pydict) (w : world) (e : exn) :
  fields_present user login ->
  distance_of lib user login = Some (Raise e) ->
  fst (comprehensive_risk_analysis lib user login w) = Raise e.
Proof.
  intros (Hd1 & Hd2 & Hs1 & Hs2 & Hu & _) Hdist.
  unfold comprehensive_risk_analysis, bind.
  destruct (device_layer_ok user login w Hd1 Hd2 Hu) as ([r1 a1] & w1 & ->).
  destruct (sim_layer_ok user login w1 Hs1 Hs2 Hu) as ([r2 a2] & w2 & ->).
  rewrite (geo_layer_undefined user login w2 e Hdist). reflexivity.
Qed.


Lemma fields_present_dict_of (user login : profile) :
  fields_present (dict_of user) (dict_of login).
Proof.
  unfold fields_present, dict_of; cbn.
  repeat split; try discriminate. right. repeat split; discriminate.
Qed.


Lemma authenticate_ok (user login : pydict) (w : world) (km : float) :
  fields_present user login ->
  distance_of lib user login = Some (Ok km) ->
  exists d w', authenticate lib user login w = (Ok d, w').
Proof.
  intros Hp Hkm.
  destruct (analysis_ok user login w km Hp Hkm)
    as ([[[score al] bd] conf] & w' & H).
  unfold authenticate, bind. rewrite H. unfold ret. eauto.
Qed.

Lemma authenticate_undefined (user login : pydict) (w : world) (e : exn) :
  fields_present user login ->
  distance_of lib user login = Some (Raise e) ->
  fst (authenticate lib user login w) = Raise e.
Proof.
  intros Hp Hd. unfold authenticate, bind.
  pose proof (analysis_undefined user login w e Hp Hd) as E.
  destruct (comprehensive_risk_analysis lib user login w) as [[r|e'] w1];
    cbn [fst] in *; [discriminate|congruence].
Qed.

(** ** The capped total *)

(** C2: whenever the analysis returns, its score is min(100, sum of the
    score deltas of the rules that fired): the seven layers have run in
    order, each layer's risk is the sum of the weights of the rules it
    fired (one alert each), the breakdown holds the seven risks, the alerts
    are the layers' alerts in order, the score is the capped sum of the
    seven risks and so lies between 0 and 100, and the values of the
    breakdown sum to the uncapped sum.  The analysis returns whenever every
    field it reads is present and the distance is defined. *)
Theorem total_score_is_capped_sum :
  (forall (user login : pydict) (w : world) (d : float),
      fields_present user login ->
      distance_of lib user login = Some (Ok d) ->
      exists res w', comprehensive_risk_analysis lib user login w = (Ok res, w'))
  /\ (forall (user login : pydict) (w w' : world)
             (score : Z) (al : list alert) (bd : breakdown) (conf : R),
        comprehensive_risk_analysis lib user login w
        = (Ok (score, al, bd, conf), w') ->
        exists ra1 w1 ra2 w2 ra3 w3 ra4 w4 ra5 w5 ra6 w6 ra7,
          _analyze_device_intelligence user login w = (Ok ra1, w1)
          /\ _analyze_sim_intelligence user login w1 = (Ok ra2, w2)
          /\ _analyze_geospatial_intelligence lib user login w2 = (Ok ra3, w3)
          /\ _analyze_behavioral_biometrics user login w3 = (Ok ra4, w4)
          /\ _analyze_temporal_patterns user login w4 = (Ok ra5, w5)
          /\ _analyze_network_intelligence user login w5 = (Ok ra6, w6)
          /\ _analyze_fraud_patterns user login w6 = (Ok ra7, w')
          /\ Forall (fun ra => fst ra = sum_deltas (snd ra) /\ (0 <= fst ra)%Z)
                    [ra1; ra2; ra3; ra4; ra5; ra6; ra7]
          /\ al = snd ra1 ++ snd ra2 ++ snd ra3 ++ snd ra4 ++ snd ra5
                  ++ snd ra6 ++ snd ra7
          /\ bd = breakdown_of (fst ra1) (fst ra2) (fst ra3) (fst ra4)
                               (fst ra5) (fst ra6) (fst ra7)
          /\ score = Z.min 100 (fst ra1 + fst ra2 + fst ra3 + fst ra4
                                + fst ra5 + fst ra6 + fst ra7)
          /\ score = Z.min 100 (sum_deltas al)
          /\ (0 <= score <= 100)%Z
          /\ sum_values bd = sum_deltas al).
Proof.
  split.
  - intros user login w d Hp Hd. eapply analysis_ok; eauto.
  - intros user login w w' score al bd conf H.
    apply analysis_inv in H.
    destruct H as (ra1 & w1 & ra2 & w2 & ra3 & w3 & ra4 & w4 & ra5 & w5
                   & ra6 & w6 & ra7 & E1 & E2 & E3 & E4 & E5 & E6 & E7 & Hres).
    exists ra1, w1, ra2, w2, ra3, w3, ra4, w4, ra5, w5, ra6, w6, ra7.
    repeat (split; [assumption|]).
    apply device_layer_explained in E1. apply sim_layer_explained in E2.
    apply geo_layer_explained in E3. apply behavior_layer_explained in E4.
    apply temporal_layer_explained in E5. apply network_layer_explained in E6.
    apply pattern_layer_explained in E7.
    destruct E1 as (S1 & P1 & _), E2 as (S2 & P2 & _), E3 as (S3 & P3 & _),
             E4 as (S4 & P4 & _), E5 as (S5 & P5 & _), E6 as (S6 & P6 & _),
             E7 as (S7 & P7 & _).
    apply sum_deltas_nonneg in P1, P2, P3, P4, P5, P6, P7.
    cbv zeta in Hres. inversion Hres; subst; clear Hres.
    rewrite !sum_deltas_app. unfold sum_values, breakdown_of.
    cbn [fold_right snd].
    split; [repeat constructor; lia|].
    repeat split; try reflexivity; lia.
Qed.

(** ** Failure modes of the entry point *)


(** ** Determinism relative to the generator's draws *)

Lemma agree_weaken (m n : nat) (w1 w2 : world) :
  (m <= n)%nat -> agree n w1 w2 -> agree m w1 w2.
Proof.
  intros Hmn [Hs Hr]. split; [exact Hs|]. intros i Hi. apply Hr. lia.
Qed.

Lemma agree_store (n : nat) (w1 w2 : world) : agree n w1 w2 -> same_store w1 w2.
Proof. intros [Hs _]. exact Hs. Qed.

Lemma det_weaken {A : Type} (k k' : nat) (m : M A) :
  (k <= k')%nat -> deterministic k m -> deterministic k' m.
Proof.
  intros Hk Hm n w1 w2 Ha.
  destruct (Hm (k' - k + n)%nat w1 w2) as [Hf Hw].
  - eapply agree_weaken; [|exact Ha]. lia.
  - split; [exact Hf|]. eapply agree_weaken; [|exact Hw]. lia.
Qed.

Lemma det_ret {A : Type} (k : nat) (a : A) : deterministic k (ret a).
Proof.
  intros n w1 w2 Ha. split; [reflexivity|].
  cbn. eapply agree_weaken; [|exact Ha]. lia.
Qed.

Lemma det_raise {A : Type} (k : nat) (e : exn) :
  deterministic k (raise e : M A).
Proof.
  intros n w1 w2 Ha. split; [reflexivity|].
  cbn. eapply agree_weaken; [|exact Ha]. lia.
Qed.

Lemma det_lift {A : Type} (k : nat) (r : result A) : deterministic k (lift r).
Proof.
  intros n w1 w2 Ha. split; [reflexivity|].
  cbn. eapply agree_weaken; [|exact Ha]. lia.
Qed.

Lemma det_getitem {A : Type} (k : nat) (key : string) (field : option A) :
  deterministic k (getitem key field).
Proof. destruct field; [apply det_ret|apply det_raise]. Qed.

(** A query reads the store only. *)
Lemma det_query {A : Type} (k : nat) (q : world -> A) :
  (forall w1 w2, same_store w1 w2 -> q w1 = q w2) ->
  deterministic k (fun w => (Ok (q w), w)).
Proof.
  intros Hq n w1 w2 Ha. cbn. split.
  - f_equal. apply Hq. eapply agree_store; eauto.
  - eapply agree_weaken; [|exact Ha]. lia.
Qed.

Lemma det_bind {A B : Type} (k1 k2 : nat) (m : M A) (f : A -> M B) :
  deterministic k1 m -> (forall a, deterministic k2 (f a)) ->
  deterministic (k1 + k2) (bind m f).
Proof.
  intros Hm Hf n w1 w2 Ha. unfold bind.
  destruct (Hm (k2 + n)%nat w1 w2) as [E Hw].
  { replace (k1 + (k2 + n))%nat with (k1 + k2 + n)%nat by lia. exact Ha. }
  destruct (m w1) as [[a1|e1] w1'], (m w2) as [[a2|e2] w2'];
    cbn [fst snd] in *; try discriminate.
  - inversion E; subst. apply Hf. exact Hw.
  - split; [now inversion E|]. eapply agree_weaken; [|exact Hw]. lia.
Qed.

Lemma det_try {A : Type} (k1 k2 : nat) (body handler : M A) :
  deterministic k1 body -> deterministic k2 handler ->
  deterministic (k1 + k2) (try_except body handler).
Proof.
  intros Hm Hh n w1 w2 Ha. unfold try_except.
  destruct (Hm (k2 + n)%nat w1 w2) as [E Hw].
  { replace (k1 + (k2 + n))%nat with (k1 + k2 + n)%nat by lia. exact Ha. }
  destruct (body w1) as [[a1|e1] w1'], (body w2) as [[a2|e2] w2'];
    cbn [fst snd] in *; try discriminate.
  - split; [exact E|]. eapply agree_weaken; [|exact Hw]. lia.
  - apply Hh. exact Hw.
Qed.

Lemma det_try_pure {A : Type} (k : nat) (body handler : M A) :
  deterministic k body -> deterministic 0 handler ->
  deterministic k (try_except body handler).
Proof.
  intros Hm Hh. apply (det_weaken (k + 0)); [lia|]. now apply det_try.
Qed.

Lemma det_cursor (k : nat) : deterministic k conn_cursor.
Proof.
  intros n w1 w2 Ha. unfold conn_cursor.
  destruct Ha as [Hs Hr]. pose proof Hs as (Hup & _). rewrite Hup.
  destruct (db_up w2); cbn; (split; [reflexivity|]);
    (split; [exact Hs|]); intros; apply Hr; lia.
Qed.

Lemma det_random (k : nat) : deterministic (S k) np_random_random.
Proof.
  intros n w1 w2 [Hs Hr]. unfold np_random_random. cbn [fst snd]. split.
  - f_equal. specialize (Hr 0%nat). rewrite !Nat.add_0_r in Hr. apply Hr. lia.
  - split.
    + unfold same_store in *. cbn. exact Hs.
    + intros i Hi. cbn. specialize (Hr (S i)).
      rewrite !Nat.add_succ_r in Hr. apply Hr. lia.
Qed.

Lemma det_uniform (k : nat) (low high : R) :
  deterministic (S k) (np_random_uniform low high).
Proof.
  unfold np_random_uniform. apply (det_bind 1 k).
  - apply det_random.
  - intros. apply det_ret.
Qed.

Lemma det_insert_device (k : nat) (row : device_row) :
  deterministic k (insert_or_replace_device row).
Proof.
  intros n w1 w2 [Hs Hr]. unfold insert_or_replace_device. cbn [fst snd].
  split; [reflexivity|]. split.
  - unfold same_store in *. cbn.
    destruct Hs as (? & ? & -> & ? & ? & ? & ? & ? & ?). auto 10.
  - intros i Hi. cbn. apply Hr. lia.
Qed.

Lemma det_insert_sim (k : nat) (row : sim_row) :
  deterministic k (insert_or_replace_sim row).
Proof.
  intros n w1 w2 [Hs Hr]. unfold insert_or_replace_sim.
  destruct (sqlite_integer (swap_frequency row)); cbn [fst snd].
  - split; [reflexivity|]. split.
    + unfold same_store in *. cbn.
      destruct Hs as (? & ? & ? & -> & ? & ? & ? & ? & ?). auto 10.
    + intros i Hi. cbn. apply Hr. lia.
  - split; [reflexivity|]. split; [exact Hs|]. intros i Hi. apply Hr. lia.
Qed.

Ltac store_eq :=
  let H := fresh in
  intros ? ? H; unfold same_store in H;
  destruct H as (? & ? & ? & ? & ? & ? & ? & ? & ?);
  unfold q_device, q_sim_of_user, q_swap_frequency, q_max_confidence,
    q_recent_attempts;
  repeat match goal with
         | E : _ = _ |- _ => try rewrite E; clear E
         end;
  reflexivity.

Lemma det_select_device (k : nat) (device : string) :
  deterministic k (select_device device).
Proof. apply det_query. store_eq. Qed.

Lemma det_select_sim_of_user (k : nat) (user : string) :
  deterministic k (select_sim_of_user user).
Proof. apply det_query. store_eq. Qed.

Lemma det_select_swap_frequency (k : nat) (sim : string) :
  deterministic k (select_swap_frequency sim).
Proof. apply det_query. store_eq. Qed.

Lemma det_select_max_confidence (k : nat) (device sim : string) :
  deterministic k (select_max_confidence device sim).
Proof.
  apply (det_query k (fun w => [q_max_confidence device sim w])). store_eq.
Qed.

Lemma det_select_recent_attempts (k : nat) (user : string) (minutes : Z) :
  deterministic k (select_recent_attempts user minutes).
Proof. apply det_query. store_eq. Qed.

Lemma det_now_isoformat (k : nat) : deterministic k datetime_now_isoformat.
Proof. apply det_query. store_eq. Qed.

Lemma det_now_hour (k : nat) : deterministic k datetime_now_hour.
Proof. apply det_query. store_eq. Qed.

Create HintDb det.

#[local] Hint Resolve det_ret det_raise det_lift det_getitem det_cursor
  det_random det_uniform det_insert_device det_insert_sim
  det_select_device det_select_sim_of_user det_select_swap_frequency
  det_select_max_confidence det_select_recent_attempts
  det_now_isoformat det_now_hour : det.

(** Structural proof search: a pure step takes nothing from the budget of
    draws, a step that draws takes what it needs. *)
Ltac det_go :=
  lazymatch goal with
  | |- deterministic _ (bind _ _) =>
      first [ apply (det_bind 0); [solve [det_go] | intros; det_go]
            | apply (det_bind 1); [solve [det_go] | intros; det_go]
            | apply (det_bind 2); [solve [det_go] | intros; det_go]
            | apply (det_bind 3); [solve [det_go] | intros; det_go]
            | apply (det_bind 4); [solve [det_go] | intros; det_go] ]
  | |- deterministic _ (try_except _ _) =>
      apply det_try_pure; [det_go | solve [det_go]]
  | |- deterministic _ (if ?b then _ else _) => destruct b; det_go
  | |- deterministic _ (match ?x with _ => _ end) => destruct x; det_go
  | |- _ => solve [auto 1 with det nocore]
  end.

Lemma det_get_device_intelligence (k : nat) (device : string) :
  deterministic k (_get_device_intelligence device).
Proof. unfold _get_device_intelligence. det_go. Qed.

Lemma det_update_device_intelligence (k : nat) (device user : string) :
  deterministic (S (S k)) (_update_device_intelligence device user).
Proof. unfold _update_device_intelligence. det_go. Qed.

Lemma det_get_sim_intelligence (k : nat) (user : string) :
  deterministic k (_get_sim_intelligence user).
Proof. unfold _get_sim_intelligence. det_go. Qed.

Lemma det_update_sim_intelligence (k : nat) (sim user : string) :
  deterministic (S (S k)) (_update_sim_intelligence sim user).
Proof. unfold _update_sim_intelligence. det_go. Qed.

Lemma det_get_recent_attempts (k : nat) (user : string) (minutes : Z) :
  deterministic k (_get_recent_attempts user minutes).
Proof. unfold _get_recent_attempts. det_go. Qed.

Lemma det_check_fraud_patterns (k : nat) (login : pydict) :
  deterministic (S k) (_check_fraud_patterns login).
Proof. unfold _check_fraud_patterns, float_of_tuple. det_go. Qed.

Lemma det_detect_sim_cloning (k : nat) (user login : pydict) :
  deterministic (S k) (_detect_sim_cloning user login).
Proof. unfold _detect_sim_cloning. det_go. Qed.

Lemma det_detect_dual_sim (k : nat) (sim : string) :
  deterministic (S k) (_detect_dual_sim sim).
Proof. unfold _detect_dual_sim. det_go. Qed.

Lemma det_detect_bot_behavior (k : nat) (login : pydict) :
  deterministic k (_detect_bot_behavior login).
Proof. unfold _detect_bot_behavior. det_go. Qed.

Lemma det_assess_location_risk (k : nat) (lat lon : coord) :
  deterministic (S k) (_assess_location_risk lat lon).
Proof. unfold _assess_location_risk. det_go. Qed.

#[local] Hint Resolve det_get_device_intelligence
  det_update_device_intelligence det_get_sim_intelligence
  det_update_sim_intelligence det_get_recent_attempts
  det_check_fraud_patterns det_detect_sim_cloning det_detect_dual_sim
  det_detect_bot_behavior det_assess_location_risk : det.

Lemma det_device_layer (k : nat) (user login : pydict) :
  deterministic (S (S k)) (_analyze_device_intelligence user login).
Proof. unfold _analyze_device_intelligence. det_go. Qed.

Lemma det_sim_layer (k : nat) (user login : pydict) :
  deterministic (S (S (S (S k)))) (_analyze_sim_intelligence user login).
Proof. unfold _analyze_sim_intelligence. det_go. Qed.

Lemma det_geo_layer (k : nat) (user login : pydict) :
  deterministic (S k) (_analyze_geospatial_intelligence lib user login).
Proof. unfold _analyze_geospatial_intelligence. det_go. Qed.

Lemma det_behavior_layer (k : nat) (user login : pydict) :
  deterministic k (_analyze_behavioral_biometrics user login).
Proof. unfold _analyze_behavioral_biometrics. det_go. Qed.

Lemma det_temporal_layer (k : nat) (user login : pydict) :
  deterministic k (_analyze_temporal_patterns user login).
Proof. unfold _analyze_temporal_patterns. det_go. Qed.

Lemma det_network_layer (k : nat) (user login : pydict) :
  deterministic (S k) (_analyze_network_intelligence user login).
Proof. unfold _analyze_network_intelligence. det_go. Qed.

Lemma det_pattern_layer (k : nat) (user login : pydict) :
  deterministic (S k) (_analyze_fraud_patterns user login).
Proof. unfold _analyze_fraud_patterns. det_go. Qed.

#[local] Hint Resolve det_device_layer det_sim_layer det_geo_layer
  det_behavior_layer det_temporal_layer det_network_layer
  det_pattern_layer : det.

Lemma det_analysis (user login : pydict) :
  deterministic 9 (comprehensive_risk_analysis lib user login).
Proof. unfold comprehensive_risk_analysis. det_go. Qed.

Lemma det_authenticate (user login : pydict) :
  deterministic 9 (authenticate lib user login).
Proof.
  unfold authenticate. apply (det_bind 9 0); [apply det_analysis|].
  intros [[[score al] bd] conf]. apply det_ret.
Qed.

(** C3: the analysis and the decision are a function of the profile, the
    attempt, the stored state, the clock and the next nine draws of the
    random generator: two runs that agree on these return the same score,
    alerts, breakdown, confidence and status (or raise the same error);
    two runs that agree on all but the draws can return different ones. *)
Theorem deterministic_given_draws :
  (forall (user login : pydict) (w1 w2 : world),
      agree 9 w1 w2 ->
      fst (authenticate lib user login w1) = fst (authenticate lib user login w2))
  /\ (exists (user login : pydict) (w1 w2 : world),
        same_store w1 w2
        /\ fst (authenticate lib user login w1) <> fst (authenticate lib user login w2)).
Proof.
  split.
  - intros user login w1 w2 Ha.
    apply (det_authenticate user login 0%nat w1 w2 Ha).
  - exists (dict_of alice), (dict_of alice), w0, w0_low.
    split; [unfold same_store, w0, w0_low; cbn; repeat split; reflexivity|].
    rewrite scenario_unchanged, scenario_unchanged_other_draws. discriminate.
Qed.

Lemma agree_w0_w0_tail : agree 9 w0 w0_tail.
Proof.
  split.
  - unfold same_store, w0, w0_tail. cbn. repeat split; reflexivity.
  - intros i Hi. unfold w0, w0_tail. cbn [rng rng_pos Nat.add].
    apply Nat.ltb_lt in Hi. rewrite Hi. reflexivity.
Defined.

(** ** The device layer *)

(** C10: the device layer returns at most one alert and its risk is the
    delta of that alert (0 without one); for an unchanged device it
    returns nothing; for a changed device with stored intelligence the
    first that applies of emulator (95, CRITICAL), rooted (65, WARNING),
    suspicious history or low trust (60, WARNING) and known change
    (35, INFO) fires alone, so an emulator that is also rooted adds 95. *)
Theorem device_layer_single_rule (user login : profile) (w : world) :
  exists (risk : Z) (al : list alert) (w' : world),
    _analyze_device_intelligence (dict_of user) (dict_of login) w
    = (Ok (risk, al), w')
    /\ (List.length al <= 1)%nat
    /\ risk = sum_deltas al
    /\ (p_device_id login = p_device_id user -> risk = 0%Z /\ al = [])
    /\ (p_device_id login <> p_device_id user ->
        forall di : device_row,
          fst (_get_device_intelligence (p_device_id login) w) = Ok (Some di) ->
          (is_emulator di = true ->
           (risk, al) = (95%Z, [Text "CRITICAL: Mobile emulator detected"]))
          /\ (is_emulator di = false -> is_rooted di = true ->
              (risk, al)
              = (65%Z, [Text "WARNING: Rooted/jailbroken device detected"]))
          /\ (is_emulator di = false -> is_rooted di = false ->
              (3 < suspicious_activity_count di)%Z ->
              (risk, al)
              = (60%Z, [Text "WARNING: Device with suspicious history"]))
          /\ (is_emulator di = false -> is_rooted di = false ->
              (suspicious_activity_count di <= 3)%Z -> trust_score di < 30 ->
              (risk, al) = (60%Z, [Text "WARNING: Untrusted device"]))
          /\ (is_emulator di = false -> is_rooted di = false ->
              (suspicious_activity_count di <= 3)%Z -> ~ trust_score di < 30 ->
              (risk, al) = (35%Z, [Text "INFO: Known device change"]))).
Proof.
  destruct (device_layer_ok (dict_of user) (dict_of login) w)
    as ([risk al] & w' & E); try discriminate.
  exists risk, al, w'. split; [exact E|].
  pose proof (device_layer_explained _ _ _ _ _ E) as (Hsum & _ & Hlen).
  split; [exact Hlen|]. split; [exact Hsum|].
  unfold _analyze_device_intelligence in E.
  split.
  - intros Heq. monad_red_in E. rewrite Heq, String.eqb_refl in E.
    cbn [negb] in E. monad_red_in E. inversion E. auto.
  - intros Hne di Hdi. rewrite _get_device_intelligence_run in Hdi.
    cbn [fst] in Hdi.
    exec_in E; reflect_conds; try contradiction;
      inversion E; subst; clear E;
      try (inversion Hdi; subst; clear Hdi);
      repeat split; intros; try reflexivity; try congruence; try lia;
      try contradiction.
Qed.

Lemma device_layer_single_rule_witness :
  exists (risk : Z) (al : list alert) (w' : world),
    _analyze_device_intelligence (dict_of alice) (dict_of login_emulator)
                                 w_emulator
    = (Ok (risk, al), w')
    /\ (risk, al) = (95%Z, [Text "CRITICAL: Mobile emulator detected"]).
Proof.
  destruct (device_layer_single_rule alice login_emulator w_emulator)
    as (risk & al & w' & E & _ & _ & _ & H).
  exists risk, al, w'. split; [exact E|].
  refine (proj1 (H _ (mk_device_row "D9" "2024-12-01T09:00:00"
                                    "2024-12-01T09:00:00" 25 true true 0) _) _).
  - discriminate.
  - reflexivity.
  - reflexivity.
Defined.

(** ** A changed device without intelligence, alone *)

Lemma device_layer_unknown (user login : profile) (w w' : world) ra :
  p_device_id login <> p_device_id user ->
  fst (_get_device_intelligence (p_device_id login) w) = Ok None ->
  _analyze_device_intelligence (dict_of user) (dict_of login) w = (Ok ra, w') ->
  ra = (80%Z, [Text "CRITICAL: Unknown device detected"]).
Proof.
  intros Hne Hi E. apply negb_eqb_true in Hne.
  rewrite _get_device_intelligence_run in Hi. cbn [fst] in Hi.
  unfold _analyze_device_intelligence in E.
  monad_red_in E. rewrite Hne in E. monad_red_in E.
  rewrite _get_device_intelligence_run in E. monad_red_in E.
  inversion Hi as [Hi']. rewrite Hi' in E.
  exec_in E. now inversion E.
Qed.

(** C5: when the attempt's device differs from the enrolled one,
    the device lookup finds nothing and every other layer contributes 0,
    the score is 80 with the single alert CRITICAL unknown device, and
    the status is BLOCKED: a score of 80 already meets the block
    threshold. *)
Theorem unknown_device_alone (user login : profile) (w : world) (d : decision) :
  p_device_id login <> p_device_id user ->
  fst (_get_device_intelligence (p_device_id login) w) = Ok None ->
  fst (authenticate lib (dict_of user) (dict_of login) w) = Ok d ->
  (forall (layer : string) (v : Z),
      In (layer, v) (risk_breakdown d) -> layer <> "device_analysis" ->
      v = 0%Z) ->
  risk_score d = 80%Z
  /\ alerts d = [Text "CRITICAL: Unknown device detected"]
  /\ count_alerts "CRITICAL" (alerts d) = 1%Z
  /\ status d = "BLOCKED".
Proof.
  intros Hne Hi Hd Hz.
  destruct (authenticate lib (dict_of user) (dict_of login) w) as [r w'] eqn:E.
  cbn [fst] in Hd. subst r.
  apply authenticate_inv in E.
  destruct E as (score & al & bd & conf & E & ->).
  apply analysis_inv in E.
  destruct E as (ra1 & w1 & ra2 & w2 & ra3 & w3 & ra4 & w4 & ra5 & w5
                 & ra6 & w6 & ra7 & E1 & E2 & E3 & E4 & E5 & E6 & E7 & Hres).
  cbv zeta in Hres. inversion Hres; subst; clear Hres.
  cbn [risk_breakdown risk_score alerts status] in *.
  apply (device_layer_unknown _ _ _ _ _ Hne Hi) in E1. subst ra1.
  apply sim_layer_explained in E2. apply geo_layer_explained in E3.
  apply behavior_layer_explained in E4. apply temporal_layer_explained in E5.
  apply network_layer_explained in E6. apply pattern_layer_explained in E7.
  assert (Z2 : fst ra2 = 0%Z)
    by (apply (Hz "sim_analysis"); [cbn; tauto|discriminate]).
  assert (Z3 : fst ra3 = 0%Z)
    by (apply (Hz "geospatial_analysis"); [cbn; tauto|discriminate]).
  assert (Z4 : fst ra4 = 0%Z)
    by (apply (Hz "behavioral_analysis"); [cbn; tauto|discriminate]).
  assert (Z5 : fst ra5 = 0%Z)
    by (apply (Hz "temporal_analysis"); [cbn; tauto|discriminate]).
  assert (Z6 : fst ra6 = 0%Z)
    by (apply (Hz "network_analysis"); [cbn; tauto|discriminate]).
  assert (Z7 : fst ra7 = 0%Z)
    by (apply (Hz "pattern_analysis"); [cbn; tauto|discriminate]).
  rewrite (explained_zero _ _ E2 Z2), (explained_zero _ _ E3 Z3),
    (explained_zero _ _ E4 Z4), (explained_zero _ _ E5 Z5),
    (explained_zero _ _ E6 Z6), (explained_zero _ _ E7 Z7).
  cbn [fst snd app]. repeat split; reflexivity.
Qed.

(** ** The SIM layer *)

(** C7: for an attempt whose SIM differs from the enrolled one the swap
    rule adds 65 with a WARNING when no SIM intelligence is found and when
    the stored swap frequency is 1 or 2; with a stored frequency of 0 it
    adds nothing; the clone and dual-SIM rules contribute before it. *)
Theorem sim_swap_rule (user login : profile) (w : world) :
  p_sim_id login <> p_sim_id user ->
  let clone := clone_rule (0.1 + (0.9 - 0.1) * draw w 0) in
  let dual := dual_sim_rule (draw w 1) in
  let sim_intel := fst (_get_sim_intelligence (p_user_id user) w) in
  let run := fst (_analyze_sim_intelligence (dict_of user) (dict_of login) w) in
  (sim_intel = Ok None ->
   run = Ok ((fst clone + fst dual + 65)%Z,
             snd clone ++ snd dual ++ [Text "WARNING: SIM card changed"]))
  /\ (forall si : sim_row,
        sim_intel = Ok (Some si) ->
        swap_frequency si = 1%Z \/ swap_frequency si = 2%Z ->
        run = Ok ((fst clone + fst dual + 65)%Z,
                  snd clone ++ snd dual
                  ++ [Text "WARNING: Previous SIM swap detected"]))
  /\ (forall si : sim_row,
        sim_intel = Ok (Some si) ->
        (swap_frequency si <= 0)%Z ->
        run = Ok ((fst clone + fst dual)%Z, snd clone ++ snd dual)).
Proof.
  intros Hne clone dual sim_intel run. subst clone dual sim_intel run.
  apply negb_eqb_true in Hne.
  unfold _analyze_sim_intelligence, _detect_sim_cloning, _detect_dual_sim,
    clone_rule, dual_sim_rule, draw.
  rewrite _get_sim_intelligence_run, Nat.add_0_r, Nat.add_1_r. cbn [fst].
  monad_red. rewrite Hne. exec_goal.
  remember (if db_up w then q_sim_of_user (p_user_id user) w else None)
    as intel eqn:Hintel. clear Hintel.
  destruct (Rgtb (0.1 + (0.9 - 0.1) * rng w (rng_pos w)) 0.8); monad_red;
    destruct (Rltb (rng w (S (rng_pos w))) 0.15); monad_red.
  all: split; [|split].
  all: try (intros Hi; inversion Hi; subst intel; exec_goal; reflexivity).
  all: intros si Hi Hf; inversion Hi; subst intel; clear Hi.
  all: try (assert ((2 <? swap_frequency si)%Z = false) as ->
             by (apply Z.ltb_ge; lia)).
  all: try (assert ((0 <? swap_frequency si)%Z = true) as ->
             by (apply Z.ltb_lt; lia)).
  all: try (assert ((0 <? swap_frequency si)%Z = false) as ->
             by (apply Z.ltb_ge; lia)).
  all: exec_goal; cbn [fst snd app]; rewrite ?Z.add_0_r; reflexivity.
Qed.

Lemma sim_swap_rule_witness :
  p_sim_id login_new_sim <> p_sim_id alice
  /\ fst (_get_sim_intelligence (p_user_id alice) w0) = Ok None
  /\ fst (_analyze_sim_intelligence (dict_of alice) (dict_of login_new_sim) w0)
     = Ok ((fst (clone_rule (0.1 + (0.9 - 0.1) * draw w0 0))
            + fst (dual_sim_rule (draw w0 1)) + 65)%Z,
           snd (clone_rule (0.1 + (0.9 - 0.1) * draw w0 0))
           ++ snd (dual_sim_rule (draw w0 1))
           ++ [Text "WARNING: SIM card changed"]).
Proof.
  assert (Hne : p_sim_id login_new_sim <> p_sim_id alice) by discriminate.
  assert (Hi : fst (_get_sim_intelligence (p_user_id alice) w0) = Ok None)
    by reflexivity.
  split; [exact Hne|]. split; [exact Hi|].
  apply (sim_swap_rule alice login_new_sim w0 Hne). exact Hi.
Defined.

(** A changed SIM whose stored record counts no swap adds nothing. *)
Lemma zero_swaps_add_nothing :
  p_sim_id login_new_sim <> p_sim_id alice
  /\ (exists si : sim_row,
         fst (_get_sim_intelligence (p_user_id alice) w_sim0) = Ok (Some si)
         /\ swap_frequency si = 0%Z)
  /\ fst (_analyze_sim_intelligence (dict_of alice) (dict_of login_new_sim)
                                    w_sim0)
     = Ok (0%Z, []).
Proof.
  split; [discriminate|]. split; [|exact scenario_sim_zero_swaps].
  eexists. split; [run_engine; reflexivity|reflexivity].
Qed.

(** ** The geospatial layer *)

(** C4: with d the distance from the enrolled location to the attempt:
    above 5000 km the geo rule adds 85 with a CRITICAL alert, above 2000
    and not above 5000 km it adds 55 with a WARNING, above 500 and not
    above 2000 km it adds 30 with an INFO alert, and not above 500 km it
    adds nothing; the location-risk rule contributes on top of it. *)
Theorem geo_distance_bands (user login : profile) (w : world) (d : float) :
  _calculate_distance lib (degrees (p_lat user)) (degrees (p_lon user))
                      (degrees (p_lat login)) (degrees (p_lon login))
  = Ok d ->
  let hr := high_risk_area (0 + (1 - 0) * draw w 0) in
  let run := fst (_analyze_geospatial_intelligence lib (dict_of user)
                                                   (dict_of login) w) in
  (exceeds d 5000 ->
   run = Ok ((85 + fst hr)%Z,
             FText "CRITICAL: Impossible travel " (FmtKm d) "km" :: snd hr))
  /\ (exceeds d 2000 /\ ~ exceeds d 5000 ->
      run = Ok ((55 + fst hr)%Z,
                FText "WARNING: High-speed travel " (FmtKm d) "km" :: snd hr))
  /\ (exceeds d 500 /\ ~ exceeds d 2000 ->
      run = Ok ((30 + fst hr)%Z,
                FText "INFO: New location " (FmtKm d) "km away" :: snd hr))
  /\ (~ exceeds d 500 -> run = Ok hr).
Proof.
  intros Hd hr run. subst hr run.
  unfold _analyze_geospatial_intelligence, _assess_location_risk,
    high_risk_area, draw.
  monad_red. rewrite Hd. monad_red. rewrite Nat.add_0_r.
  repeat split.
  - intros Hb. rewrite Hb.
    destruct (10000 <? d)%float; destruct (Rgtb _ 0.7); reflexivity.
  - intros [Hb Hn].
    rewrite (not_exceeds_more d 5000 10000 eq_refl Hn),
      (not_exceeds d 5000 Hn), Hb.
    destruct (Rgtb _ 0.7); reflexivity.
  - intros [Hb Hn].
    rewrite (not_exceeds_more d 2000 10000 eq_refl Hn),
      (not_exceeds_more d 2000 5000 eq_refl Hn), (not_exceeds d 2000 Hn), Hb.
    destruct (Rgtb _ 0.7); reflexivity.
  - intros Hn.
    rewrite (not_exceeds_more d 500 10000 eq_refl Hn),
      (not_exceeds_more d 500 5000 eq_refl Hn),
      (not_exceeds_more d 500 2000 eq_refl Hn), (not_exceeds d 500 Hn).
    destruct (Rgtb _ 0.7); reflexivity.
Qed.

(** ** The pattern layer *)






(** A stored pattern that matches the attempt never reaches the rule. *)
Lemma matching_pattern_is_swallowed (login : pydict) (w : world)
      (ld ls : string) (c : R) :
  device_id login = Some ld -> sim_id login = Some ls ->
  q_max_confidence ld ls w = Some c ->
  fst (_check_fraud_patterns login w) = Ok (Some 0).
Proof.
  intros Hd Hs Hq.
  destruct (_check_fraud_patterns_run login w)
    as [(_ & (ld' & ls' & Hd' & Hs' & Hq') & _)|(_ & E)].
  - congruence.
  - now rewrite E.
Qed.

(** With draws in [0, 1) the pattern rule never fires. *)
Lemma pattern_rule_never_fires (user login : pydict) (w : world) :
  0 <= draw w 0 < 1 ->
  fst (_analyze_fraud_patterns user login w) = Ok (0%Z, []).
Proof.
  unfold draw. rewrite Nat.add_0_r. intros Hu.
  unfold _analyze_fraud_patterns, bind.
  destruct (_check_fraud_patterns_run login w) as [(_ & _ & E)|(_ & E)];
    rewrite E.
  - rewrite Rgtb_false, Rgtb_false by lra. reflexivity.
  - rewrite (Rgtb_false 0 0.8), (Rgtb_false 0 0.6) by lra. reflexivity.
Qed.

(** * Further properties *)

(** ** The vocabulary of alerts *)

Ltac in_vocabulary_list :=
  cbn [in_vocabulary]; unfold literal_alerts, fstring_alerts;
  repeat first [left; reflexivity | right].

Ltac vocabulary_leaf H :=
  inversion H; subst; clear H; cbn [snd app];
  repeat (apply Forall_cons; [in_vocabulary_list|]); apply Forall_nil.

Lemma device_layer_vocabulary (user login : pydict) (w w' : world) ra :
  _analyze_device_intelligence user login w = (Ok ra, w') ->
  Forall in_vocabulary (snd ra).
Proof.
  intros H. unfold _analyze_device_intelligence in H.
  exec_in H; vocabulary_leaf H.
Qed.

Lemma sim_layer_vocabulary (user login : pydict) (w w' : world) ra :
  _analyze_sim_intelligence user login w = (Ok ra, w') ->
  Forall in_vocabulary (snd ra).
Proof.
  intros H. unfold _analyze_sim_intelligence, _detect_sim_cloning,
              _detect_dual_sim in H.
  exec_in H; vocabulary_leaf H.
Qed.

Lemma geo_layer_vocabulary (user login : pydict) (w w' : world) ra :
  _analyze_geospatial_intelligence lib user login w = (Ok ra, w') ->
  Forall in_vocabulary (snd ra).
Proof.
  intros H. unfold _analyze_geospatial_intelligence, _assess_location_risk in H.
  exec_in H; vocabulary_leaf H.
Qed.

Lemma behavior_layer_vocabulary (user login : pydict) (w w' : world) ra :
  _analyze_behavioral_biometrics user login w = (Ok ra, w') ->
  Forall in_vocabulary (snd ra).
Proof.
  intros H. unfold _analyze_behavioral_biometrics, _detect_bot_behavior in H.
  exec_in H; vocabulary_leaf H.
Qed.

Lemma temporal_layer_vocabulary (user login : pydict) (w w' : world) ra :
  _analyze_temporal_patterns user login w = (Ok ra, w') ->
  Forall in_vocabulary (snd ra).
Proof.
  intros H. unfold _analyze_temporal_patterns in H.
  exec_in H; vocabulary_leaf H.
Qed.

Lemma network_layer_vocabulary (user login : pydict) (w w' : world) ra :
  _analyze_network_intelligence user login w = (Ok ra, w') ->
  Forall in_vocabulary (snd ra).
Proof.
  intros H. unfold _analyze_network_intelligence in H.
  exec_in H; vocabulary_leaf H.
Qed.

Lemma pattern_layer_vocabulary (user login : pydict) (w w' : world) ra :
  _analyze_fraud_patterns user login w = (Ok ra, w') ->
  Forall in_vocabulary (snd ra).
Proof.
  intros H. unfold _analyze_fraud_patterns in H.
  unfold bind in H.
  destruct (_check_fraud_patterns_run login w) as [(_ & _ & E)|(_ & E)];
    rewrite E in H; exec_in H; vocabulary_leaf H.
Qed.

(** Case analysis over the vocabulary. *)
Lemma vocabulary_cases (P : alert -> Prop) :
  Forall (fun s => P (Text s)) literal_alerts ->
  Forall (fun p => forall arg, P (FText (fst p) arg (snd p))) fstring_alerts ->
  forall a : alert, in_vocabulary a -> P a.
Proof.
  intros Hl Hf [s|pre arg post] Hin; cbn in Hin.
  - rewrite Forall_forall in Hl. now apply Hl.
  - rewrite Forall_forall in Hf. apply (Hf (pre, post) Hin arg).
Qed.

Ltac by_vocabulary :=
  apply vocabulary_cases;
  unfold literal_alerts, fstring_alerts;
  repeat (apply Forall_cons; [try intros ?; cbn [fst snd]|]);
  try apply Forall_nil.

(** What an alert of the vocabulary weighs, by the word it carries. *)
Lemma vocabulary_weight (a : alert) :
  in_vocabulary a ->
  (0 < rule_delta a)%Z
  /\ (alert_contains "CRITICAL" a = true ->
      alert_contains "WARNING" a = false /\ (70 <= rule_delta a)%Z)
  /\ (alert_contains "WARNING" a = true -> (40 <= rule_delta a)%Z).
Proof.
  revert a. by_vocabulary.
  all: vm_compute; repeat split; intros; congruence.
Qed.

Lemma vocabulary_sum (al : list alert) :
  Forall in_vocabulary al ->
  (70 * count_alerts "CRITICAL" al + 40 * count_alerts "WARNING" al
   <= sum_deltas al)%Z
  /\ (0 <= count_alerts "CRITICAL" al)%Z
  /\ (0 <= count_alerts "WARNING" al)%Z.
Proof.
  induction 1 as [|a al Ha Hal IH]; [cbn; lia|].
  destruct (vocabulary_weight a Ha) as (Hp & Hc & Hw).
  unfold count_alerts, sum_deltas in *. cbn [fold_right].
  destruct (alert_contains "CRITICAL" a) eqn:Ec;
    destruct (alert_contains "WARNING" a) eqn:Ew.
  - destruct (Hc eq_refl). discriminate.
  - destruct (Hc eq_refl). lia.
  - specialize (Hw eq_refl). lia.
  - lia.
Qed.

Lemma Forall_app_intro {A : Type} (P : A -> Prop) (l1 l2 : list A) :
  Forall P l1 -> Forall P l2 -> Forall P (l1 ++ l2).
Proof. intros H1 H2. apply Forall_app. now split. Qed.

(** What the analysis returns: the capped sum of the deltas of its
    alerts, all of them from the vocabulary. *)
Lemma analysis_result (user login : pydict) (w w' : world)
      (score : Z) (al : list alert) (bd : breakdown) (conf : R) :
  comprehensive_risk_analysis lib user login w = (Ok (score, al, bd, conf), w') ->
  score = Z.min (sum_deltas al) 100
  /\ Forall in_vocabulary al
  /\ conf = _calculate_ml_confidence bd al.
Proof.
  intros H. apply analysis_inv in H.
  destruct H as (ra1 & w1 & ra2 & w2 & ra3 & w3 & ra4 & w4 & ra5 & w5
                 & ra6 & w6 & ra7 & E1 & E2 & E3 & E4 & E5 & E6 & E7 & Hres).
  pose proof (device_layer_vocabulary _ _ _ _ _ E1) as V1.
  pose proof (sim_layer_vocabulary _ _ _ _ _ E2) as V2.
  pose proof (geo_layer_vocabulary _ _ _ _ _ E3) as V3.
  pose proof (behavior_layer_vocabulary _ _ _ _ _ E4) as V4.
  pose proof (temporal_layer_vocabulary _ _ _ _ _ E5) as V5.
  pose proof (network_layer_vocabulary _ _ _ _ _ E6) as V6.
  pose proof (pattern_layer_vocabulary _ _ _ _ _ E7) as V7.
  apply device_layer_explained in E1. apply sim_layer_explained in E2.
  apply geo_layer_explained in E3. apply behavior_layer_explained in E4.
  apply temporal_layer_explained in E5. apply network_layer_explained in E6.
  apply pattern_layer_explained in E7.
  destruct E1 as (S1 & _), E2 as (S2 & _), E3 as (S3 & _),
           E4 as (S4 & _), E5 as (S5 & _), E6 as (S6 & _), E7 as (S7 & _).
  cbv zeta in Hres. inversion Hres; subst; clear Hres.
  split; [|split; [|reflexivity]].
  - rewrite !sum_deltas_app. f_equal. lia.
  - repeat apply Forall_app_intro; assumption.
Qed.

Lemma authenticate_result (user login : pydict) (w : world) (d : decision) :
  fst (authenticate lib user login w) = Ok d ->
  risk_score d = Z.min (sum_deltas (alerts d)) 100
  /\ Forall in_vocabulary (alerts d)
  /\ ml_confidence d = _calculate_ml_confidence (risk_breakdown d) (alerts d)
  /\ status d = decision_status (risk_score d) (alerts d).
Proof.
  intros H.
  destruct (authenticate lib user login w) as [r w'] eqn:E.
  cbn [fst] in H. subst r. apply authenticate_inv in E.
  destruct E as (score & al & bd & conf & E & ->).
  apply analysis_result in E. destruct E as (Hs & Hv & Hc).
  cbn [risk_score alerts ml_confidence risk_breakdown status].
  repeat split; assumption.
Qed.

(** ** The decision as a function of the score *)

(** X1: for every decision that the analysis and the decision logic
    return, the status is BLOCKED exactly when the score is at least 80,
    CHALLENGE exactly when it is between 50 and 79, and APPROVED exactly
    when it is below 50: every CRITICAL rule weighs at least 70, so the
    counts of CRITICAL alerts never decide. *)
Theorem status_by_score (user login : pydict) (w : world) (d : decision) :
  fst (authenticate lib user login w) = Ok d ->
  (status d = "BLOCKED" <-> (80 <= risk_score d)%Z)
  /\ (status d = "CHALLENGE" <-> (50 <= risk_score d < 80)%Z)
  /\ (status d = "APPROVED" <-> (risk_score d < 50)%Z).
Proof.
  intros H. apply authenticate_result in H.
  destruct H as (Hs & Hv & _ & ->).
  apply vocabulary_sum in Hv. destruct Hv as (Hsum & Hc & Hw).
  unfold decision_status.
  destruct (Z.leb_spec 80 (risk_score d)),
           (Z.leb_spec 2 (count_alerts "CRITICAL" (alerts d))),
           (Z.leb_spec 50 (risk_score d)),
           (Z.leb_spec 1 (count_alerts "CRITICAL" (alerts d)));
    cbn [orb]; repeat split; intros; try discriminate; try reflexivity;
    try lia.
Qed.

(** ** The reported confidence *)

(** X2: the confidence that a decision reports follows its status: an
    APPROVED decision always reports 0.92; a reported 0.95 (two CRITICAL
    alerts) comes with score 100 and a reported 0.82 (two WARNING alerts)
    with a score of at least 80, both BLOCKED; a reported 0.88 (one
    CRITICAL alert) comes with a score of at least 70. *)
Theorem confidence_by_status (user login : pydict) (w : world) (d : decision) :
  fst (authenticate lib user login w) = Ok d ->
  (status d = "APPROVED" -> ml_confidence d = 0.92)
  /\ (ml_confidence d = 0.95 -> risk_score d = 100%Z /\ status d = "BLOCKED")
  /\ (ml_confidence d = 0.82 -> (80 <= risk_score d)%Z /\ status d = "BLOCKED")
  /\ (ml_confidence d = 0.88 -> (70 <= risk_score d)%Z /\ status d <> "APPROVED").
Proof.
  intros H. apply authenticate_result in H.
  destruct H as (Hs & Hv & -> & ->).
  apply vocabulary_sum in Hv. destruct Hv as (Hsum & Hc & Hw).
  unfold decision_status, _calculate_ml_confidence.
  destruct (Z.leb_spec 80 (risk_score d)),
           (Z.leb_spec 2 (count_alerts "CRITICAL" (alerts d))),
           (Z.leb_spec 50 (risk_score d)),
           (Z.leb_spec 1 (count_alerts "CRITICAL" (alerts d))),
           (Z.leb_spec 2 (count_alerts "WARNING" (alerts d)));
    cbn [orb]; repeat split; intros; try discriminate; try reflexivity;
    try lia; try lra.
Qed.

(** ** The displayed alert type *)

(** X3: every alert of a returned decision is one of the engine's 24
    messages and begins with the level that the portal displays for it:
    CRITICAL, WARNING or INFO followed by a colon; no alert carries both
    the word CRITICAL and the word WARNING. *)
Theorem alert_type_is_prefix (user login : pydict) (w : world) (d : decision) :
  fst (authenticate lib user login w) = Ok d ->
  Forall (fun a => in_vocabulary a
                   /\ String.prefix (alert_type a ++ ": ") (alert_literal a)
                      = true
                   /\ (alert_contains "CRITICAL" a
                       && alert_contains "WARNING" a = false))
         (alerts d).
Proof.
  intros H. apply authenticate_result in H. destruct H as (_ & Hv & _).
  eapply Forall_impl; [|exact Hv].
  intros a Ha. split; [exact Ha|]. revert a Ha. by_vocabulary.
  all: vm_compute; split; reflexivity.
Qed.

(** ** What a run leaves as it was *)

Section Keeps.

Variable Inv : world -> world -> Prop.
Hypothesis Inv_refl : forall w, Inv w w.
Hypothesis Inv_trans : forall w1 w2 w3, Inv w1 w2 -> Inv w2 w3 -> Inv w1 w3.
Hypothesis Inv_draw : forall w, Inv w (snd (np_random_random w)).
Hypothesis Inv_device : forall row w, Inv w (snd (insert_or_replace_device row w)).
Hypothesis Inv_sim : forall row w, Inv w (snd (insert_or_replace_sim row w)).

Lemma keeps_ret {A : Type} (a : A) : keeps Inv (ret a).
Proof. intros w. apply Inv_refl. Qed.

Lemma keeps_raise {A : Type} (e : exn) : keeps Inv (raise e : M A).
Proof. intros w. apply Inv_refl. Qed.

Lemma keeps_lift {A : Type} (r : result A) : keeps Inv (lift r).
Proof. intros w. apply Inv_refl. Qed.

Lemma keeps_getitem {A : Type} (key : string) (field : option A) :
  keeps Inv (getitem key field).
Proof. destruct field; [apply keeps_ret|apply keeps_raise]. Qed.

Lemma keeps_read {A : Type} (q : world -> result A) :
  keeps Inv (fun w => (q w, w)).
Proof. intros w. apply Inv_refl. Qed.

Lemma keeps_cursor : keeps Inv conn_cursor.
Proof. intros w. unfold conn_cursor. destruct (db_up w); apply Inv_refl. Qed.

Lemma keeps_bind {A B : Type} (m : M A) (f : A -> M B) :
  keeps Inv m -> (forall a, keeps Inv (f a)) -> keeps Inv (bind m f).
Proof.
  intros Hm Hf w. unfold bind. specialize (Hm w).
  destruct (m w) as [[a|e] w1]; cbn [snd] in *; [|exact Hm].
  eapply Inv_trans; [exact Hm|apply Hf].
Qed.

Lemma keeps_try {A : Type} (body handler : M A) :
  keeps Inv body -> keeps Inv handler -> keeps Inv (try_except body handler).
Proof.
  intros Hb Hh w. unfold try_except. specialize (Hb w).
  destruct (body w) as [[a|e] w1]; cbn [snd] in *; [exact Hb|].
  eapply Inv_trans; [exact Hb|apply Hh].
Qed.

Lemma keeps_random : keeps Inv np_random_random.
Proof. exact Inv_draw. Qed.

Lemma keeps_insert_device (row : device_row) :
  keeps Inv (insert_or_replace_device row).
Proof. intros w. apply Inv_device. Qed.

Lemma keeps_insert_sim (row : sim_row) : keeps Inv (insert_or_replace_sim row).
Proof. intros w. apply Inv_sim. Qed.

Ltac keeps_leaf :=
  first [ apply keeps_ret | apply keeps_raise | apply keeps_lift
        | apply keeps_getitem | apply keeps_cursor | apply keeps_random
        | apply keeps_insert_device | apply keeps_insert_sim
        | apply (keeps_read (fun w => Ok _))
        | match goal with H : context [keeps] |- _ => apply H end ].

Ltac keeps_go :=
  cbv beta zeta;
  lazymatch goal with
  | |- keeps _ (bind _ _) => apply keeps_bind; [keeps_go | intros; keeps_go]
  | |- keeps _ (try_except _ _) => apply keeps_try; keeps_go
  | |- keeps _ (if ?b then _ else _) => destruct b; keeps_go
  | |- keeps _ (match ?x with _ => _ end) => destruct x; keeps_go
  | |- _ => solve [keeps_leaf]
  end.

Ltac keeps_method :=
  unfold np_random_uniform, datetime_now_isoformat, datetime_now_hour,
    select_device, select_sim_of_user, select_swap_frequency,
    select_max_confidence, select_recent_attempts, float_of_tuple;
  keeps_go.

Lemma keeps_uniform (low high : R) : keeps Inv (np_random_uniform low high).
Proof. keeps_method. Qed.

Lemma keeps_get_device_intelligence (device : string) :
  keeps Inv (_get_device_intelligence device).
Proof. unfold _get_device_intelligence. keeps_method. Qed.

Lemma keeps_update_device_intelligence (device user : string) :
  keeps Inv (_update_device_intelligence device user).
Proof. unfold _update_device_intelligence. keeps_method. Qed.

Lemma keeps_get_sim_intelligence (user : string) :
  keeps Inv (_get_sim_intelligence user).
Proof. unfold _get_sim_intelligence. keeps_method. Qed.

Lemma keeps_update_sim_intelligence (sim user : string) :
  keeps Inv (_update_sim_intelligence sim user).
Proof. unfold _update_sim_intelligence. keeps_method. Qed.

Lemma keeps_device_layer (user login : pydict) :
  keeps Inv (_analyze_device_intelligence user login).
Proof.
  pose proof keeps_get_device_intelligence.
  pose proof keeps_update_device_intelligence.
  unfold _analyze_device_intelligence. keeps_method.
Qed.

Lemma keeps_sim_layer (user login : pydict) :
  keeps Inv (_analyze_sim_intelligence user login).
Proof.
  pose proof keeps_get_sim_intelligence.
  pose proof keeps_update_sim_intelligence.
  unfold _analyze_sim_intelligence, _detect_sim_cloning, _detect_dual_sim.
  keeps_method.
Qed.

Lemma keeps_geo_layer (user login : pydict) :
  keeps Inv (_analyze_geospatial_intelligence lib user login).
Proof.
  unfold _analyze_geospatial_intelligence, _assess_location_risk.
  keeps_method.
Qed.

Lemma keeps_behavior_layer (user login : pydict) :
  keeps Inv (_analyze_behavioral_biometrics user login).
Proof.
  unfold _analyze_behavioral_biometrics, _detect_bot_behavior. keeps_method.
Qed.

Lemma keeps_temporal_layer (user login : pydict) :
  keeps Inv (_analyze_temporal_patterns user login).
Proof.
  unfold _analyze_temporal_patterns, _get_recent_attempts. keeps_method.
Qed.

Lemma keeps_network_layer (user login : pydict) :
  keeps Inv (_analyze_network_intelligence user login).
Proof. unfold _analyze_network_intelligence. keeps_method. Qed.

Lemma keeps_pattern_layer (user login : pydict) :
  keeps Inv (_analyze_fraud_patterns user login).
Proof.
  unfold _analyze_fraud_patterns, _check_fraud_patterns. keeps_method.
Qed.

Lemma keeps_analysis (user login : pydict) :
  keeps Inv (comprehensive_risk_analysis lib user login).
Proof.
  pose proof keeps_device_layer. pose proof keeps_sim_layer.
  pose proof keeps_geo_layer. pose proof keeps_behavior_layer.
  pose proof keeps_temporal_layer. pose proof keeps_network_layer.
  pose proof keeps_pattern_layer.
  unfold comprehensive_risk_analysis. keeps_go.
Qed.

Lemma keeps_authenticate (user login : pydict) :
  keeps Inv (authenticate lib user login).
Proof.
  pose proof keeps_analysis. unfold authenticate. keeps_go.
Qed.

(** After the device layer, and after the SIM layer. *)
Lemma after_device_layer (user login : pydict) (w : world) :
  Inv (snd (_analyze_device_intelligence user login w))
    (snd (comprehensive_risk_analysis lib user login w)).
Proof.
  pose proof keeps_sim_layer. pose proof keeps_geo_layer.
  pose proof keeps_behavior_layer. pose proof keeps_temporal_layer.
  pose proof keeps_network_layer. pose proof keeps_pattern_layer.
  unfold comprehensive_risk_analysis. unfold bind at 1.
  destruct (_analyze_device_intelligence user login w) as [[[r1 a1]|e] w1];
    cbn [snd]; [|apply Inv_refl].
  match goal with |- Inv _ (snd (?m w1)) => assert (K : keeps Inv m) by keeps_go end.
  apply K.
Qed.

Lemma after_sim_layer (user login : pydict) (w w1 : world) ra1 :
  _analyze_device_intelligence user login w = (Ok ra1, w1) ->
  Inv (snd (_analyze_sim_intelligence user login w1))
    (snd (comprehensive_risk_analysis lib user login w)).
Proof.
  intros E1.
  pose proof keeps_geo_layer.
  pose proof keeps_behavior_layer. pose proof keeps_temporal_layer.
  pose proof keeps_network_layer. pose proof keeps_pattern_layer.
  unfold comprehensive_risk_analysis. unfold bind at 1. rewrite E1.
  destruct ra1 as [r1 a1]. unfold bind at 1.
  destruct (_analyze_sim_intelligence user login w1) as [[[r2 a2]|e] w2];
    cbn [snd]; [|apply Inv_refl].
  match goal with |- Inv _ (snd (?m w2)) => assert (K : keeps Inv m) by keeps_go end.
  apply K.
Qed.

End Keeps.

(** *** The frame, the device table and the SIM table *)

Lemma same_frame_refl (w : world) : same_frame w w.
Proof. unfold same_frame. repeat split; reflexivity || lia. Qed.

Lemma same_frame_trans (w1 w2 w3 : world) :
  same_frame w1 w2 -> same_frame w2 w3 -> same_frame w1 w3.
Proof.
  unfold same_frame.
  intros (A1 & A2 & A3 & A4 & A5 & A6 & A7 & A8 & A9)
         (B1 & B2 & B3 & B4 & B5 & B6 & B7 & B8 & B9).
  repeat split; try congruence. lia.
Qed.

Lemma same_frame_draw (w : world) : same_frame w (snd (np_random_random w)).
Proof. unfold same_frame. cbn. repeat split; reflexivity || lia. Qed.

Lemma same_frame_device (row : device_row) (w : world) :
  same_frame w (snd (insert_or_replace_device row w)).
Proof. unfold same_frame. cbn. repeat split; reflexivity || lia. Qed.

Lemma same_frame_sim (row : sim_row) (w : world) :
  same_frame w (snd (insert_or_replace_sim row w)).
Proof.
  unfold same_frame, insert_or_replace_sim.
  destruct (sqlite_integer _); cbn; repeat split; reflexivity || lia.
Qed.

Lemma same_device_table_trans (w1 w2 w3 : world) :
  same_device_table w1 w2 -> same_device_table w2 w3 -> same_device_table w1 w3.
Proof. unfold same_device_table. congruence. Qed.

Lemma same_sim_table_trans (w1 w2 w3 : world) :
  same_sim_table w1 w2 -> same_sim_table w2 w3 -> same_sim_table w1 w3.
Proof. unfold same_sim_table. congruence. Qed.

Ltac frame_instance :=
  first [ exact same_frame_refl | exact same_frame_trans
        | exact same_frame_draw | exact same_frame_device
        | exact same_frame_sim
        | exact same_device_table_trans | exact same_sim_table_trans
        | intros; reflexivity
        | intros; unfold same_device_table, insert_or_replace_sim;
          destruct (sqlite_integer _); reflexivity ].

Lemma frame_device_layer (user login : pydict) :
  keeps same_frame (_analyze_device_intelligence user login).
Proof. apply keeps_device_layer; frame_instance. Qed.

Lemma frame_sim_layer (user login : pydict) :
  keeps same_frame (_analyze_sim_intelligence user login).
Proof. apply keeps_sim_layer; frame_instance. Qed.

Lemma frame_analysis (user login : pydict) :
  keeps same_frame (comprehensive_risk_analysis lib user login).
Proof. apply keeps_analysis; frame_instance. Qed.

Lemma frame_authenticate (user login : pydict) :
  keeps same_frame (authenticate lib user login).
Proof. apply keeps_authenticate; frame_instance. Qed.

(** Only the device layer writes [device_intelligence], only the SIM
    layer [sim_intelligence]. *)
Lemma device_table_after (user login : pydict) (w : world) :
  device_intelligence (snd (comprehensive_risk_analysis lib user login w))
  = device_intelligence (snd (_analyze_device_intelligence user login w)).
Proof. apply (after_device_layer same_device_table); frame_instance. Qed.

Lemma sim_table_of_device_layer (user login : pydict) (w : world) :
  sim_intelligence (snd (_analyze_device_intelligence user login w))
  = sim_intelligence w.
Proof. apply (keeps_device_layer same_sim_table); frame_instance. Qed.

Lemma sim_table_after (user login : pydict) (w : world) :
  sim_intelligence (snd (comprehensive_risk_analysis lib user login w))
  = sim_intelligence
      (snd (_analyze_sim_intelligence user login
              (snd (_analyze_device_intelligence user login w))))
  \/ sim_intelligence (snd (comprehensive_risk_analysis lib user login w))
     = sim_intelligence w.
Proof.
  destruct (_analyze_device_intelligence user login w) as [[ra1|e] w1] eqn:E1.
  - left. cbn [snd].
    apply (after_sim_layer same_sim_table) with (ra1 := ra1);
      [frame_instance..|exact E1].
  - right. unfold comprehensive_risk_analysis. unfold bind at 1.
    rewrite E1. cbn [snd].
    pose proof (sim_table_of_device_layer user login w) as H.
    now rewrite E1 in H.
Qed.

(** *** Lookups after [INSERT OR REPLACE] *)

Lemma find_after_replace {A : Type} (p q : A -> bool) (row : A)
      (table : list A) :
  (forall r, p r = true -> q r = true) -> p row = false ->
  find p (filter q table ++ [row]) = find p table.
Proof.
  intros Hpq Hrow. induction table as [|a table IH]; cbn.
  - now rewrite Hrow.
  - destruct (p a) eqn:Ep.
    + rewrite (Hpq a Ep). cbn. now rewrite Ep.
    + destruct (q a); cbn; [rewrite Ep|]; exact IH.
Qed.

Lemma find_replaced {A : Type} (key : A -> string) (row : A)
      (table : list A) :
  find (fun r => String.eqb (key r) (key row))
       (filter (fun r => negb (String.eqb (key r) (key row))) table ++ [row])
  = Some row.
Proof.
  induction table as [|a table IH]; cbn.
  - now rewrite String.eqb_refl.
  - destruct (String.eqb (key a) (key row)) eqn:E; cbn; [|rewrite E]; exact IH.
Qed.

Lemma find_not_replaced {A : Type} (key : A -> string) (row : A)
      (table : list A) (k : string) :
  k <> key row ->
  find (fun r => String.eqb (key r) k)
       (filter (fun r => negb (String.eqb (key r) (key row))) table ++ [row])
  = find (fun r => String.eqb (key r) k) table.
Proof.
  intros Hk. apply find_after_replace.
  - intros r Hr. apply String.eqb_eq in Hr. apply negb_eqb_true. congruence.
  - apply String.eqb_neq. congruence.
Qed.

(** *** What the update methods write *)

Lemma _update_device_intelligence_down (device user : string) (w : world) :
  db_up w = false -> _update_device_intelligence device user w = (Ok tt, w).
Proof.
  intros Hup. unfold _update_device_intelligence. monad_red. now rewrite Hup.
Qed.

Lemma _update_device_intelligence_table (device user : string) (w : world) :
  db_up w = true ->
  device_intelligence (snd (_update_device_intelligence device user w))
  = filter (fun r => negb (String.eqb (di_device_id r) device))
           (device_intelligence w)
    ++ [written_device_row device w].
Proof.
  intros Hup. unfold _update_device_intelligence, written_device_row, draw.
  rewrite Nat.add_0_r, Nat.add_1_r. monad_red. rewrite Hup.
  destruct (String.prefix "bot_" device); monad_red;
    destruct (String.prefix "emulator_" device); monad_red;
    try reflexivity;
    destruct (Rltb (rng w (rng_pos w)) 0.05); reflexivity.
Qed.

Lemma _update_sim_intelligence_down (sim user : string) (w : world) :
  db_up w = false -> _update_sim_intelligence sim user w = (Ok tt, w).
Proof.
  intros Hup. unfold _update_sim_intelligence. monad_red. now rewrite Hup.
Qed.

Lemma _update_sim_intelligence_table (sim user : string) (w : world) :
  db_up w = true ->
  if sqlite_integer (counted_swaps sim w)
  then exists row : sim_row,
         si_sim_id row = sim
         /\ swap_frequency row = counted_swaps sim w
         /\ sim_intelligence (snd (_update_sim_intelligence sim user w))
            = filter (fun r => negb (String.eqb (si_sim_id r) sim))
                     (sim_intelligence w)
              ++ [row]
  else sim_intelligence (snd (_update_sim_intelligence sim user w))
       = sim_intelligence w.
Proof.
  intros Hup. unfold _update_sim_intelligence, counted_swaps.
  monad_red. rewrite Hup.
  destruct (q_swap_frequency sim w) as [f|]; destruct (Z.ltb _ _);
    cbn [swap_frequency]; destruct (sqlite_integer _); cbn [fst snd];
    try reflexivity;
    eexists; (split; [|split; [|reflexivity]]); reflexivity.
Qed.

(** The worlds after the device layer and after the SIM layer. *)
Lemma device_layer_world (user login : pydict) (w : world) :
  snd (_analyze_device_intelligence user login w)
  = match device_id login, device_id user, user_id user with
    | Some ld, Some ud, Some uu =>
        if negb (String.eqb ld ud)
        then snd (_update_device_intelligence ld uu w)
        else w
    | _, _, _ => w
    end.
Proof.
  unfold _analyze_device_intelligence.
  destruct (device_id login) as [ld|]; [|reflexivity].
  destruct (device_id user) as [ud|]; [|reflexivity].
  monad_red. destruct (negb (String.eqb ld ud)).
  2:{ now destruct (user_id user). }
  rewrite _get_device_intelligence_run. monad_red.
  match goal with
  | |- context [match ?x with (_, _) => _ end] => destruct x as [risk al]
  end.
  destruct (user_id user) as [uu|]; [|reflexivity]. monad_red.
  pose proof (_update_device_intelligence_ok ld uu w) as E.
  destruct (_update_device_intelligence ld uu w) as [r w1].
  cbn [fst] in E. subst r. reflexivity.
Qed.

Lemma sim_layer_world (user login : pydict) (w : world) :
  sim_id login = sim_id user \/ db_up w = false ->
  sim_intelligence (snd (_analyze_sim_intelligence user login w))
  = sim_intelligence w.
Proof.
  intros H.
  unfold _analyze_sim_intelligence, _detect_sim_cloning, _detect_dual_sim.
  destruct (sim_id login) as [ls|] eqn:El; [|reflexivity].
  destruct (sim_id user) as [us|] eqn:Eu; [|reflexivity].
  monad_red. destruct (String.eqb_spec ls us) as [->|Hne]; [reflexivity|].
  destruct H as [H|Hup]; [congruence|].
  cbn [negb]. destruct (user_id user) as [uu|]; [|reflexivity].
  monad_red. rewrite _get_sim_intelligence_run. monad_red.
  repeat match goal with
         | |- context [match ?x with (_, _) => _ end] =>
             lazymatch x with
             | context [_update_sim_intelligence] => fail
             | _ => let r := fresh "risk" in let a := fresh "al" in
                    destruct x as [r a]
             end
         end.
  monad_red.
  match goal with
  | |- context [_update_sim_intelligence ls uu ?w2] =>
      rewrite (_update_sim_intelligence_down ls uu w2) by exact Hup
  end.
  reflexivity.
Qed.

(** ** What the analysis writes *)

Lemma device_table_unchanged (user login : pydict) (w : world) :
  device_id login = device_id user \/ db_up w = false ->
  device_intelligence (snd (comprehensive_risk_analysis lib user login w))
  = device_intelligence w.
Proof.
  intros H. rewrite device_table_after, device_layer_world.
  destruct (device_id login) as [ld|]; [|reflexivity].
  destruct (device_id user) as [ud|]; [|reflexivity].
  destruct (user_id user) as [uu|]; [|reflexivity].
  destruct H as [H|Hup].
  - inversion H. now rewrite String.eqb_refl.
  - rewrite _update_device_intelligence_down by exact Hup.
    now destruct (negb _).
Qed.

Lemma sim_table_unchanged (user login : pydict) (w : world) :
  sim_id login = sim_id user \/ db_up w = false ->
  sim_intelligence (snd (comprehensive_risk_analysis lib user login w))
  = sim_intelligence w.
Proof.
  intros H. destruct (sim_table_after user login w) as [E|E]; [|exact E].
  rewrite E, sim_layer_world; [apply sim_table_of_device_layer|].
  destruct H as [H|Hup]; [now left|right].
  destruct (frame_device_layer user login w) as (Hd & _). congruence.
Qed.

(** X4: whether it returns or raises, the analysis never writes the
    tables users, fraud_patterns and attempts; it leaves
    device_intelligence as it was when the attempt comes from the enrolled
    device, and sim_intelligence when it comes with the enrolled SIM; and
    on a broken connection it writes nothing at all. *)
Theorem analysis_writes_only_intelligence (user login : pydict) (w : world) :
  let w' := snd (comprehensive_risk_analysis lib user login w) in
  users w' = users w
  /\ fraud_patterns w' = fraud_patterns w
  /\ attempts w' = attempts w
  /\ (device_id login = device_id user \/ db_up w = false ->
      device_intelligence w' = device_intelligence w)
  /\ (sim_id login = sim_id user \/ db_up w = false ->
      sim_intelligence w' = sim_intelligence w).
Proof.
  intros w'. subst w'.
  destruct (frame_analysis user login w) as (_ & Hu & Hf & Ha & _).
  split; [exact Hu|]. split; [exact Hf|]. split; [exact Ha|]. split.
  - apply device_table_unchanged.
  - apply sim_table_unchanged.
Qed.

(** ** What the device layer learns *)

Lemma q_device_written (device : string) (row : device_row)
      (table : list device_row) (w' : world) :
  di_device_id row = device ->
  device_intelligence w'
  = filter (fun r => negb (String.eqb (di_device_id r) device)) table ++ [row] ->
  q_device device w' = Some row.
Proof.
  intros <- E. unfold q_device. rewrite E.
  apply (find_replaced di_device_id).
Qed.

Lemma q_device_not_written (device d : string) (row : device_row) (w w' : world) :
  di_device_id row = device -> d <> device ->
  device_intelligence w'
  = filter (fun r => negb (String.eqb (di_device_id r) device))
           (device_intelligence w) ++ [row] ->
  q_device d w' = q_device d w.
Proof.
  intros <- Hd E. unfold q_device. rewrite E.
  now apply (find_not_replaced di_device_id).
Qed.

Lemma changed_device_table (user login : profile) (w : world) :
  p_device_id login <> p_device_id user -> db_up w = true ->
  device_intelligence
    (snd (comprehensive_risk_analysis lib (dict_of user) (dict_of login) w))
  = filter (fun r => negb (String.eqb (di_device_id r) (p_device_id login)))
           (device_intelligence w)
    ++ [written_device_row (p_device_id login) w].
Proof.
  intros Hne Hup. rewrite device_table_after, device_layer_world.
  cbn [dict_of device_id user_id].
  rewrite (proj2 (negb_eqb_true _ _) Hne).
  now apply _update_device_intelligence_table.
Qed.

Lemma changed_device_lookup (user login : profile) (w : world) :
  p_device_id login <> p_device_id user -> db_up w = true ->
  fst (_get_device_intelligence (p_device_id login)
         (snd (comprehensive_risk_analysis lib (dict_of user) (dict_of login) w)))
  = Ok (Some (written_device_row (p_device_id login) w)).
Proof.
  intros Hne Hup.
  pose proof (changed_device_table user login w Hne Hup) as Ht.
  destruct (frame_analysis (dict_of user) (dict_of login) w) as (Hd & _).
  rewrite Hup in Hd.
  rewrite _get_device_intelligence_run, Hd. cbn [fst]. f_equal.
  eapply q_device_written; [|exact Ht]. reflexivity.
Qed.

(** X5: after the analysis of an attempt from a device other than the
    enrolled one, on a working connection, the lookup of that device
    returns the row the engine has just written (emulator flag from the
    id prefix, rooted flag and trust score from the draws, no suspicious
    activity); the lookup of every other device is as before. *)
Theorem changed_device_is_recorded (user login : profile) (w : world) :
  p_device_id login <> p_device_id user -> db_up w = true ->
  let w' := snd (comprehensive_risk_analysis lib (dict_of user) (dict_of login) w) in
  fst (_get_device_intelligence (p_device_id login) w')
  = Ok (Some (written_device_row (p_device_id login) w))
  /\ (forall d : string, d <> p_device_id login ->
        fst (_get_device_intelligence d w')
        = fst (_get_device_intelligence d w)).
Proof.
  intros Hne Hup w'. subst w'.
  pose proof (changed_device_table user login w Hne Hup) as Ht.
  destruct (frame_analysis (dict_of user) (dict_of login) w) as (Hd & _).
  rewrite Hup in Hd. split.
  - now apply changed_device_lookup.
  - intros d Hdne. rewrite !_get_device_intelligence_run, Hd, Hup. cbn [fst].
    f_equal. eapply q_device_not_written; [|exact Hdne|exact Ht]. reflexivity.
Qed.

Lemma written_device_row_ok (device : string) (w : world) :
  unit_draws w -> engine_device_row (written_device_row device w).
Proof.
  intros Hu. unfold engine_device_row, written_device_row.
  cbn [suspicious_activity_count is_emulator is_rooted trust_score di_device_id].
  split; [reflexivity|]. split; [reflexivity|]. split.
  - intros ->. reflexivity.
  - intros ->. unfold draw. pose proof (Hu (rng_pos w + 1)%nat). lra.
Qed.

Lemma known_device_run (user login : profile) (w : world) (di : device_row) :
  p_device_id login <> p_device_id user ->
  fst (_get_device_intelligence (p_device_id login) w) = Ok (Some di) ->
  engine_device_row di ->
  fst (_analyze_device_intelligence (dict_of user) (dict_of login) w)
  = Ok (known_device_rule di).
Proof.
  intros Hne Hdi (Hc & _ & Ht1 & Ht2).
  rewrite _get_device_intelligence_run in Hdi. cbn [fst] in Hdi.
  inversion Hdi as [Hq]. clear Hdi.
  unfold _analyze_device_intelligence, known_device_rule. monad_red.
  rewrite (proj2 (negb_eqb_true _ _) Hne). monad_red.
  rewrite _get_device_intelligence_run. monad_red. rewrite Hq.
  rewrite Hc. change (3 <? 0)%Z with false.
  destruct (is_emulator di) eqn:Ee; [|destruct (is_rooted di) eqn:Er].
  3:{ rewrite Rltb_false by (specialize (Ht2 eq_refl); lra).
      exec_goal; reflexivity. }
  all: exec_goal; reflexivity.
Qed.

(** X6: when an attempt from a device other than the enrolled one is
    repeated after its analysis (working connection, draws in [0, 1)),
    the device layer no longer reports an unknown device: it reports
    what the row written by the first analysis says, emulator (95),
    rooted (65) or known device change (35); for a device id without the
    prefixes emulator_ and bot_, and a first draw of at least 0.05, it
    is the INFO alert with 35 where the first attempt scored 80. *)
Theorem retried_device_is_known (user login : profile) (w : world) :
  p_device_id login <> p_device_id user -> db_up w = true -> unit_draws w ->
  let w' := snd (comprehensive_risk_analysis lib (dict_of user) (dict_of login) w) in
  let row := written_device_row (p_device_id login) w in
  fst (_analyze_device_intelligence (dict_of user) (dict_of login) w')
  = Ok (known_device_rule row)
  /\ (String.prefix "emulator_" (p_device_id login) = false ->
      String.prefix "bot_" (p_device_id login) = false ->
      0.05 <= draw w 0 ->
      known_device_rule row = (35%Z, [Text "INFO: Known device change"])).
Proof.
  intros Hne Hup Hu w' row. subst w' row. split.
  - apply known_device_run; [exact Hne| |now apply written_device_row_ok].
    now apply changed_device_lookup.
  - intros He Hb Hd. unfold known_device_rule, written_device_row.
    cbn [is_emulator is_rooted]. rewrite He, Hb.
    rewrite Rltb_false by lra. reflexivity.
Qed.

Lemma unit_draws_w0 : unit_draws w0.
Proof. intros i. cbn. lra. Qed.

(** ** The rows of the device table *)







(** ** What the SIM layer writes, and what it reads *)

Lemma changed_sim_layer_table (user login : profile) (w : world) :
  p_sim_id login <> p_sim_id user -> db_up w = true ->
  if sqlite_integer (counted_swaps (p_sim_id login) w)
  then exists row : sim_row,
         si_sim_id row = p_sim_id login
         /\ swap_frequency row = counted_swaps (p_sim_id login) w
         /\ sim_intelligence
              (snd (_analyze_sim_intelligence (dict_of user) (dict_of login) w))
            = filter (fun r => negb (String.eqb (si_sim_id r) (p_sim_id login)))
                     (sim_intelligence w)
              ++ [row]
  else sim_intelligence
         (snd (_analyze_sim_intelligence (dict_of user) (dict_of login) w))
       = sim_intelligence w.
Proof.
  intros Hne Hup.
  unfold _analyze_sim_intelligence, _detect_sim_cloning, _detect_dual_sim.
  monad_red. rewrite (proj2 (negb_eqb_true _ _) Hne). monad_red.
  rewrite _get_sim_intelligence_run. monad_red.
  repeat match goal with
         | |- context [match ?x with (_, _) => _ end] =>
             lazymatch x with
             | context [_update_sim_intelligence] => fail
             | _ => let r := fresh "risk" in let a := fresh "al" in
                    destruct x as [r a]
             end
         end.
  monad_red.
  match goal with
  | |- context [_update_sim_intelligence ?s ?u ?w2] =>
      pose proof (_update_sim_intelligence_table s u w2 Hup) as Ht;
      pose proof (_update_sim_intelligence_ok s u w2) as Eok;
      destruct (_update_sim_intelligence s u w2) as [r w3]
  end.
  cbn [fst snd] in *. subst r. cbn [snd].
  unfold counted_swaps, q_swap_frequency in *. cbn [sim_intelligence] in Ht.
  exact Ht.
Qed.

Lemma changed_sim_table (user login : profile) (w : world) :
  p_sim_id login <> p_sim_id user -> db_up w = true ->
  if sqlite_integer (counted_swaps (p_sim_id login) w)
  then exists row : sim_row,
         si_sim_id row = p_sim_id login
         /\ swap_frequency row = counted_swaps (p_sim_id login) w
         /\ sim_intelligence
              (snd (comprehensive_risk_analysis lib (dict_of user)
                                                (dict_of login) w))
            = filter (fun r => negb (String.eqb (si_sim_id r) (p_sim_id login)))
                     (sim_intelligence w)
              ++ [row]
  else sim_intelligence
         (snd (comprehensive_risk_analysis lib (dict_of user) (dict_of login) w))
       = sim_intelligence w.
Proof.
  intros Hne Hup.
  destruct (device_layer_ok (dict_of user) (dict_of login) w)
    as (ra1 & w1 & E1); try discriminate.
  pose proof (sim_table_of_device_layer (dict_of user) (dict_of login) w) as Hs.
  destruct (frame_device_layer (dict_of user) (dict_of login) w) as (Hd & _).
  rewrite E1 in Hs, Hd. cbn [snd] in Hs, Hd. rewrite Hup in Hd.
  pose proof (changed_sim_layer_table user login w1 Hne Hd) as Ht.
  assert (Hf : counted_swaps (p_sim_id login) w1
               = counted_swaps (p_sim_id login) w)
    by (unfold counted_swaps, q_swap_frequency; now rewrite Hs).
  rewrite Hf in Ht.
  assert (Ha : sim_intelligence
                 (snd (comprehensive_risk_analysis lib (dict_of user)
                                                   (dict_of login) w))
               = sim_intelligence
                   (snd (_analyze_sim_intelligence (dict_of user)
                                                   (dict_of login) w1))).
  { apply (after_sim_layer same_sim_table) with (ra1 := ra1);
      [frame_instance..|exact E1]. }
  rewrite Ha, <- Hs.
  destruct (sqlite_integer _); [|exact Ht].
  destruct Ht as (row & Hid & Hf' & Ht). exists row. auto.
Qed.

(** X9: the analysis of an attempt with a SIM other than the enrolled
    one, on a working connection, counts the swap: when the new count (one
    more than the stored swap frequency of the attempt's SIM, 1 for a SIM
    without a record) fits SQLite's 64-bit integer, it is what is stored
    afterwards; when it does not, the failing INSERT is swallowed and the
    stored swap frequency stays as it was.  The swap frequency of every
    other SIM is as it was. *)
Theorem changed_sim_is_counted (user login : profile) (w : world) :
  p_sim_id login <> p_sim_id user -> db_up w = true ->
  let w' := snd (comprehensive_risk_analysis lib (dict_of user) (dict_of login) w) in
  let count := counted_swaps (p_sim_id login) w in
  (sqlite_integer count = true ->
   q_swap_frequency (p_sim_id login) w' = Some count)
  /\ (sqlite_integer count = false ->
      q_swap_frequency (p_sim_id login) w'
      = q_swap_frequency (p_sim_id login) w)
  /\ (forall s : string, s <> p_sim_id login ->
        q_swap_frequency s w' = q_swap_frequency s w).
Proof.
  intros Hne Hup w' count. subst w' count.
  pose proof (changed_sim_table user login w Hne Hup) as Ht.
  destruct (sqlite_integer _).
  - destruct Ht as (row & Hid & Hf & Ht).
    split; [|split; [discriminate|]].
    + intros _. unfold q_swap_frequency at 1. rewrite Ht, <- Hid.
      rewrite (find_replaced si_sim_id). cbn [option_map]. rewrite Hf, Hid.
      reflexivity.
    + intros s Hs. unfold q_swap_frequency. rewrite Ht, <- Hid.
      rewrite (find_not_replaced si_sim_id) by congruence. reflexivity.
  - unfold q_swap_frequency. rewrite Ht.
    split; [discriminate|]. split; reflexivity.
Qed.

(** X10: the lookup behind the SIM swap rule, which joins the stored SIM
    records with the enrolled SIM of the user, returns after an analysis
    for that user what it returned before: the analysis only ever writes
    the record of the attempt's SIM, so repeated attempts against a
    profile never change what the swap rule finds for it. *)
Theorem swap_lookup_is_stable (user login : profile) (w : world) :
  enrolled_sim (p_user_id user) (p_sim_id user) w ->
  let w' := snd (comprehensive_risk_analysis lib (dict_of user) (dict_of login) w) in
  fst (_get_sim_intelligence (p_user_id user) w')
  = fst (_get_sim_intelligence (p_user_id user) w).
Proof.
  intros Hen w'. subst w'.
  rewrite !_get_sim_intelligence_run. cbn [fst].
  destruct (frame_analysis (dict_of user) (dict_of login) w) as (Hd & Hu & _).
  rewrite Hd. destruct (db_up w) eqn:Hup; [|reflexivity]. f_equal.
  unfold q_sim_of_user. rewrite Hu.
  destruct (String.eqb_spec (p_sim_id login) (p_sim_id user)) as [Heq|Hne].
  - rewrite sim_table_unchanged; [reflexivity|]. left. cbn. now rewrite Heq.
  - pose proof (changed_sim_table user login w Hne Hup) as Ht.
    destruct (sqlite_integer _); [|now rewrite Ht].
    destruct Ht as (row & Hid & _ & Ht).
    rewrite Ht. apply find_after_replace.
    + intros r Hr. apply existsb_exists in Hr. destruct Hr as (u & Hin & Hr).
      apply andb_prop in Hr. destruct Hr as [H1 H2].
      apply String.eqb_eq in H1, H2. apply negb_eqb_true.
      rewrite H2, (Hen u Hin H1). congruence.
    + destruct (existsb _ (users w)) eqn:Hr; [|reflexivity].
      apply existsb_exists in Hr. destruct Hr as (u & Hin & Hr).
      apply andb_prop in Hr. destruct Hr as [H1 H2].
      apply String.eqb_eq in H1, H2. rewrite (Hen u Hin H1) in H2. congruence.
Qed.

(** ** A broken connection *)

Lemma sim_layer_down (user login : profile) (w w' : world) ra :
  db_up w = false -> p_sim_id login <> p_sim_id user ->
  _analyze_sim_intelligence (dict_of user) (dict_of login) w = (Ok ra, w') ->
  (65 <= fst ra)%Z /\ In (Text "WARNING: SIM card changed") (snd ra).
Proof.
  intros Hup Hne E. apply negb_eqb_true in Hne.
  unfold _analyze_sim_intelligence, _detect_sim_cloning, _detect_dual_sim in E.
  monad_red_in E. rewrite Hne in E. monad_red_in E.
  rewrite _get_sim_intelligence_run, Hup in E.
  exec_in E; inversion E; subst; clear E; cbn; split; try tauto;
    unfold risk_weights.sim_swap_first; lia.
Qed.

Lemma temporal_layer_down (user login : pydict) (w w' : world) ra :
  db_up w = false ->
  _analyze_temporal_patterns user login w = (Ok ra, w') ->
  fst ra = 0%Z \/ fst ra = 45%Z.
Proof.
  intros Hup E. unfold _analyze_temporal_patterns in E.
  exec_in E;
    try match goal with
        | H : context [if db_up _ then _ else _] |- _ =>
            rewrite Hup in H; discriminate H
        end;
    inversion E; subst; clear E;
    first [left; reflexivity | right; reflexivity].
Qed.

Lemma pattern_layer_down (user login : pydict) (w w' : world) ra :
  db_up w = false ->
  _analyze_fraud_patterns user login w = (Ok ra, w') -> ra = (0%Z, []).
Proof.
  intros Hup E. unfold _analyze_fraud_patterns, bind in E.
  destruct (_check_fraud_patterns_run login w) as [(Hup' & _)|(_ & E')];
    [congruence|].
  rewrite E' in E. rewrite (Rgtb_false 0 0.8), (Rgtb_false 0 0.6) in E by lra.
  now inversion E.
Qed.

Lemma layer_db_up {A : Type} (m : M A) (w w' : world) (r : result A) :
  keeps same_frame m -> m w = (r, w') -> db_up w' = db_up w.
Proof.
  intros K E. destruct (K w) as (Hd & _). now rewrite E in Hd.
Qed.

Lemma distance_of_dict_of (user login : profile) :
  distance_of lib (dict_of user) (dict_of login)
  = Some (_calculate_distance lib (degrees (p_lat user)) (degrees (p_lon user))
                              (degrees (p_lat login)) (degrees (p_lon login))).
Proof. reflexivity. Qed.

(** X11: on a broken connection the analysis writes nothing, and it
    returns whenever the distance between the two locations is defined
    (it raises the distance's error otherwise); every changed device then
    counts as unknown (80), a changed SIM as changed without history (at
    least 65, with the alert SIM card changed), the temporal layer cannot
    see rapid attempts (0, or 45 at night) and the pattern layer adds 0. *)
Theorem outage_analysis (user login : profile) (w : world) :
  db_up w = false ->
  let run := comprehensive_risk_analysis lib (dict_of user) (dict_of login) w in
  device_intelligence (snd run) = device_intelligence w
  /\ sim_intelligence (snd run) = sim_intelligence w
  /\ match _calculate_distance lib (degrees (p_lat user)) (degrees (p_lon user))
                               (degrees (p_lat login)) (degrees (p_lon login))
     with
     | Raise e => fst run = Raise e
     | Ok _ =>
         exists (score : Z) (al : list alert)
                (device sim geo behavior temporal network : Z) (conf : R),
           fst run
           = Ok (score, al,
                 breakdown_of device sim geo behavior temporal network 0, conf)
           /\ (p_device_id login <> p_device_id user ->
               device = 80%Z
               /\ In (Text "CRITICAL: Unknown device detected") al)
           /\ (p_sim_id login <> p_sim_id user ->
               (65 <= sim)%Z /\ In (Text "WARNING: SIM card changed") al)
           /\ (temporal = 0%Z \/ temporal = 45%Z)
     end.
Proof.
  intros Hup run. subst run.
  pose proof (device_table_unchanged (dict_of user) (dict_of login) w
                (or_intror Hup)) as Hdev.
  pose proof (sim_table_unchanged (dict_of user) (dict_of login) w
                (or_intror Hup)) as Hsim.
  split; [exact Hdev|]. split; [exact Hsim|]. clear Hdev Hsim.
  pose proof (distance_of_dict_of user login) as Hdist.
  destruct (_calculate_distance _ _ _ _ _) as [km|e].
  2:{ apply analysis_undefined; [apply fields_present_dict_of|exact Hdist]. }
  destruct (analysis_ok _ _ w km (fields_present_dict_of user login) Hdist)
    as ([[[score al] bd] conf] & w' & H).
  rewrite H. cbn [fst].
  pose proof H as Hinv. apply analysis_inv in Hinv.
  destruct Hinv as (ra1 & w1 & ra2 & w2 & ra3 & w3 & ra4 & w4 & ra5 & w5
                    & ra6 & w6 & ra7 & E1 & E2 & E3 & E4 & E5 & E6 & E7 & Hres).
  assert (U1 : db_up w1 = false).
  { rewrite (layer_db_up _ _ _ _ (frame_device_layer _ _) E1). exact Hup. }
  assert (U2 : db_up w2 = false).
  { rewrite (layer_db_up _ _ _ _ (frame_sim_layer _ _) E2). exact U1. }
  assert (U3 : db_up w3 = false).
  { rewrite (layer_db_up _ _ _ _
               (keeps_geo_layer same_frame same_frame_refl same_frame_trans
                                same_frame_draw _ _) E3). exact U2. }
  assert (U4 : db_up w4 = false).
  { rewrite (layer_db_up _ _ _ _
               (keeps_behavior_layer same_frame same_frame_refl
                                     same_frame_trans _ _) E4). exact U3. }
  assert (U5 : db_up w5 = false).
  { rewrite (layer_db_up _ _ _ _
               (keeps_temporal_layer same_frame same_frame_refl
                                     same_frame_trans _ _) E5). exact U4. }
  assert (U6 : db_up w6 = false).
  { rewrite (layer_db_up _ _ _ _
               (keeps_network_layer same_frame same_frame_refl
                                    same_frame_trans same_frame_draw _ _) E6).
    exact U5. }
  apply (pattern_layer_down _ _ _ _ _ U6) in E7. subst ra7.
  apply (temporal_layer_down _ _ _ _ _ U4) in E5.
  cbv zeta in Hres. inversion Hres; subst; clear Hres.
  exists (Z.min (fst ra1 + fst ra2 + fst ra3 + fst ra4 + fst ra5 + fst ra6
                 + fst (0%Z, @nil alert)) 100),
         (snd ra1 ++ snd ra2 ++ snd ra3 ++ snd ra4 ++ snd ra5 ++ snd ra6
          ++ snd (0%Z, @nil alert)),
         (fst ra1), (fst ra2), (fst ra3), (fst ra4), (fst ra5), (fst ra6),
         (_calculate_ml_confidence
            (breakdown_of (fst ra1) (fst ra2) (fst ra3) (fst ra4) (fst ra5)
                          (fst ra6) 0)
            (snd ra1 ++ snd ra2 ++ snd ra3 ++ snd ra4 ++ snd ra5 ++ snd ra6
             ++ snd (0%Z, @nil alert))).
  split; [reflexivity|].
  split; [|split; [|exact E5]].
  - intros Hne.
    assert (Hi : fst (_get_device_intelligence (p_device_id login) w) = Ok None)
      by (rewrite _get_device_intelligence_run, Hup; reflexivity).
    rewrite (device_layer_unknown _ _ _ _ _ Hne Hi E1).
    split; [reflexivity|]. cbn. tauto.
  - intros Hne.
    destruct (sim_layer_down _ _ _ _ _ U1 Hne E2) as [H65 Hin].
    split; [exact H65|]. apply in_or_app. right. apply in_or_app. now left.
Qed.

(** ** The temporal layer *)

(** X12: with the hour of a clock (0 to 23) the temporal layer adds 45
    for an unusual login time exactly in the hours 0 to 4: the test
    hour > 23 never holds, and 23:xx is not flagged.  It adds 50 for
    rapid attempts exactly when the connection works and at least six
    attempts of the user with status BLOCKED or CHALLENGE are stored for
    the last ten minutes.  It leaves the world as it was. *)
Theorem temporal_layer_rules (user login : pydict) (uid : string) (w : world) :
  user_id user = Some uid -> (0 <= clock_hour w <= 23)%Z ->
  let night := (clock_hour w <? 5)%Z in
  let rapid := db_up w
               && (6 <=? Z.of_nat (List.length (q_recent_attempts uid 10 w)))%Z in
  _analyze_temporal_patterns user login w
  = (Ok (((if night then 45 else 0) + (if rapid then 50 else 0))%Z,
         (if night
          then [FText "WARNING: Unusual login time ("
                      (FmtHour (clock_hour w)) ":xx)"]
          else [])
         ++ (if rapid then [Text "WARNING: Multiple rapid attempts"] else [])),
     w).
Proof.
  intros Hu Hh night rapid. subst night rapid.
  unfold _analyze_temporal_patterns. monad_red. rewrite Hu.
  assert ((23 <? clock_hour w)%Z = false) as -> by (apply Z.ltb_ge; lia).
  rewrite orb_false_r.
  destruct (clock_hour w <? 5)%Z; monad_red;
    rewrite _get_recent_attempts_run; monad_red;
    (destruct (db_up w); cbn [andb List.length Z.of_nat];
     [ destruct (Z.ltb_spec 5 (Z.of_nat
                   (List.length (q_recent_attempts uid 10 w))));
       destruct (Z.leb_spec 6 (Z.of_nat
                   (List.length (q_recent_attempts uid 10 w))));
       try lia; reflexivity
     | change (5 <? 0)%Z with false; reflexivity ]).
Qed.

Lemma temporal_layer_rules_witness :
  _analyze_temporal_patterns (dict_of alice) (dict_of alice) w_11pm
  = (Ok (0%Z, []), w_11pm)
  /\ _analyze_temporal_patterns (dict_of alice) (dict_of alice) w_2am
     = (Ok (45%Z, [FText "WARNING: Unusual login time (" (FmtHour 2) ":xx)"]),
        w_2am).
Proof.
  split.
  - apply (temporal_layer_rules (dict_of alice) (dict_of alice) "alice" w_11pm).
    + reflexivity.
    + cbn. lia.
  - apply (temporal_layer_rules (dict_of alice) (dict_of alice) "alice" w_2am).
    + reflexivity.
    + cbn. lia.
Defined.

(** ** Clearing the archive *)




(** ** An attempt with the biometrics of a bot *)

Lemma bot_layer (user login : pydict) (w : world) :
  keystroke_speed login = Some 100 -> mouse_speed login = Some 150 ->
  _analyze_behavioral_biometrics user login w
  = (Ok (90%Z, [Text "CRITICAL: Automated/bot behavior detected"]), w).
Proof.
  intros Hk Hm. unfold _analyze_behavioral_biometrics, _detect_bot_behavior.
  rewrite Hk, Hm. monad_red. unfold get_default.
  rewrite !Reqb_true by reflexivity. reflexivity.
Qed.

(** X16: an attempt whose keystroke speed is 100 and whose mouse speed is
    150 is reported as a bot whatever the enrolled biometrics are, also
    when they are the same, and every decision on it is BLOCKED with a
    score of at least 90. *)
Theorem bot_attempt_is_blocked (user login : pydict) (w : world) (d : decision) :
  keystroke_speed login = Some 100 -> mouse_speed login = Some 150 ->
  fst (authenticate lib user login w) = Ok d ->
  status d = "BLOCKED"
  /\ (90 <= risk_score d <= 100)%Z
  /\ In (Text "CRITICAL: Automated/bot behavior detected") (alerts d)
  /\ In ("behavioral_analysis", 90%Z) (risk_breakdown d).
Proof.
  intros Hk Hm H.
  destruct (authenticate lib user login w) as [r w'] eqn:E.
  cbn [fst] in H. subst r. apply authenticate_inv in E.
  destruct E as (score & al & bd & conf & E & ->).
  apply analysis_inv in E.
  destruct E as (ra1 & w1 & ra2 & w2 & ra3 & w3 & ra4 & w4 & ra5 & w5
                 & ra6 & w6 & ra7 & E1 & E2 & E3 & E4 & E5 & E6 & E7 & Hres).
  rewrite (bot_layer user login w3 Hk Hm) in E4. inversion E4; subst; clear E4.
  apply device_layer_explained in E1. apply sim_layer_explained in E2.
  apply geo_layer_explained in E3. apply temporal_layer_explained in E5.
  apply network_layer_explained in E6. apply pattern_layer_explained in E7.
  destruct E1 as (S1 & P1 & _), E2 as (S2 & P2 & _), E3 as (S3 & P3 & _),
           E5 as (S5 & P5 & _), E6 as (S6 & P6 & _), E7 as (S7 & P7 & _).
  apply sum_deltas_nonneg in P1, P2, P3, P5, P6, P7.
  cbv zeta in Hres. inversion Hres; subst; clear Hres.
  cbn [status risk_score alerts risk_breakdown fst snd].
  split; [|split; [lia|split]].
  - unfold decision_status.
    destruct (Z.leb_spec 80 (Z.min (fst ra1 + fst ra2 + fst ra3 + 90 + fst ra5
                                    + fst ra6 + fst ra7) 100));
      [reflexivity|lia].
  - do 3 (apply in_or_app; right). now left.
  - cbn. tauto.
Qed.

Lemma scenario_bot :
  fst (authenticate lib (dict_of alice) (dict_of login_bot) w0)
  = Ok (mk_decision "BLOCKED" 90
          [Text "CRITICAL: Automated/bot behavior detected"]
          (breakdown_of 0 0 0 90 0 0 0) 0.88).
Proof. unfold login_bot. run_engine. reflexivity. Qed.

(** ** The pattern layer in the analysis *)

(** X17: with the generator's draws in [0, 1) the pattern layer adds
    nothing to any analysis: the breakdown's pattern_analysis is 0. *)
Theorem pattern_layer_adds_nothing
        (user login : pydict) (w : world)
        (score : Z) (al : list alert) (bd : breakdown) (conf : R) :
  unit_draws w ->
  fst (comprehensive_risk_analysis lib user login w) = Ok (score, al, bd, conf) ->
  exists device sim geo behavior temporal network : Z,
    bd = breakdown_of device sim geo behavior temporal network 0.
Proof.
  intros Hu H.
  destruct (comprehensive_risk_analysis lib user login w) as [r w'] eqn:E.
  cbn [fst] in H. subst r.
  pose proof (after_device_layer same_frame same_frame_refl same_frame_trans
                same_frame_draw same_frame_sim user login w) as F.
  apply analysis_inv in E.
  destruct E as (ra1 & w1 & ra2 & w2 & ra3 & w3 & ra4 & w4 & ra5 & w5
                 & ra6 & w6 & ra7 & E1 & E2 & E3 & E4 & E5 & E6 & E7 & Hres).
  assert (R6 : rng w6 = rng w).
  { pose proof (frame_device_layer user login w) as K1.
    pose proof (frame_sim_layer user login w1) as K2.
    pose proof (keeps_geo_layer same_frame same_frame_refl same_frame_trans
                                same_frame_draw user login w2) as K3.
    pose proof (keeps_behavior_layer same_frame same_frame_refl
                                     same_frame_trans user login w3) as K4.
    pose proof (keeps_temporal_layer same_frame same_frame_refl
                                     same_frame_trans user login w4) as K5.
    pose proof (keeps_network_layer same_frame same_frame_refl
                                    same_frame_trans same_frame_draw
                                    user login w5) as K6.
    rewrite E1 in K1. rewrite E2 in K2. rewrite E3 in K3. rewrite E4 in K4.
    rewrite E5 in K5. rewrite E6 in K6. cbn [snd] in *.
    unfold same_frame in *.
    destruct K1 as (_ & _ & _ & _ & _ & _ & _ & R1 & _),
             K2 as (_ & _ & _ & _ & _ & _ & _ & R2 & _),
             K3 as (_ & _ & _ & _ & _ & _ & _ & R3 & _),
             K4 as (_ & _ & _ & _ & _ & _ & _ & R4 & _),
             K5 as (_ & _ & _ & _ & _ & _ & _ & R5 & _),
             K6 as (_ & _ & _ & _ & _ & _ & _ & R6 & _).
    congruence. }
  assert (P7 : fst (_analyze_fraud_patterns user login w6) = Ok (0%Z, [])).
  { apply pattern_rule_never_fires. unfold draw. rewrite R6. apply Hu. }
  rewrite E7 in P7. cbn [fst] in P7. inversion P7; subst; clear P7.
  cbv zeta in Hres. inversion Hres; subst; clear Hres.
  unfold breakdown_of. cbn [fst]. eauto 7.
Qed.

(** ** Registration and lookup *)

Lemma find_app_none {A : Type} (p : A -> bool) (l : list A) (x : A) :
  find p l = None -> find p (l ++ [x]) = if p x then Some x else None.
Proof.
  induction l as [|a l IH]; cbn; [reflexivity|].
  destruct (p a); [discriminate|exact IH].
Qed.

Lemma find_app_some {A : Type} (p : A -> bool) (l : list A) (x y : A) :
  find p l = Some y -> find p (l ++ [x]) = Some y.
Proof.
  induction l as [|a l IH]; cbn; [discriminate|].
  destruct (p a); [auto|exact IH].
Qed.

Lemma dict_of_inj (p q : profile) : dict_of p = dict_of q -> p = q.
Proof. destruct p, q. unfold dict_of. cbn. intros H. now inversion H. Qed.

Lemma add_user_run (p : profile) (w : world) :
  add_user (dict_of p) w
  = if db_up w
    then match q_user (p_user_id p) w with
         | Some _ => (Ok false, w)
         | None => (Ok true, snd (insert_user p w))
         end
    else (Ok false, w).
Proof.
  unfold add_user, insert_user. monad_red.
  destruct (db_up w) eqn:Hup; [|reflexivity]. destruct p as [u d s la lo k m].
  cbn [p_user_id p_device_id p_sim_id p_lat p_lon p_keystroke_speed
       p_mouse_speed].
  destruct (q_user u w); cbn [snd]; rewrite ?Hup; reflexivity.
Qed.

Lemma add_user_missing (user_data : pydict) (w : world) :
  (forall p : profile, user_data <> dict_of p) ->
  add_user user_data w = (Ok false, w).
Proof.
  intros H. unfold add_user. monad_red.
  destruct (db_up w); [|reflexivity].
  destruct user_data as [[u|] [d|] [s|] [la|] [lo|] [k|] [m|]];
    try reflexivity.
  exfalso. apply (H (mk_profile u d s la lo k m)). reflexivity.
Qed.

(** X18: add_user never raises.  It returns True exactly when the
    connection works, all seven fields of the profile are present and no
    user is stored under the user id; it then stores the profile after
    the existing ones.  In every other case (a broken connection, a
    missing field, a user id already stored) it returns False and leaves
    the database as it was. *)
Theorem add_user_outcomes (user_data : pydict) (w : world) :
  (fst (add_user user_data w) = Ok true
   \/ add_user user_data w = (Ok false, w))
  /\ (fst (add_user user_data w) = Ok true
      <-> db_up w = true
          /\ exists p : profile,
               user_data = dict_of p /\ q_user (p_user_id p) w = None)
  /\ (forall p : profile,
        user_data = dict_of p -> fst (add_user user_data w) = Ok true ->
        users (snd (add_user user_data w)) = users w ++ [p]).
Proof.
  destruct user_data as [[u|] [d|] [s|] [la|] [lo|] [k|] [m|]].
  1:{ change (mk_pydict (Some u) (Some d) (Some s) (Some la) (Some lo)
                        (Some k) (Some m))
        with (dict_of (mk_profile u d s la lo k m)).
      rewrite add_user_run. cbn [p_user_id].
      destruct (db_up w); [destruct (q_user u w) as [row|] eqn:Hq|].
      - split; [now right|]. split.
        + split; [discriminate|]. intros [_ (p & Hp & Hn)].
          apply dict_of_inj in Hp. subst p. cbn in Hn. congruence.
        + discriminate.
      - split; [now left|]. split.
        + split; [|reflexivity]. intros _. split; [reflexivity|].
          exists (mk_profile u d s la lo k m). now split.
        + intros p Hp _. apply dict_of_inj in Hp. subst p.
          unfold insert_user. cbn [p_user_id]. rewrite Hq. reflexivity.
      - split; [now right|]. split.
        + split; [discriminate|]. intros [? _]. discriminate.
        + discriminate. }
  all: rewrite add_user_missing by (intros [? ? ? ? ? ? ?]; discriminate).
  all: split; [now right|]; split;
    [split; [discriminate|intros [_ ([? ? ? ? ? ? ?] & Hp & _)]; discriminate]
    |discriminate].
Qed.

Lemma add_user_outcomes_witness :
  fst (add_user (dict_of login_mallory) w0) = Ok true
  /\ users (snd (add_user (dict_of login_mallory) w0)) = [alice; login_mallory].
Proof.
  destruct (add_user_outcomes (dict_of login_mallory) w0) as (_ & Hiff & Hst).
  assert (H : fst (add_user (dict_of login_mallory) w0) = Ok true).
  { apply Hiff. split; [reflexivity|]. exists login_mallory.
    split; reflexivity. }
  split; [exact H|]. apply (Hst login_mallory eq_refl H).
Defined.

Lemma get_user_run (uid : string) (w : world) :
  get_user uid w
  = (Ok (if db_up w then option_map dict_of (q_user uid w) else None), w).
Proof.
  unfold get_user, select_user. monad_red.
  destruct (db_up w); [|reflexivity]. now destruct (q_user uid w).
Qed.

(** X19: a profile that add_user has stored is what get_user returns for
    its user id, and what get_user returns for every other user id is
    what it returned before: a registration never overwrites or hides a
    stored user. *)
Theorem add_user_then_get_user (p : profile) (w : world) :
  fst (add_user (dict_of p) w) = Ok true ->
  let w' := snd (add_user (dict_of p) w) in
  fst (get_user (p_user_id p) w') = Ok (Some (dict_of p))
  /\ (forall uid : string, uid <> p_user_id p ->
        fst (get_user uid w') = fst (get_user uid w)).
Proof.
  intros H w'. subst w'. rewrite add_user_run in *.
  destruct (db_up w) eqn:Hup; [|discriminate].
  destruct (q_user (p_user_id p) w) eqn:Hq; [discriminate|].
  unfold insert_user. rewrite Hq. cbn [snd].
  rewrite !get_user_run. cbn [db_up fst]. rewrite Hup.
  unfold q_user in *. cbn [users]. split.
  - rewrite (find_app_none _ _ _ Hq), String.eqb_refl. reflexivity.
  - intros uid Hne. rewrite !get_user_run. cbn [db_up fst]. rewrite Hup.
    unfold q_user. cbn [users].
    destruct (find (fun u => String.eqb (p_user_id u) uid) (users w))
      as [row|] eqn:Hf.
    + now rewrite (find_app_some _ _ _ _ Hf).
    + rewrite (find_app_none _ _ _ Hf).
      destruct (String.eqb_spec (p_user_id p) uid); [congruence|reflexivity].
Qed.

Lemma add_user_then_get_user_witness :
  fst (get_user "mallory" (snd (add_user (dict_of login_mallory) w0)))
  = Ok (Some (dict_of login_mallory))
  /\ fst (get_user "alice" (snd (add_user (dict_of login_mallory) w0)))
     = fst (get_user "alice" w0).
Proof.
  destruct (add_user_then_get_user login_mallory w0) as [H1 H2].
  - reflexivity.
  - split; [exact H1|]. apply H2. discriminate.
Defined.

(** X20: get_user never raises; it returns None on a broken connection
    and for a user id that is not stored.  The dict it returns for a
    stored user carries that user id and every field the analysis reads,
    so the analysis of any attempt the portal builds for a registered
    user raises no KeyError: it returns a decision when the distance
    between the stored location and the attempt's is defined, and raises
    the error of the distance function when it is not. *)
Theorem registered_user_is_analysed (uid : string) (w : world) :
  (exists r : option pydict, get_user uid w = (Ok r, w))
  /\ (db_up w = false \/ q_user uid w = None ->
      fst (get_user uid w) = Ok None)
  /\ (forall user : pydict,
        fst (get_user uid w) = Ok (Some user) ->
        user_id user = Some uid
        /\ forall (login : profile) (w1 : world),
             fields_present user (dict_of login)
             /\ match distance_of lib user (dict_of login) with
                | Some (Ok _) =>
                    exists (d : decision) (w' : world),
                      authenticate lib user (dict_of login) w1 = (Ok d, w')
                | Some (Raise e) =>
                    (e = ValueError \/ e = OverflowError)
                    /\ fst (authenticate lib user (dict_of login) w1) = Raise e
                | None => False
                end).
Proof.
  rewrite get_user_run. cbn [fst]. split; [eauto|]. split.
  - intros [->|H]; [reflexivity|]. rewrite H. now destruct (db_up w).
  - intros user H. destruct (db_up w); [|discriminate].
    destruct (q_user uid w) as [row|] eqn:Hq; [|discriminate].
    cbn [option_map] in H. inversion H; subst user. split.
    + unfold q_user in Hq. apply find_some in Hq. destruct Hq as [_ Hq].
      apply String.eqb_eq in Hq. cbn. now rewrite Hq.
    + intros login w1.
      pose proof (fields_present_dict_of row login) as Hp.
      split; [exact Hp|].
      destruct (distance_of lib (dict_of row) (dict_of login))
        as [[km|e]|] eqn:Hd.
      * eapply authenticate_ok; eauto.
      * split; [eapply distance_of_raises; eauto|].
        now apply authenticate_undefined.
      * rewrite distance_of_dict_of in Hd. discriminate.
Qed.

(** ** The priority of a fraud alert *)

(** X21: the portal sends a fraud alert only for a BLOCKED decision, and
    every BLOCKED decision has a score of at least 80, so the alert's
    priority is always CRITICAL: the priorities HIGH and MEDIUM are never
    used for a decision of the engine. *)
Theorem blocked_alert_priority (user login : pydict) (w : world) (d : decision) :
  fst (authenticate lib user login w) = Ok d -> status d = "BLOCKED" ->
  priority (risk_score d) = "CRITICAL".
Proof.
  intros H Hb. apply authenticate_result in H.
  destruct H as (Hs & Hv & _ & Hst).
  apply vocabulary_sum in Hv. destruct Hv as (Hsum & Hc & Hw).
  unfold priority.
  destruct (Z.leb_spec 70 (risk_score d)) as [_|Hlow]; [reflexivity|].
  exfalso. rewrite Hst in Hb. unfold decision_status in Hb.
  destruct (Z.leb_spec 80 (risk_score d)); [lia|].
  destruct (Z.leb_spec 2 (count_alerts "CRITICAL" (alerts d))); [lia|].
  cbn [orb] in Hb.
  destruct ((50 <=? risk_score d)%Z || (1 <=? count_alerts "CRITICAL" (alerts d))%Z);
    discriminate Hb.
Qed.

(** ** The primary key of users *)

Lemma q_user_none (uid : string) (w : world) :
  q_user uid w = None -> ~ In uid (map p_user_id (users w)).
Proof.
  unfold q_user. intros H Hin. apply in_map_iff in Hin.
  destruct Hin as (u & Hu & Hin).
  apply (find_none _ _ H) in Hin. apply String.eqb_neq in Hin. congruence.
Qed.

Lemma unique_key {A : Type} (key : A -> string) (l : list A) (a b : A) :
  NoDup (map key l) -> In a l -> In b l -> key a = key b -> a = b.
Proof.
  induction l as [|x l IH]; cbn; [contradiction|].
  intros Hnd Ha Hb Hk. inversion Hnd as [|k ks Hx Hl]; subst.
  destruct Ha as [->|Ha], Hb as [->|Hb].
  - reflexivity.
  - exfalso. apply Hx. rewrite Hk. now apply in_map.
  - exfalso. apply Hx. rewrite <- Hk. now apply in_map.
  - now apply IH.
Qed.

(** X22: the stored user ids stay pairwise different: add_user keeps them
    so (a second registration under a stored id is refused), and the
    analysis does not write users.  While they are, the row that the
    lookup finds for a user id is the only one stored under it, so the
    user is enrolled with the SIM of that row wherever the SIM lookup
    joins on it. *)
Theorem user_ids_stay_unique (w : world) :
  unique_user_ids w ->
  (forall user_data : pydict, unique_user_ids (snd (add_user user_data w)))
  /\ (forall user login : pydict,
        unique_user_ids (snd (comprehensive_risk_analysis lib user login w)))
  /\ (forall (uid : string) (row : profile),
        q_user uid w = Some row -> enrolled_sim uid (p_sim_id row) w).
Proof.
  intros Hu. split; [|split].
  - intros user_data.
    destruct user_data as [[u|] [d|] [s|] [la|] [lo|] [k|] [m|]].
    2-128: rewrite add_user_missing
      by (intros [? ? ? ? ? ? ?]; discriminate); exact Hu.
    change (mk_pydict (Some u) (Some d) (Some s) (Some la) (Some lo)
                      (Some k) (Some m))
      with (dict_of (mk_profile u d s la lo k m)).
    rewrite add_user_run. cbn [p_user_id].
    destruct (db_up w); [|exact Hu].
    destruct (q_user u w) as [row|] eqn:Hq; [exact Hu|].
    unfold insert_user. cbn [p_user_id]. rewrite Hq.
    unfold unique_user_ids. cbn [snd users]. rewrite map_app.
    apply NoDup_app; [exact Hu|repeat constructor; intros []|].
    intros a Ha [<-|[]]. cbn [map p_user_id] in *.
    now apply (q_user_none _ _ Hq).
  - intros user login. unfold unique_user_ids.
    destruct (frame_analysis user login w) as (_ & -> & _). exact Hu.
  - intros uid row Hq u Hin Hid. unfold q_user in Hq.
    apply find_some in Hq. destruct Hq as [Hrow Hk].
    apply String.eqb_eq in Hk. f_equal.
    apply (unique_key p_user_id (users w)); [exact Hu|exact Hin|exact Hrow|].
    congruence.
Qed.

(** ** How many alerts an approved attempt can carry *)

Ltac weight_leaf H :=
  inversion H; subst; clear H; cbn [snd app];
  repeat (apply Forall_cons; [vm_compute; discriminate|]); apply Forall_nil.

(** Every rule but the minor behavioural variation weighs at least 30. *)
Lemma device_layer_weights (user login : pydict) (w w' : world) ra :
  _analyze_device_intelligence user login w = (Ok ra, w') ->
  Forall (fun a => (30 <= rule_delta a)%Z) (snd ra).
Proof.
  intros H. unfold _analyze_device_intelligence in H.
  exec_in H; weight_leaf H.
Qed.

Lemma sim_layer_weights (user login : pydict) (w w' : world) ra :
  _analyze_sim_intelligence user login w = (Ok ra, w') ->
  Forall (fun a => (30 <= rule_delta a)%Z) (snd ra).
Proof.
  intros H. unfold _analyze_sim_intelligence, _detect_sim_cloning,
              _detect_dual_sim in H.
  exec_in H; weight_leaf H.
Qed.

Lemma geo_layer_weights (user login : pydict) (w w' : world) ra :
  _analyze_geospatial_intelligence lib user login w = (Ok ra, w') ->
  Forall (fun a => (30 <= rule_delta a)%Z) (snd ra).
Proof.
  intros H. unfold _analyze_geospatial_intelligence, _assess_location_risk in H.
  exec_in H; weight_leaf H.
Qed.

Lemma temporal_layer_weights (user login : pydict) (w w' : world) ra :
  _analyze_temporal_patterns user login w = (Ok ra, w') ->
  Forall (fun a => (30 <= rule_delta a)%Z) (snd ra).
Proof.
  intros H. unfold _analyze_temporal_patterns in H.
  exec_in H; weight_leaf H.
Qed.

Lemma network_layer_weights (user login : pydict) (w w' : world) ra :
  _analyze_network_intelligence user login w = (Ok ra, w') ->
  Forall (fun a => (30 <= rule_delta a)%Z) (snd ra).
Proof.
  intros H. unfold _analyze_network_intelligence in H.
  exec_in H; weight_leaf H.
Qed.

Lemma pattern_layer_weights (user login : pydict) (w w' : world) ra :
  _analyze_fraud_patterns user login w = (Ok ra, w') ->
  Forall (fun a => (30 <= rule_delta a)%Z) (snd ra).
Proof.
  intros H. unfold _analyze_fraud_patterns in H.
  unfold bind in H.
  destruct (_check_fraud_patterns_run login w) as [(_ & _ & E)|(_ & E)];
    rewrite E in H; exec_in H; weight_leaf H.
Qed.

Lemma behavior_layer_weights (user login : pydict) (w w' : world) ra :
  _analyze_behavioral_biometrics user login w = (Ok ra, w') ->
  Forall (fun a => (20 <= rule_delta a)%Z) (snd ra)
  /\ (List.length (snd ra) <= 1)%nat.
Proof.
  intros H. unfold _analyze_behavioral_biometrics, _detect_bot_behavior in H.
  exec_in H; inversion H; subst; clear H; cbn [snd List.length];
    (split; [|lia]);
    repeat (apply Forall_cons; [vm_compute; discriminate|]); apply Forall_nil.
Qed.

Lemma weights_sum (k : Z) (l : list alert) :
  Forall (fun a => (k <= rule_delta a)%Z) l ->
  (k * Z.of_nat (List.length l) <= sum_deltas l)%Z.
Proof.
  unfold sum_deltas. induction 1 as [|a l Ha Hl IH]; [cbn; lia|].
  cbn [fold_right List.length]. lia.
Qed.

(** X23: a decision has score 0 exactly when it carries no alert, and
    any two alerts together weigh at least 50: an APPROVED decision
    carries at most one alert, and that alert is not CRITICAL. *)
Theorem approved_carries_one_alert
        (user login : pydict) (w : world) (d : decision) :
  fst (authenticate lib user login w) = Ok d ->
  (risk_score d = 0%Z <-> alerts d = [])
  /\ (status d = "APPROVED" ->
      (List.length (alerts d) <= 1)%nat
      /\ count_alerts "CRITICAL" (alerts d) = 0%Z)
  /\ ((2 <= List.length (alerts d))%nat -> (50 <= risk_score d)%Z).
Proof.
  intros H.
  destruct (authenticate_result user login w d H) as (_ & Hv & _ & Hst).
  apply vocabulary_sum in Hv. destruct Hv as (Hsum & Hc & Hw).
  destruct (authenticate lib user login w) as [r w'] eqn:E.
  cbn [fst] in H. subst r. apply authenticate_inv in E.
  destruct E as (score & al & bd & conf & E & ->).
  cbn [risk_score alerts status] in *.
  apply analysis_inv in E.
  destruct E as (ra1 & w1 & ra2 & w2 & ra3 & w3 & ra4 & w4 & ra5 & w5
                 & ra6 & w6 & ra7 & E1 & E2 & E3 & E4 & E5 & E6 & E7 & Hres).
  pose proof (weights_sum _ _ (device_layer_weights _ _ _ _ _ E1)) as W1.
  pose proof (weights_sum _ _ (sim_layer_weights _ _ _ _ _ E2)) as W2.
  pose proof (weights_sum _ _ (geo_layer_weights _ _ _ _ _ E3)) as W3.
  destruct (behavior_layer_weights _ _ _ _ _ E4) as [W4 L4].
  apply weights_sum in W4.
  pose proof (weights_sum _ _ (temporal_layer_weights _ _ _ _ _ E5)) as W5.
  pose proof (weights_sum _ _ (network_layer_weights _ _ _ _ _ E6)) as W6.
  pose proof (weights_sum _ _ (pattern_layer_weights _ _ _ _ _ E7)) as W7.
  apply device_layer_explained in E1. apply sim_layer_explained in E2.
  apply geo_layer_explained in E3. apply behavior_layer_explained in E4.
  apply temporal_layer_explained in E5. apply network_layer_explained in E6.
  apply pattern_layer_explained in E7.
  destruct E1 as (S1 & _), E2 as (S2 & _), E3 as (S3 & _),
           E4 as (S4 & _), E5 as (S5 & _), E6 as (S6 & _), E7 as (S7 & _).
  cbv zeta in Hres. inversion Hres; subst; clear Hres.
  rewrite !sum_deltas_app in Hsum.
  assert (Hlen : List.length (snd ra1 ++ snd ra2 ++ snd ra3 ++ snd ra4
                              ++ snd ra5 ++ snd ra6 ++ snd ra7)
                 = (List.length (snd ra1) + List.length (snd ra2)
                    + List.length (snd ra3) + List.length (snd ra4)
                    + List.length (snd ra5) + List.length (snd ra6)
                    + List.length (snd ra7))%nat)
    by (rewrite !length_app; lia).
  split; [|split].
  - split.
    + intros Hz. apply length_zero_iff_nil. lia.
    + intros Hn.
      repeat (apply app_eq_nil in Hn; let H := fresh "N" in destruct Hn as [H Hn]).
      rewrite S1, S2, S3, S4, S5, S6, S7, N, N0, N1, N2, N3, N4, Hn.
      reflexivity.
  - intros Hap. unfold decision_status in Hap.
    destruct (Z.leb_spec 80 (Z.min (fst ra1 + fst ra2 + fst ra3 + fst ra4
                                    + fst ra5 + fst ra6 + fst ra7) 100));
      [discriminate|].
    destruct (Z.leb_spec 2 (count_alerts "CRITICAL"
                (snd ra1 ++ snd ra2 ++ snd ra3 ++ snd ra4 ++ snd ra5
                 ++ snd ra6 ++ snd ra7))); [discriminate|].
    destruct (Z.leb_spec 50 (Z.min (fst ra1 + fst ra2 + fst ra3 + fst ra4
                                    + fst ra5 + fst ra6 + fst ra7) 100));
      [discriminate|].
    destruct (Z.leb_spec 1 (count_alerts "CRITICAL"
                (snd ra1 ++ snd ra2 ++ snd ra3 ++ snd ra4 ++ snd ra5
                 ++ snd ra6 ++ snd ra7))); [discriminate|].
    split; lia.
  - intros H2. lia.
Qed.

End Engine.

(** * The scenarios with the C library of the platform *)

(** The geo layer at about 3336, 1112, 111 and 6672 km. *)
Lemma scenario_geo_30deg :
  fst (_analyze_geospatial_intelligence glibc (dict_of alice)
                                        (dict_of login_30deg) w0)
  = Ok (55%Z, [FText "WARNING: High-speed travel " (FmtKm km_30deg) "km"]).
Proof. run_engine. reflexivity. Qed.

Lemma scenario_geo_10deg :
  fst (_analyze_geospatial_intelligence glibc (dict_of alice)
                                        (dict_of login_10deg) w0)
  = Ok (30%Z, [FText "INFO: New location " (FmtKm km_10deg) "km away"]).
Proof. run_engine. reflexivity. Qed.

Lemma scenario_geo_1deg :
  fst (_analyze_geospatial_intelligence glibc (dict_of alice)
                                        (dict_of login_1deg) w0)
  = Ok (0%Z, []).
Proof. run_engine. reflexivity. Qed.

Lemma scenario_geo_60deg :
  fst (_analyze_geospatial_intelligence glibc (dict_of alice)
                                        (dict_of login_60deg) w0)
  = Ok (85%Z, [FText "CRITICAL: Impossible travel " (FmtKm km_60deg) "km"]).
Proof. run_engine. reflexivity. Qed.

(** A new device on the draws 0.9, 0.05, 0.05, ...: 80 and 40, capped. *)
Lemma scenario_new_device_vpn :
  fst (comprehensive_risk_analysis glibc (dict_of alice)
                                   (dict_of login_new_device) w0_low)
  = Ok (100%Z,
        [Text "CRITICAL: Unknown device detected";
         Text "WARNING: VPN/Proxy usage detected"],
        breakdown_of 80 0 0 0 0 40 0, 0.88).
Proof. run_engine. reflexivity. Qed.


Lemma decision_policy_witness :
  (80 <= 80 \/ 2 <= Z.of_nat (List.length
                               (filter (alert_contains "CRITICAL") [])))%Z
  /\ decision_status 80 [] = "BLOCKED".
Proof.
  assert (H : (80 <= 80 \/ 2 <= Z.of_nat (List.length
                 (filter (alert_contains "CRITICAL") [])))%Z) by (left; lia).
  split; [exact H|].
  destruct (proj1 (decision_policy glibc) 80%Z []) as [Hb _]. apply Hb. exact H.
Defined.

Lemma total_score_is_capped_sum_witness :
  exists w' : world,
    comprehensive_risk_analysis glibc (dict_of alice) (dict_of login_new_device)
                                w0_low
    = (Ok (100%Z,
           [Text "CRITICAL: Unknown device detected";
            Text "WARNING: VPN/Proxy usage detected"],
           breakdown_of 80 0 0 0 0 40 0, 0.88), w')
    /\ sum_deltas [Text "CRITICAL: Unknown device detected";
                   Text "WARNING: VPN/Proxy usage detected"] = 120%Z
    /\ 100%Z = Z.min 100 120
    /\ sum_values (breakdown_of 80 0 0 0 0 40 0) = 120%Z.
Proof.
  pose proof scenario_new_device_vpn as H.
  destruct (comprehensive_risk_analysis glibc (dict_of alice)
              (dict_of login_new_device) w0_low) as [r w'] eqn:E.
  cbn [fst] in H. subst r. exists w'. split; [reflexivity|].
  destruct (proj2 (total_score_is_capped_sum glibc) _ _ _ _ _ _ _ _ E)
    as (ra1 & w1 & ra2 & w2 & ra3 & w3 & ra4 & w4 & ra5 & w5 & ra6 & w6 & ra7
        & _ & _ & _ & _ & _ & _ & _ & _ & _ & _ & _ & Hcap & _ & Hsum).
  assert (Hd : sum_deltas [Text "CRITICAL: Unknown device detected";
                           Text "WARNING: VPN/Proxy usage detected"] = 120%Z)
    by reflexivity.
  split; [exact Hd|]. rewrite <- Hd. split; [exact Hcap|exact Hsum].
Defined.



Lemma deterministic_given_draws_witness :
  agree 9 w0 w0_tail
  /\ fst (authenticate glibc (dict_of alice) (dict_of alice) w0)
     = fst (authenticate glibc (dict_of alice) (dict_of alice) w0_tail).
Proof.
  split; [exact agree_w0_w0_tail|].
  apply (proj1 (deterministic_given_draws glibc) _ _ w0 w0_tail
           agree_w0_w0_tail).
Defined.

(** The same profile, attempt, store and clock: approved with score 0 on
    one sequence of draws, blocked with score 100 on another. *)
Lemma same_state_two_decisions :
  same_store w0 w0_low
  /\ fst (authenticate glibc (dict_of alice) (dict_of alice) w0)
     = Ok (mk_decision "APPROVED" 0 [] (breakdown_of 0 0 0 0 0 0 0) 0.92)
  /\ fst (authenticate glibc (dict_of alice) (dict_of alice) w0_low)
     = Ok (mk_decision "BLOCKED" 100
             [Text "WARNING: High-risk geographic area";
              Text "WARNING: VPN/Proxy usage detected"]
             (breakdown_of 0 0 60 0 0 40 0) 0.82)
  /\ fst (authenticate glibc (dict_of alice) (dict_of alice) w0)
     <> fst (authenticate glibc (dict_of alice) (dict_of alice) w0_low).
Proof.
  split; [unfold same_store, w0, w0_low; cbn; repeat split; reflexivity|].
  split; [exact (scenario_unchanged glibc)|].
  split; [exact (scenario_unchanged_other_draws glibc)|].
  rewrite (scenario_unchanged glibc), (scenario_unchanged_other_draws glibc).
  discriminate.
Qed.

Lemma unknown_device_alone_witness :
  let d := mk_decision "BLOCKED" 80 [Text "CRITICAL: Unknown device detected"]
                       (breakdown_of 80 0 0 0 0 0 0) 0.88 in
  risk_score d = 80%Z
  /\ alerts d = [Text "CRITICAL: Unknown device detected"]
  /\ count_alerts "CRITICAL" (alerts d) = 1%Z
  /\ status d = "BLOCKED".
Proof.
  intros d.
  apply (unknown_device_alone glibc alice login_new_device w0 d).
  - discriminate.
  - reflexivity.
  - exact (scenario_new_device glibc).
  - intros layer v Hin Hne. unfold d, breakdown_of in Hin.
    cbn [risk_breakdown In] in Hin.
    repeat (destruct Hin as [Hin|Hin];
            [inversion Hin; subst; try reflexivity; now elim Hne|]).
    contradiction.
Defined.

(** An unknown device alone is blocked, not challenged. *)
Lemma unknown_device_is_blocked :
  p_device_id login_new_device <> p_device_id alice
  /\ fst (_get_device_intelligence (p_device_id login_new_device) w0) = Ok None
  /\ fst (authenticate glibc (dict_of alice) (dict_of login_new_device) w0)
     = Ok (mk_decision "BLOCKED" 80 [Text "CRITICAL: Unknown device detected"]
             (breakdown_of 80 0 0 0 0 0 0) 0.88)
  /\ "BLOCKED" <> "CHALLENGE".
Proof.
  split; [discriminate|]. split; [reflexivity|].
  split; [exact (scenario_new_device glibc)|discriminate].
Qed.

Lemma geo_distance_bands_witness :
  _calculate_distance glibc (degrees (p_lat alice)) (degrees (p_lon alice))
                      (degrees (p_lat login_30deg)) (degrees (p_lon login_30deg))
  = Ok km_30deg
  /\ (exceeds km_30deg 2000 /\ ~ exceeds km_30deg 5000)
  /\ fst (_analyze_geospatial_intelligence glibc (dict_of alice)
                                           (dict_of login_30deg) w0)
     = Ok ((55 + fst (high_risk_area (0 + (1 - 0) * draw w0 0)))%Z,
           FText "WARNING: High-speed travel " (FmtKm km_30deg) "km"
           :: snd (high_risk_area (0 + (1 - 0) * draw w0 0))).
Proof.
  assert (Hd : _calculate_distance glibc
                 (degrees (p_lat alice)) (degrees (p_lon alice))
                 (degrees (p_lat login_30deg)) (degrees (p_lon login_30deg))
               = Ok km_30deg) by (vm_compute; reflexivity).
  assert (Hb : exceeds km_30deg 2000 /\ ~ exceeds km_30deg 5000)
    by (split; [reflexivity|intros H; discriminate H]).
  split; [exact Hd|]. split; [exact Hb|].
  apply (geo_distance_bands glibc alice login_30deg w0 _ Hd). exact Hb.
Defined.

(** At about 3336 km the geo rule adds 55 with a WARNING, at about 1112 km
    it adds 30 with an INFO alert, at about 111 km it adds nothing. *)
Lemma geo_bands_counterexample :
  (exists d : float,
      _calculate_distance glibc (degrees (p_lat alice)) (degrees (p_lon alice))
                          (degrees (p_lat login_30deg))
                          (degrees (p_lon login_30deg)) = Ok d
      /\ exceeds d 2000
      /\ fst (_analyze_geospatial_intelligence glibc (dict_of alice)
                                               (dict_of login_30deg) w0)
         = Ok (55%Z, [FText "WARNING: High-speed travel " (FmtKm d) "km"]))
  /\ (exists d : float,
         _calculate_distance glibc (degrees (p_lat alice)) (degrees (p_lon alice))
                             (degrees (p_lat login_10deg))
                             (degrees (p_lon login_10deg)) = Ok d
         /\ (exceeds d 500 /\ ~ exceeds d 2000)
         /\ fst (_analyze_geospatial_intelligence glibc (dict_of alice)
                                                  (dict_of login_10deg) w0)
            = Ok (30%Z, [FText "INFO: New location " (FmtKm d) "km away"]))
  /\ (exists d : float,
         _calculate_distance glibc (degrees (p_lat alice)) (degrees (p_lon alice))
                             (degrees (p_lat login_1deg))
                             (degrees (p_lon login_1deg)) = Ok d
         /\ (exceeds d 50 /\ ~ exceeds d 500)
         /\ fst (_analyze_geospatial_intelligence glibc (dict_of alice)
                                                  (dict_of login_1deg) w0)
            = Ok (0%Z, [])).
Proof.
  split; [|split].
  - exists km_30deg. split; [vm_compute; reflexivity|].
    split; [reflexivity|exact scenario_geo_30deg].
  - exists km_10deg. split; [vm_compute; reflexivity|].
    split; [split; [reflexivity|intros H; discriminate H]|].
    exact scenario_geo_10deg.
  - exists km_1deg. split; [vm_compute; reflexivity|].
    split; [split; [reflexivity|intros H; discriminate H]|].
    exact scenario_geo_1deg.
Qed.

Lemma status_by_score_witness :
  let d := mk_decision "BLOCKED" 80 [Text "CRITICAL: Unknown device detected"]
                       (breakdown_of 80 0 0 0 0 0 0) 0.88 in
  (status d = "BLOCKED" <-> (80 <= risk_score d)%Z)
  /\ (status d = "CHALLENGE" <-> (50 <= risk_score d < 80)%Z)
  /\ (status d = "APPROVED" <-> (risk_score d < 50)%Z).
Proof.
  intros d.
  apply (status_by_score glibc (dict_of alice) (dict_of login_new_device) w0 d).
  exact (scenario_new_device glibc).
Defined.

Lemma confidence_by_status_witness :
  let d := mk_decision "BLOCKED" 100
             [Text "WARNING: High-risk geographic area";
              Text "WARNING: VPN/Proxy usage detected"]
             (breakdown_of 0 0 60 0 0 40 0) 0.82 in
  ml_confidence d = 0.82 /\ (80 <= risk_score d)%Z /\ status d = "BLOCKED".
Proof.
  intros d. split; [reflexivity|].
  apply (confidence_by_status glibc (dict_of alice) (dict_of alice) w0_low d).
  - exact (scenario_unchanged_other_draws glibc).
  - reflexivity.
Defined.

Lemma alert_type_is_prefix_witness :
  Forall (fun a => in_vocabulary a
                   /\ String.prefix (alert_type a ++ ": ") (alert_literal a)
                      = true
                   /\ (alert_contains "CRITICAL" a
                       && alert_contains "WARNING" a = false))
         [Text "CRITICAL: Unknown device detected"].
Proof.
  apply (alert_type_is_prefix glibc (dict_of alice) (dict_of login_new_device)
           w0
           (mk_decision "BLOCKED" 80 [Text "CRITICAL: Unknown device detected"]
                        (breakdown_of 80 0 0 0 0 0 0) 0.88)).
  exact (scenario_new_device glibc).
Defined.

Lemma analysis_writes_only_intelligence_witness :
  device_intelligence
    (snd (comprehensive_risk_analysis glibc (dict_of alice)
                                      (dict_of login_new_sim) w0))
  = device_intelligence w0.
Proof.
  destruct (analysis_writes_only_intelligence glibc
              (dict_of alice) (dict_of login_new_sim) w0) as (_ & _ & _ & H & _).
  apply H. left. reflexivity.
Defined.

Lemma changed_device_is_recorded_witness :
  fst (_get_device_intelligence "D2"
         (snd (comprehensive_risk_analysis glibc (dict_of alice)
                                           (dict_of login_new_device) w0)))
  = Ok (Some (written_device_row "D2" w0)).
Proof.
  apply (changed_device_is_recorded glibc alice login_new_device w0).
  - discriminate.
  - reflexivity.
Defined.

Lemma retried_device_is_known_witness :
  fst (authenticate glibc (dict_of alice) (dict_of login_new_device) w0)
  = Ok (mk_decision "BLOCKED" 80 [Text "CRITICAL: Unknown device detected"]
          (breakdown_of 80 0 0 0 0 0 0) 0.88)
  /\ fst (_analyze_device_intelligence
            (dict_of alice) (dict_of login_new_device)
            (snd (comprehensive_risk_analysis glibc (dict_of alice)
                                              (dict_of login_new_device) w0)))
     = Ok (35%Z, [Text "INFO: Known device change"]).
Proof.
  split; [exact (scenario_new_device glibc)|].
  destruct (retried_device_is_known glibc alice login_new_device w0)
    as [H1 H2].
  - discriminate.
  - reflexivity.
  - exact unit_draws_w0.
  - rewrite H1, H2; [reflexivity|reflexivity|reflexivity|].
    unfold draw. cbn. lra.
Defined.


(** A first swap is counted; a swap on the count 2^63 - 1 is not. *)
Lemma changed_sim_is_counted_witness :
  q_swap_frequency "S2"
    (snd (comprehensive_risk_analysis glibc (dict_of alice)
                                      (dict_of login_new_sim) w0))
  = Some 1%Z
  /\ q_swap_frequency "S2" w_sim_max = Some 9223372036854775807%Z
  /\ q_swap_frequency "S2"
       (snd (comprehensive_risk_analysis glibc (dict_of alice)
                                         (dict_of login_new_sim) w_sim_max))
     = Some 9223372036854775807%Z.
Proof.
  assert (Hne : p_sim_id login_new_sim <> p_sim_id alice) by discriminate.
  destruct (changed_sim_is_counted glibc alice login_new_sim w0 Hne eq_refl)
    as (H1 & _ & _).
  destruct (changed_sim_is_counted glibc alice login_new_sim w_sim_max Hne
              eq_refl) as (_ & H2 & _).
  split; [|split; [reflexivity|]].
  - apply H1. reflexivity.
  - apply (eq_trans (H2 eq_refl)). reflexivity.
Defined.

Lemma swap_lookup_is_stable_witness :
  fst (_get_sim_intelligence "alice"
         (snd (comprehensive_risk_analysis glibc (dict_of alice)
                                           (dict_of login_new_sim) w_sim0)))
  = fst (_get_sim_intelligence "alice" w_sim0).
Proof.
  apply (swap_lookup_is_stable glibc alice login_new_sim w_sim0).
  intros u [<-|[]] _. reflexivity.
Defined.

(** On a broken connection: a new device counts as unknown, and the
    attempt from the antipode raises. *)
Lemma outage_analysis_witness :
  (exists (score : Z) (al : list alert)
          (device sim geo behavior temporal network : Z) (conf : R),
      fst (comprehensive_risk_analysis glibc (dict_of alice)
                                       (dict_of login_new_device) w_down)
      = Ok (score, al,
            breakdown_of device sim geo behavior temporal network 0, conf)
      /\ device = 80%Z)
  /\ device_intelligence
       (snd (comprehensive_risk_analysis glibc (dict_of alice)
                                         (dict_of login_new_device) w_down))
     = device_intelligence w_down
  /\ fst (comprehensive_risk_analysis glibc (dict_of nemo)
                                      (dict_of login_antipode) w_down)
     = Raise ValueError.
Proof.
  destruct (outage_analysis glibc alice login_new_device w_down eq_refl)
    as (Hd & _ & H).
  destruct (outage_analysis glibc nemo login_antipode w_down eq_refl)
    as (_ & _ & H').
  split; [|split; [exact Hd|]].
  - change (_calculate_distance glibc (degrees (p_lat alice))
              (degrees (p_lon alice)) (degrees (p_lat login_new_device))
              (degrees (p_lon login_new_device)))
      with (@Ok float 0%float) in H.
    destruct H as (score & al & device & sim & geo & behavior & temporal
                   & network & conf & H & Hdev & _).
    exists score, al, device, sim, geo, behavior, temporal, network, conf.
    split; [exact H|]. apply Hdev. discriminate.
  - change (_calculate_distance glibc (degrees (p_lat nemo))
              (degrees (p_lon nemo)) (degrees (p_lat login_antipode))
              (degrees (p_lon login_antipode)))
      with (@Raise float ValueError) in H'.
    exact H'.
Defined.

Lemma bot_attempt_is_blocked_witness :
  let d := mk_decision "BLOCKED" 90
             [Text "CRITICAL: Automated/bot behavior detected"]
             (breakdown_of 0 0 0 90 0 0 0) 0.88 in
  status d = "BLOCKED"
  /\ (90 <= risk_score d <= 100)%Z
  /\ In (Text "CRITICAL: Automated/bot behavior detected") (alerts d)
  /\ In ("behavioral_analysis", 90%Z) (risk_breakdown d).
Proof.
  intros d.
  apply (bot_attempt_is_blocked glibc (dict_of alice) (dict_of login_bot) w0 d).
  - reflexivity.
  - reflexivity.
  - exact (scenario_bot glibc).
Defined.

Lemma pattern_layer_adds_nothing_witness :
  exists device sim geo behavior temporal network : Z,
    breakdown_of 80 0 0 0 0 0 0
    = breakdown_of device sim geo behavior temporal network 0.
Proof.
  apply (pattern_layer_adds_nothing glibc
           (dict_of alice) (dict_of login_new_device) w0 80%Z
           [Text "CRITICAL: Unknown device detected"]
           (breakdown_of 80 0 0 0 0 0 0) 0.88).
  - exact unit_draws_w0.
  - pose proof (scenario_new_device glibc) as H.
    unfold authenticate, bind in H.
    destruct (comprehensive_risk_analysis glibc (dict_of alice)
                (dict_of login_new_device) w0)
      as [[[[[score al] bd] conf]|e] w1]; [|discriminate H].
    cbn [fst ret] in *. inversion H. reflexivity.
Defined.

(** A registered user: an attempt with a new device gets a decision, an
    attempt from the antipode of the stored location a [ValueError]. *)
Lemma registered_user_is_analysed_witness :
  (fst (get_user "alice" w0) = Ok (Some (dict_of alice))
   /\ exists (d : decision) (w' : world),
        authenticate glibc (dict_of alice) (dict_of login_new_device) w0
        = (Ok d, w'))
  /\ (fst (get_user "nemo" w_nemo) = Ok (Some (dict_of nemo))
      /\ fst (authenticate glibc (dict_of nemo) (dict_of login_antipode) w_nemo)
         = Raise ValueError).
Proof.
  assert (Ha : fst (get_user "alice" w0) = Ok (Some (dict_of alice)))
    by reflexivity.
  assert (Hn : fst (get_user "nemo" w_nemo) = Ok (Some (dict_of nemo)))
    by reflexivity.
  destruct (registered_user_is_analysed glibc "alice" w0) as (_ & _ & H).
  destruct (H (dict_of alice) Ha) as [_ H2].
  destruct (registered_user_is_analysed glibc "nemo" w_nemo) as (_ & _ & H').
  destruct (H' (dict_of nemo) Hn) as [_ H2'].
  split; (split; [assumption|]).
  - destruct (H2 login_new_device w0) as [_ H3].
    change (distance_of glibc (dict_of alice) (dict_of login_new_device))
      with (Some (@Ok float 0%float)) in H3.
    exact H3.
  - destruct (H2' login_antipode w_nemo) as [_ H3].
    change (distance_of glibc (dict_of nemo) (dict_of login_antipode))
      with (Some (@Raise float ValueError)) in H3.
    apply H3.
Defined.

Lemma blocked_alert_priority_witness :
  priority (risk_score
              (mk_decision "BLOCKED" 80
                 [Text "CRITICAL: Unknown device detected"]
                 (breakdown_of 80 0 0 0 0 0 0) 0.88))
  = "CRITICAL".
Proof.
  apply (blocked_alert_priority glibc (dict_of alice)
           (dict_of login_new_device) w0).
  - exact (scenario_new_device glibc).
  - reflexivity.
Defined.

Lemma user_ids_stay_unique_witness :
  unique_user_ids (snd (add_user (dict_of login_mallory) w0))
  /\ enrolled_sim "alice" "S1" w0.
Proof.
  assert (Hu : unique_user_ids w0)
    by (repeat constructor; intros []).
  destruct (user_ids_stay_unique glibc w0 Hu) as (H1 & _ & H3).
  split; [apply H1|]. apply (H3 "alice" alice). reflexivity.
Defined.

Lemma approved_carries_one_alert_witness :
  let d := mk_decision "APPROVED" 0 [] (breakdown_of 0 0 0 0 0 0 0) 0.92 in
  (List.length (alerts d) <= 1)%nat
  /\ count_alerts "CRITICAL" (alerts d) = 0%Z.
Proof.
  intros d.
  apply (approved_carries_one_alert glibc (dict_of alice) (dict_of alice) w0 d).
  - exact (scenario_unchanged glibc).
  - reflexivity.
Defined.
